(** * A shallow embedding of the wifikeycontrol PC host: the binary packet
    codec of [src/pc-app/protocol.py] ([ProtocolHandler]) and the session
    logic of [src/pc-app/connection_manager.py] ([ConnectionManager]).

    Python values are modelled as the code uses them:
    - a [bytes] object is a list of integers, each in [0, 256);
    - the event dictionaries built by [input_capture.py] and serialised by
      [json.dumps] are JSON values ([json]), a dict being the list of its
      entries in insertion order;
    - an exception raised by the code is the [Raise] branch of [exc];
    - [struct.pack]/[struct.unpack] are modelled from their documented
      behaviour for the little-endian formats the code uses ('<' with the
      codes B, H, I, Q and Ns), including the [struct.error] raised on an
      item-count mismatch, an out-of-range integer or a wrong buffer length;
    - the library calls [zlib.compress], [zlib.decompress], [bytes.decode]
      with [errors='ignore'] and [json.loads] are parameters of the codec
      ([pylib]): the general theorems hold for every implementation of
      them, and the concrete runs use the instance [lib0]. *)

From Stdlib Require Import ZArith List String Ascii Bool Lia.
Import ListNotations.
Open Scope Z_scope.
Open Scope list_scope.
Set Warnings "-register-all".

(** ** Python exceptions and the exception monad *)

Inductive pyexc :=
| StructError | ValueError | TypeError | IndexError
| ZlibError | JSONDecodeError | AttributeError | OSError.

Inductive exc (A : Type) : Type :=
| Ok (a : A)
| Raise (e : pyexc).
Arguments Ok {A} a.
Arguments Raise {A} e.

Definition bind {A B} (m : exc A) (k : A -> exc B) : exc B :=
  match m with Ok a => k a | Raise e => Raise e end.

Notation "x <- m ;; k" := (bind m (fun x => k))
  (at level 61, m at next level, right associativity).

Definition bytes := list Z.

(** Python slicing [b[i:j]] for 0 <= i, j (out-of-range bounds are clipped). *)
Definition slice (i j : nat) (b : bytes) : bytes := firstn (j - i) (skipn i b).

(** ** [struct]: the little-endian formats used by the code *)

Inductive fcode := FB | FH | FI | FQ | Fs (n : nat).

Definition is_digit (c : ascii) : bool :=
  (Ascii.nat_of_ascii "0" <=? Ascii.nat_of_ascii c)%nat &&
  (Ascii.nat_of_ascii c <=? Ascii.nat_of_ascii "9")%nat.

Definition digit_val (c : ascii) : nat :=
  (Ascii.nat_of_ascii c - Ascii.nat_of_ascii "0")%nat.

(** The format string after its byte-order character: an optional repeat
    count before each code; for [s] the count is the field width. *)
Fixpoint parse_codes (s : string) (cnt : option nat) : option (list fcode) :=
  match s with
  | EmptyString => match cnt with None => Some [] | Some _ => None end
  | String c rest =>
      if is_digit c then
        parse_codes rest (Some (10 * (match cnt with Some n => n | None => 0 end)
                                + digit_val c)%nat)
      else
        let n := match cnt with Some n => n | None => 1%nat end in
        match parse_codes rest None with
        | None => None
        | Some cs =>
            if Ascii.eqb c "B" then Some (List.repeat FB n ++ cs)
            else if Ascii.eqb c "H" then Some (List.repeat FH n ++ cs)
            else if Ascii.eqb c "I" then Some (List.repeat FI n ++ cs)
            else if Ascii.eqb c "Q" then Some (List.repeat FQ n ++ cs)
            else if Ascii.eqb c "s" then Some (Fs n :: cs)
            else None
        end
  end.

Definition parse_fmt (fmt : string) : option (list fcode) :=
  match fmt with
  | String c rest => if Ascii.eqb c "<" then parse_codes rest None else None
  | EmptyString => None
  end.

Definition code_width (c : fcode) : nat :=
  match c with FB => 1 | FH => 2 | FI => 4 | FQ => 8 | Fs n => n end.

Definition calcsize (cs : list fcode) : nat :=
  fold_right (fun c acc => code_width c + acc)%nat 0%nat cs.

(** The [w] little-endian bytes of [v]. *)
Fixpoint le_bytes (w : nat) (v : Z) : bytes :=
  match w with
  | O => []
  | S w' => Z.land v 255 :: le_bytes w' (Z.shiftr v 8)
  end.

Fixpoint from_le (b : bytes) : Z :=
  match b with
  | [] => 0
  | x :: r => x + 256 * from_le r
  end.

Inductive pyval := PInt (z : Z) | PBytes (b : bytes).

Definition pack1 (c : fcode) (v : pyval) : exc bytes :=
  match c, v with
  | Fs n, PBytes b => Ok (firstn n b ++ List.repeat 0 (n - List.length b))
  | Fs _, PInt _ => Raise StructError
  | _, PBytes _ => Raise StructError
  | _, PInt z =>
      let w := code_width c in
      if (0 <=? z) && (z <? 2 ^ (8 * Z.of_nat w)) then Ok (le_bytes w z)
      else Raise StructError
  end.

Fixpoint pack_all (cs : list fcode) (vs : list pyval) : exc bytes :=
  match cs, vs with
  | c :: cs', v :: vs' =>
      b <- pack1 c v ;; r <- pack_all cs' vs' ;; Ok (b ++ r)
  | _, _ => Ok []
  end.

(** [struct.pack(fmt, *args)]: the item count is checked first. *)
Definition struct_pack (fmt : string) (args : list pyval) : exc bytes :=
  match parse_fmt fmt with
  | None => Raise StructError
  | Some cs =>
      if Nat.eqb (List.length cs) (List.length args) then pack_all cs args
      else Raise StructError
  end.

Fixpoint unpack_all (cs : list fcode) (b : bytes) : list pyval :=
  match cs with
  | [] => []
  | Fs n :: cs' => PBytes (firstn n b) :: unpack_all cs' (skipn n b)
  | c :: cs' =>
      let w := code_width c in
      PInt (from_le (firstn w b)) :: unpack_all cs' (skipn w b)
  end.

(** [struct.unpack(fmt, buffer)]: the buffer must have exactly
    [calcsize(fmt)] bytes. *)
Definition struct_unpack (fmt : string) (b : bytes) : exc (list pyval) :=
  match parse_fmt fmt with
  | None => Raise StructError
  | Some cs =>
      if Nat.eqb (List.length b) (calcsize cs) then Ok (unpack_all cs b)
      else Raise StructError
  end.

(** ** JSON values and [json.dumps]

    [JFloat m k] is the Python float [m / 10^k]; it is printed as Python's
    [repr] prints such a float when it lies in [1e-4, 1e16) and has at most
    fifteen significant digits (the timestamps [time.time()] and
    [time.time() * 1000] of the code). Strings are sequences of code points
    below 256. *)

Inductive json :=
| JNull
| JBool (b : bool)
| JInt (z : Z)
| JFloat (m : Z) (k : nat)
| JStr (s : string)
| JArr (l : list json)
| JObj (kv : list (string * json)).

Definition digit_char (d : Z) : ascii := Ascii.ascii_of_nat (48 + Z.to_nat d).

(** Decimal digits of [n >= 0] ([str(n)]). *)
Fixpoint digits_aux (fuel : nat) (n : Z) (acc : string) : string :=
  match fuel with
  | O => acc
  | S f =>
      let acc' := String (digit_char (n mod 10)) acc in
      if n <? 10 then acc' else digits_aux f (n / 10) acc'
  end.

Definition nat_digits (n : Z) : string :=
  digits_aux (S (Z.to_nat (Z.log2 n))) n EmptyString.

Definition int_str (z : Z) : string :=
  if z <? 0 then String "-" (nat_digits (- z)) else nat_digits z.

(** [k] decimal digits of [n], zero-padded on the left. *)
Fixpoint pad_digits (k : nat) (n : Z) (acc : string) : string :=
  match k with
  | O => acc
  | S k' => pad_digits k' (n / 10) (String (digit_char (n mod 10)) acc)
  end.

Fixpoint strip_trailing_zeros_rev (s : list ascii) : list ascii :=
  match s with
  | c :: r => if Ascii.eqb c "0" then strip_trailing_zeros_rev r else s
  | [] => []
  end.

Definition float_repr (m : Z) (k : nat) : string :=
  let a := Z.abs m in
  let p := 10 ^ Z.of_nat k in
  let frac := list_ascii_of_string (pad_digits k (a mod p) EmptyString) in
  let frac' := List.rev (strip_trailing_zeros_rev (List.rev frac)) in
  let frac_s := match frac' with [] => "0"%string | _ => string_of_list_ascii frac' end in
  ((if Z.ltb m 0 then "-" else EmptyString) ++ nat_digits (a / p) ++ "." ++ frac_s)%string.

Definition hex_char (d : nat) : ascii :=
  if (d <? 10)%nat then Ascii.ascii_of_nat (48 + d) else Ascii.ascii_of_nat (87 + d).

(** The double quote character. *)
Definition quote_char : ascii := Ascii.ascii_of_nat 34.

(** [json.encoder.py_encode_basestring_ascii] (the default [ensure_ascii]). *)
Definition escape_char (c : ascii) : string :=
  let n := Ascii.nat_of_ascii c in
  if Ascii.eqb c "\" then "\\"
  else if Ascii.eqb c quote_char then String "\" (String quote_char EmptyString)
  else if (n =? 8)%nat then "\b"
  else if (n =? 12)%nat then "\f"
  else if (n =? 10)%nat then "\n"
  else if (n =? 13)%nat then "\r"
  else if (n =? 9)%nat then "\t"
  else if (32 <=? n)%nat && (n <=? 126)%nat then String c EmptyString
  else String "\" (String "u" (String "0" (String "0"
         (String (hex_char (n / 16)) (String (hex_char (n mod 16)) EmptyString))))).

Fixpoint escape_string (s : string) : string :=
  match s with
  | EmptyString => EmptyString
  | String c r => (escape_char c ++ escape_string r)%string
  end.

Definition dumps_str (s : string) : string :=
  String quote_char (escape_string s ++ String quote_char EmptyString)%string.

Fixpoint join (sep : string) (l : list string) : string :=
  match l with
  | [] => EmptyString
  | [x] => x
  | x :: r => (x ++ sep ++ join sep r)%string
  end.

(** [json.dumps(v)] with the default separators [", "] and [": "]. *)
Fixpoint dumps (j : json) : string :=
  match j with
  | JNull => "null"
  | JBool true => "true"
  | JBool false => "false"
  | JInt z => int_str z
  | JFloat m k => float_repr m k
  | JStr s => dumps_str s
  | JArr l => ("[" ++ join ", " (map dumps l) ++ "]")%string
  | JObj kv =>
      ("{" ++ join ", " (map (fun '(k, v) => dumps_str k ++ ": " ++ dumps v)%string kv)
       ++ "}")%string
  end.

(** [str.encode('utf-8')] of the ASCII text [json.dumps] produces. *)
Definition utf8_encode_ascii (s : string) : bytes :=
  map (fun c => Z.of_nat (Ascii.nat_of_ascii c)) (list_ascii_of_string s).

(** [d.get(key, default)] on a dict with string keys. *)
Fixpoint dict_get (kv : list (string * json)) (key : string) : option json :=
  match kv with
  | [] => None
  | (k, v) :: r => if String.eqb k key then Some v else dict_get r key
  end.

Definition get_default (kv : list (string * json)) (key : string) (d : json) : json :=
  match dict_get kv key with Some v => v | None => d end.

(** [d[key] = value] on a dict: the entry is replaced in place, or
    appended when the key is new. *)
Fixpoint dict_set (kv : list (string * json)) (key : string) (v : json)
  : list (string * json) :=
  match kv with
  | [] => [(key, v)]
  | (k, w) :: r => if String.eqb k key then (k, v) :: r else (k, w) :: dict_set r key v
  end.

(** ** Python built-ins used on event fields *)

(** [str.strip()] whitespace among the code points below 256. *)
Definition py_is_space (c : ascii) : bool :=
  let n := Ascii.nat_of_ascii c in
  ((9 <=? n) && (n <=? 13))%nat || ((28 <=? n) && (n <=? 32))%nat
  || (n =? 133)%nat || (n =? 160)%nat.

Fixpoint strip_left (l : list ascii) : list ascii :=
  match l with
  | c :: r => if py_is_space c then strip_left r else l
  | [] => []
  end.

Definition py_strip (l : list ascii) : list ascii :=
  List.rev (strip_left (List.rev (strip_left l))).

(** Decimal digits, an underscore allowed only between two digits. *)
Fixpoint parse_dec (l : list ascii) (acc : Z) (prev_digit : bool) : option Z :=
  match l with
  | [] => if prev_digit then Some acc else None
  | c :: r =>
      if is_digit c then parse_dec r (10 * acc + Z.of_nat (digit_val c)) true
      else if Ascii.eqb c "_" then (if prev_digit then parse_dec r acc false else None)
      else None
  end.

Definition int_of_str (s : string) : option Z :=
  match py_strip (list_ascii_of_string s) with
  | c :: r =>
      if Ascii.eqb c "-" then option_map Z.opp (parse_dec r 0 false)
      else if Ascii.eqb c "+" then parse_dec r 0 false
      else parse_dec (c :: r) 0 false
  | [] => None
  end.

(** [int(v)]. *)
Definition py_int (v : json) : exc Z :=
  match v with
  | JInt z => Ok z
  | JBool b => Ok (if b then 1 else 0)
  | JFloat m k => Ok (Z.quot m (10 ^ Z.of_nat k))
  | JStr s => match int_of_str s with Some z => Ok z | None => Raise ValueError end
  | JNull | JArr _ | JObj _ => Raise TypeError
  end.

(** [bool(v)]. *)
Definition py_truthy (v : json) : bool :=
  match v with
  | JNull => false
  | JBool b => b
  | JInt z => negb (z =? 0)
  | JFloat m _ => negb (m =? 0)
  | JStr s => negb (String.eqb s EmptyString)
  | JArr l => match l with [] => false | _ => true end
  | JObj kv => match kv with [] => false | _ => true end
  end.

(** [D.get(v, default)] for a dict [D] with string keys: a list or a dict
    as the key is unhashable and raises [TypeError]. *)
Definition const_get (D : list (string * Z)) (v : json) (default : Z) : exc Z :=
  match v with
  | JStr s =>
      Ok (match find (fun '(k, _) => String.eqb k s) D with
          | Some (_, c) => c | None => default end)
  | JArr _ | JObj _ => Raise TypeError
  | _ => Ok default
  end.

Definition is_str (v : json) (s : string) : bool :=
  match v with JStr t => String.eqb t s | _ => false end.

(** [s.encode('utf-8')] for a string of code points below 256. *)
Definition utf8_encode (s : string) : bytes :=
  flat_map (fun c => let n := Z.of_nat (Ascii.nat_of_ascii c) in
                     if n <? 128 then [n]
                     else [Z.lor 192 (Z.shiftr n 6); Z.lor 128 (Z.land n 63)])
           (list_ascii_of_string s).

(** [b.rstrip(b'\x00')]. *)
Definition rstrip_zeros (b : bytes) : bytes :=
  List.rev ((fix drop l := match l with 0 :: r => drop r | _ => l end) (List.rev b)).

(** * [protocol.py]: [ProtocolHandler] *)

(** The library calls of the codec, left abstract. *)
Record pylib := {
  zlib_compress : bytes -> exc bytes;        (** [zlib.compress(b, level=1)] *)
  zlib_decompress : bytes -> exc bytes;      (** [zlib.decompress(b)] *)
  utf8_decode_ignore : bytes -> string;      (** [b.decode('utf-8', errors='ignore')] *)
  json_loads : bytes -> exc json             (** [json.loads(b.decode('utf-8'))] *)
}.

Module Protocol.

Definition HEADER_MAGIC : Z := 43707. (* 0xAABB *)

Definition PACKET_TYPES : list (string * Z) :=
  [("MOUSE_MOVEMENT", 1); ("MOUSE_CLICK", 2); ("KEYBOARD_KEY", 3);
   ("SCROLL_EVENT", 4); ("GESTURE_START", 5); ("GESTURE_END", 6);
   ("CONTROL_SWITCH", 7); ("HEARTBEAT", 8)]%string.

Definition MOUSE_BUTTONS : list (string * Z) :=
  [("left", 1); ("right", 2); ("middle", 3); ("x1", 4); ("x2", 5)]%string.

Definition CONTROL_EDGES : list (string * Z) :=
  [("left", 1); ("right", 2); ("top", 3); ("bottom", 4);
   ("hotkey", 5); ("return_to_pc", 6)]%string.

(** The instance attributes set by [__init__]. *)
Record handler := mkHandler {
  packet_sequence : Z;
  compression_enabled : bool;
  max_packet_size : Z
}.

Definition init_handler : handler := mkHandler 0 true 1024.

Definition next_seq (st : handler) : handler :=
  mkHandler ((packet_sequence st + 1) mod 65536)
            (compression_enabled st) (max_packet_size st).

(** ** [calculate_checksum] *)

Definition crc_shift (crc : Z) : Z :=
  if negb (Z.land crc 1 =? 0) then Z.lxor (Z.shiftr crc 1) 40961 (* 0xA001 *)
  else Z.shiftr crc 1.

Fixpoint crc_shifts (n : nat) (crc : Z) : Z :=
  match n with O => crc | S n' => crc_shifts n' (crc_shift crc) end.

(** One iteration of [for byte in data]: [crc ^= byte], then eight shifts. *)
Definition crc_byte (crc : Z) (byte : Z) : Z := crc_shifts 8 (Z.lxor crc byte).

Definition calculate_checksum (data : bytes) : Z :=
  fold_left crc_byte data 65535.

(** [struct.unpack(fmt, b)[0]]. *)
Definition first_int (vs : list pyval) : exc Z :=
  match vs with PInt z :: _ => Ok z | _ => Raise IndexError end.

Definition verify_checksum (packet : bytes) : exc bool :=
  let n := List.length packet in
  if (n <? 2)%nat then Ok false
  else
    r <- struct_unpack "<H" (skipn (n - 2) packet) ;;
    received <- first_int r ;;
    Ok (received =? calculate_checksum (firstn (n - 2) packet)).

Section Codec.
Variable L : pylib.

(** ** [build_packet] *)

Definition compress_step (st : handler) (packet_type : Z) (payload : bytes)
  : Z * bytes :=
  if compression_enabled st && (64 <? Z.of_nat (List.length payload)) then
    match zlib_compress L payload with
    | Ok c =>
        if (List.length c <? List.length payload)%nat
        then (Z.lor packet_type 128, c) else (packet_type, payload)
    | Raise _ => (packet_type, payload)
    end
  else (packet_type, payload).

Definition build_packet (st : handler) (packet_type : Z) (payload : bytes)
  : exc (bytes * handler) :=
  let '(ptype, pl) := compress_step st packet_type payload in
  hdr <- struct_pack "<HB" [PInt HEADER_MAGIC; PInt ptype] ;;
  let packet := hdr ++ pl in
  let checksum := calculate_checksum packet in
  ck <- struct_pack "<H" [PInt checksum] ;;
  Ok (packet ++ ck, next_seq st).

(** ** The typed encoders *)

Definition create_mouse_movement_packet (st : handler) (ev : list (string * json))
  (timestamp : Z) : exc (bytes * handler) :=
  x <- py_int (get_default ev "x" (JInt 0)) ;;
  y <- py_int (get_default ev "y" (JInt 0)) ;;
  payload <- struct_pack "<HHIIQ"
               [PInt (packet_sequence st); PInt x; PInt y; PInt timestamp] ;;
  build_packet st 1 payload.

Definition create_mouse_click_packet (st : handler) (ev : list (string * json))
  (timestamp : Z) : exc (bytes * handler) :=
  x <- py_int (get_default ev "x" (JInt 0)) ;;
  y <- py_int (get_default ev "y" (JInt 0)) ;;
  let button := get_default ev "button" (JStr "left") in
  let pressed := get_default ev "pressed" (JBool false) in
  button_byte <- const_get MOUSE_BUTTONS button 1 ;;
  let state_byte := if py_truthy pressed then 1 else 0 in
  payload <- struct_pack "<HIIIBBQ"
               [PInt (packet_sequence st); PInt x; PInt y; PInt button_byte;
                PInt state_byte; PInt timestamp] ;;
  build_packet st 2 payload.

Definition create_keyboard_packet (st : handler) (ev : list (string * json))
  (timestamp : Z) : exc (bytes * handler) :=
  key_code <- py_int (get_default ev "key_code" (JInt 0)) ;;
  let pressed := get_default ev "pressed" (JBool false) in
  key_str <- (match get_default ev "key" (JStr EmptyString) with
              | JStr s => Ok s | _ => Raise AttributeError end) ;;
  let key_bytes := firstn 16 (utf8_encode key_str) in
  let key_bytes_padded := key_bytes ++ List.repeat 0 (16 - List.length key_bytes) in
  let state_byte := if py_truthy pressed then 1 else 0 in
  let modifiers_byte := 0 in
  payload <- struct_pack "<HIBBB16sQ"
               [PInt (packet_sequence st); PInt key_code; PInt state_byte;
                PInt modifiers_byte; PBytes key_bytes_padded; PInt timestamp] ;;
  build_packet st 3 payload.

Definition create_scroll_packet (st : handler) (ev : list (string * json))
  (timestamp : Z) : exc (bytes * handler) :=
  x <- py_int (get_default ev "x" (JInt 0)) ;;
  y <- py_int (get_default ev "y" (JInt 0)) ;;
  dx <- py_int (get_default ev "dx" (JInt 0)) ;;
  dy <- py_int (get_default ev "dy" (JInt 0)) ;;
  payload <- struct_pack "<HIIHHHQ"
               [PInt (packet_sequence st); PInt x; PInt y; PInt dx; PInt dy;
                PInt timestamp] ;;
  build_packet st 4 payload.

Definition create_control_switch_packet (st : handler) (ev : list (string * json))
  (timestamp : Z) : exc (bytes * handler) :=
  let edge := get_default ev "edge" (JStr "left") in
  edge_byte <- const_get CONTROL_EDGES edge 1 ;;
  payload <- struct_pack "<HBBBQ"
               [PInt (packet_sequence st); PInt edge_byte; PInt 0; PInt 0; PInt 0;
                PInt timestamp] ;;
  build_packet st 7 payload.

(** [timestamp] is [int(time.time() * 1000)]. *)
Definition create_heartbeat_packet (st : handler) (timestamp : Z)
  : exc (bytes * handler) :=
  payload <- struct_pack "<HQ" [PInt (packet_sequence st); PInt timestamp] ;;
  build_packet st 8 payload.

Definition create_json_packet (st : handler) (event_data : json)
  : exc (bytes * handler) :=
  let json_data := utf8_encode_ascii (dumps event_data) in
  let json_len := List.length json_data in
  hdr <- struct_pack "<HH" [PInt (packet_sequence st); PInt (Z.of_nat json_len)] ;;
  build_packet st 255 (hdr ++ json_data).

(** ** [create_packet]; [now] is the float [time.time() * 1000], the default
    timestamp. *)
Definition create_packet (st : handler) (now : json) (event_data : json)
  : exc (bytes * handler) :=
  match event_data with
  | JObj ev =>
      let packet_type := get_default ev "type" (JStr EmptyString) in
      timestamp <- py_int (get_default ev "timestamp" now) ;;
      type_byte <- const_get PACKET_TYPES packet_type 0 ;;
      if type_byte =? 0 then create_json_packet st event_data
      else if is_str packet_type "mouse_move" then
        create_mouse_movement_packet st ev timestamp
      else if is_str packet_type "mouse_click" then
        create_mouse_click_packet st ev timestamp
      else if is_str packet_type "key_press" || is_str packet_type "key_release" then
        create_keyboard_packet st ev timestamp
      else if is_str packet_type "mouse_scroll" then
        create_scroll_packet st ev timestamp
      else if is_str packet_type "control_switch" then
        create_control_switch_packet st ev timestamp
      else create_json_packet st event_data
  | _ => Raise AttributeError
  end.

(** ** Decoding *)

(** The dict [parse_packet] returns, by the type code that produced it. *)
Inductive event :=
| EvMouseMove (seq x y timestamp : Z)
| EvMouseClick (seq x y : Z) (button : string) (pressed : bool) (timestamp : Z)
| EvKey (type : string) (seq key_code : Z) (key : string) (pressed : bool)
        (modifiers timestamp : Z)
| EvScroll (seq x y dx dy timestamp : Z)
| EvControlSwitch (seq : Z) (edge : string) (timestamp : Z)
| EvHeartbeat (seq timestamp : Z)
| EvJson (j : json).

(** The first name of [D], in insertion order, whose code is [c]. *)
Definition name_of (D : list (string * Z)) (c : Z) : string :=
  match find (fun '(_, k) => k =? c) D with
  | Some (n, _) => n | None => "unknown"%string end.

(** Each parser assigns the tuple of [struct.unpack] to a fixed number of
    names: a tuple of another length raises [ValueError]. *)
Definition parse_mouse_movement_packet (payload : bytes) : exc event :=
  vs <- struct_unpack "<HIIQ" payload ;;
  match vs with
  | [PInt seq; PInt x; PInt y; PInt ts] => Ok (EvMouseMove seq x y ts)
  | _ => Raise ValueError
  end.

Definition parse_mouse_click_packet (payload : bytes) : exc event :=
  vs <- struct_unpack "<HIIIBBQ" payload ;;
  match vs with
  | [PInt seq; PInt x; PInt y; PInt button; PInt state; PInt ts] =>
      Ok (EvMouseClick seq x y (name_of MOUSE_BUTTONS button) (negb (state =? 0)) ts)
  | _ => Raise ValueError
  end.

Definition parse_keyboard_packet (payload : bytes) : exc event :=
  vs <- struct_unpack "<HIBBB16sQ" payload ;;
  match vs with
  | [PInt seq; PInt key_code; PInt state; PInt modifiers; PBytes key_bytes; PInt ts] =>
      let key_str := utf8_decode_ignore L (rstrip_zeros key_bytes) in
      let event_type := if state =? 1 then "key_press"%string else "key_release"%string in
      Ok (EvKey event_type seq key_code key_str (negb (state =? 0)) modifiers ts)
  | _ => Raise ValueError
  end.

Definition parse_scroll_packet (payload : bytes) : exc event :=
  vs <- struct_unpack "<HIIHHHQ" payload ;;
  match vs with
  | [PInt seq; PInt x; PInt y; PInt dx; PInt dy; PInt ts] =>
      Ok (EvScroll seq x y dx dy ts)
  | _ => Raise ValueError
  end.

Definition parse_control_switch_packet (payload : bytes) : exc event :=
  vs <- struct_unpack "<HBBBQ" payload ;;
  match vs with
  | [PInt seq; PInt edge; PInt _; PInt _; PInt _; PInt ts] =>
      Ok (EvControlSwitch seq (name_of CONTROL_EDGES edge) ts)
  | _ => Raise ValueError
  end.

Definition parse_heartbeat_packet (payload : bytes) : exc event :=
  vs <- struct_unpack "<HQ" payload ;;
  match vs with
  | [PInt seq; PInt ts] => Ok (EvHeartbeat seq ts)
  | _ => Raise ValueError
  end.

Definition parse_json_packet (payload : bytes) : exc event :=
  vs <- struct_unpack "<HH" (firstn 4 payload) ;;
  match vs with
  | [PInt seq; PInt json_len] =>
      j <- json_loads L (slice 4 (4 + Z.to_nat json_len) payload) ;;
      Ok (EvJson j)
  | _ => Raise ValueError
  end.

Definition dispatch (packet_type : Z) (payload : bytes) : exc event :=
  if packet_type =? 1 then parse_mouse_movement_packet payload
  else if packet_type =? 2 then parse_mouse_click_packet payload
  else if packet_type =? 3 then parse_keyboard_packet payload
  else if packet_type =? 4 then parse_scroll_packet payload
  else if packet_type =? 7 then parse_control_switch_packet payload
  else if packet_type =? 8 then parse_heartbeat_packet payload
  else if packet_type =? 255 then parse_json_packet payload
  else Raise ValueError (* [return None] inside the [try] *).

(** [packet[i]]. *)
Definition py_index (b : bytes) (i : nat) : exc Z :=
  match nth_error b i with Some x => Ok x | None => Raise IndexError end.

(** [parse_packet]: [Ok None] is [return None], [Ok (Some e)] a returned
    dict, [Raise] an exception escaping to the caller. *)
Definition parse_packet (packet : bytes) : exc (option event) :=
  let n := List.length packet in
  if (n <? 5)%nat then Ok None
  else
    hv <- struct_unpack "<H" (firstn 2 packet) ;;
    header <- first_int hv ;;
    if negb (header =? HEADER_MAGIC) then Ok None
    else
      ok <- verify_checksum packet ;;
      if negb ok then Ok None
      else
        type_byte <- py_index packet 2 ;;
        let compressed := negb (Z.land type_byte 128 =? 0) in
        let packet_type := Z.land type_byte 127 in
        let payload := slice 3 (n - 2) packet in
        let decompressed :=
          if compressed then
            match zlib_decompress L payload with
            | Ok d => Some d | Raise _ => None end
          else Some payload in
        match decompressed with
        | None => Ok None
        | Some pl =>
            match dispatch packet_type pl with
            | Ok e => Ok (Some e)
            | Raise _ => Ok None
            end
        end.

(** ** Batching *)

Definition create_batch_packet (st : handler) (events : list json)
  : exc (bytes * handler) :=
  let batch_data := utf8_encode_ascii (dumps (JArr events)) in
  payload_hdr <- struct_pack "<HH"
                   [PInt (packet_sequence st); PInt (Z.of_nat (List.length batch_data))] ;;
  let payload := payload_hdr ++ batch_data in
  hdr <- struct_pack "<HB" [PInt HEADER_MAGIC; PInt 254] ;;
  let packet := hdr ++ payload in
  let checksum := calculate_checksum packet in
  ck <- struct_pack "<H" [PInt checksum] ;;
  Ok (packet ++ ck, next_seq st).

(** The [for event in events] loop of [batch_events], with its locals
    [packets], [current_batch] and [current_size]. *)
Fixpoint batch_loop (now : json) (max_size : Z) (st : handler) (events : list json)
  (packets : list bytes) (current_batch : list json) (current_size : Z)
  : exc (list bytes * handler) :=
  match events with
  | [] =>
      match current_batch with
      | [] => Ok (packets, st)
      | _ => r <- create_batch_packet st current_batch ;;
             Ok (packets ++ [fst r], snd r)
      end
  | event :: rest =>
      r <- create_packet st now event ;;
      let '(packet, st1) := r in
      let len := Z.of_nat (List.length packet) in
      if (max_size <? current_size + len)
         && negb (match current_batch with [] => true | _ => false end) then
        r2 <- create_batch_packet st1 current_batch ;;
        batch_loop now max_size (snd r2) rest (packets ++ [fst r2]) [event] len
      else
        batch_loop now max_size st1 rest packets (current_batch ++ [event])
                   (current_size + len)
  end.

Definition batch_events (st : handler) (now : json) (events : list json)
  (max_size : Z) : exc (list bytes * handler) :=
  batch_loop now max_size st events [] [] 0.

End Codec.
End Protocol.

(** * [connection_manager.py]: [ConnectionManager]

    The attributes of the manager that the properties read, plus ghost
    fields: the sockets closed so far, the bytes written to each socket, the
    [status_changed] emissions, and the sockets ever installed as the
    session. Sockets are numbered. [lock_held] is [self.lock], a
    [threading.Lock]: it is not reentrant, so the thread that holds it and
    acquires it again waits forever ([Blocked]). One thread runs at a time. *)
Module ConnMgr.

Record session := mkSession {
  client_socket : option nat;
  client_address : option string;
  device_name : json;
  connected : bool;
  server_running : bool;
  lock_held : bool;
  closed : list nat;
  sent : list (nat * bytes);
  status_events : list (bool * json);
  accepted : list nat
}.

Inductive outcome (A : Type) :=
| Done (a : A) (s : session)
| Blocked (s : session).
Arguments Done {A} a s.
Arguments Blocked {A} s.

Definition M (A : Type) := session -> outcome A.

Definition ret {A} (a : A) : M A := fun s => Done a s.

Definition sbind {A B} (m : M A) (k : A -> M B) : M B :=
  fun s => match m s with Done a s' => k a s' | Blocked s' => Blocked s' end.

Notation "x <~ m ;; k" := (sbind m (fun x => k))
  (at level 61, m at next level, right associativity).
Notation "m ;;; k" := (sbind m (fun _ => k)) (at level 61, right associativity).

Definition get : M session := fun s => Done s s.
Definition put (s' : session) : M unit := fun _ => Done tt s'.
Definition modify (f : session -> session) : M unit := fun s => Done tt (f s).

Definition acquire : M unit :=
  fun s => if lock_held s then Blocked s
           else Done tt (mkSession (client_socket s) (client_address s) (device_name s)
                           (connected s) (server_running s) true (closed s) (sent s)
                           (status_events s) (accepted s)).

Definition release : M unit :=
  modify (fun s => mkSession (client_socket s) (client_address s) (device_name s)
                     (connected s) (server_running s) false (closed s) (sent s)
                     (status_events s) (accepted s)).

(** [sock.close()] (its errors ignored). *)
Definition close_sock (c : nat) : M unit :=
  modify (fun s => mkSession (client_socket s) (client_address s) (device_name s)
                     (connected s) (server_running s) (lock_held s) (c :: closed s)
                     (sent s) (status_events s) (accepted s)).

Definition write_sock (c : nat) (b : bytes) : M unit :=
  modify (fun s => mkSession (client_socket s) (client_address s) (device_name s)
                     (connected s) (server_running s) (lock_held s) (closed s)
                     (sent s ++ [(c, b)]) (status_events s) (accepted s)).

Definition emit_status (connected : bool) (name : json) : M unit :=
  modify (fun s => mkSession (client_socket s) (client_address s) (device_name s)
                     (ConnMgr.connected s) (server_running s) (lock_held s) (closed s)
                     (sent s) (status_events s ++ [(connected, name)]) (accepted s)).

Definition disconnect_client : M unit :=
  acquire ;;;
  s <~ get ;;
  (match client_socket s with Some c => close_sock c | None => ret tt end) ;;;
  s1 <~ get ;;
  let old_device_name := device_name s1 in
  put (mkSession None None (JStr EmptyString) false (server_running s1) (lock_held s1)
                 (closed s1) (sent s1) (status_events s1) (accepted s1)) ;;;
  release ;;;
  if py_truthy old_device_name then emit_status false (JStr EmptyString) else ret tt.

(** [send_packet(packet)]; [send_ok] says whether [client_socket.send]
    returns or raises. *)
Definition send_packet (packet : bytes) (send_ok : bool) : M bool :=
  acquire ;;;
  s <~ get ;;
  match connected s, client_socket s with
  | true, Some c =>
      if send_ok then write_sock c packet ;;; release ;;; ret true
      else disconnect_client ;;; release ;;; ret false
  | _, _ => release ;;; ret false
  end.

(** [send_json(sock, data)]: [None.send] raises [AttributeError], caught. *)
Definition send_json (sock : option nat) (data : json) (send_ok : bool) : M bool :=
  match sock with
  | Some c =>
      if send_ok then write_sock c (utf8_encode_ascii (dumps data ++ String "010"%char EmptyString)) ;;; ret true
      else ret false
  | None => ret false
  end.

(** [handle_client_connection(sock, addr)] after the handshake request was
    sent; [response] is what [receive_json] returned. The result is
    [Some sock] when the call starts the thread running
    [handle_client_data(sock)] (see [handle_client_data] below), [None]
    when it starts no thread. *)
Definition handle_client_connection (sock : nat) (addr : string)
  (response : option json) : M (option nat) :=
  match response with
  | Some (JObj kv) =>
      if py_truthy (JObj kv) && is_str (get_default kv "type" JNull) "handshake_response" then
        let name := get_default kv "device_name" (JStr "Unknown Device") in
        s <~ get ;;
        (match client_socket s with Some _ => disconnect_client | None => ret tt end) ;;;
        acquire ;;;
        modify (fun s => mkSession (Some sock) (Some addr) name true (server_running s)
                           (lock_held s) (closed s) (sent s) (status_events s)
                           (sock :: accepted s)) ;;;
        release ;;;
        (* [status_changed.emit(True, device_name)] raises on a non-str name;
           the [except] branch closes the socket and no thread is started.
           Otherwise [client_handler_thread.start()]. *)
        match name with
        | JStr _ => emit_status true name ;;; ret (Some sock)
        | _ => close_sock sock ;;; ret None
        end
      else close_sock sock ;;; ret None
  | _ => close_sock sock ;;; ret None
  end.

Definition HEARTBEAT_INTERVAL_SECONDS : Z := 5.

(** One iteration of [heartbeat_monitor] after its [time.sleep(5.0)];
    [now] is [time.time()]. *)
Definition heartbeat_tick (now : json) (send_ok : bool) : M unit :=
  s <~ get ;;
  if connected s then
    let heartbeat := JObj [("type", JStr "heartbeat"); ("timestamp", now)]%string in
    ok <~ send_json (client_socket s) heartbeat send_ok ;;
    if ok then ret tt else disconnect_client
  else ret tt.

(** [heartbeat_monitor]: one [(time.time(), send succeeds)] per iteration. *)
Fixpoint heartbeat_monitor (ticks : list (json * bool)) : M unit :=
  match ticks with
  | [] => ret tt
  | (now, ok) :: rest =>
      s <~ get ;;
      if server_running s then heartbeat_tick now ok ;;; heartbeat_monitor rest
      else ret tt
  end.

(** [is_connected()]. *)
Definition is_connected : M bool :=
  acquire ;;; s <~ get ;; release ;;; ret (connected s).

(** [stop_server()]. Its last call, [cleanup()], closes the listening TCP
    socket and the UDP discovery socket, which are not fields of [session]:
    on the modelled state it does nothing. *)
Definition cleanup : M unit := ret tt.

Definition stop_server : M unit :=
  acquire ;;;
  s <~ get ;;
  if negb (server_running s) then release
  else
    modify (fun s => mkSession (client_socket s) (client_address s) (device_name s)
                       (connected s) false (lock_held s) (closed s) (sent s)
                       (status_events s) (accepted s)) ;;;
    release ;;;
    disconnect_client ;;;
    cleanup.

(** ** [listen_for_discovery_responses]

    One element per iteration of its [while self.server_running] loop: a
    [recvfrom] that timed out, that raised another error, or that returned
    [data] from the address [(ip, port)] (only [addr[0]] is read). *)
Inductive datagram :=
| RecvTimeout
| RecvError
| Recv (data : bytes) (ip : string).

Definition DISCOVERY_MESSAGE : bytes := utf8_encode_ascii "WIFIKEY_DISCOVERY".
Definition DISCOVERY_RESPONSE : bytes := utf8_encode_ascii "WIFIKEY_RESPONSE".

(** [data.startswith(prefix)]. *)
Definition startswith (data prefix : bytes) : bool :=
  if list_eq_dec Z.eq_dec (firstn (List.length prefix) data) prefix then true else false.

(** The body of the [if data.startswith(self.DISCOVERY_RESPONSE)] block:
    [Ok None] when the datagram is not a response, [Ok (Some info)] when
    [device_discovered] is emitted with [info], [Raise] when an exception
    other than [json.JSONDecodeError] leaves the block. Item assignment
    [device_info['ip'] = ...] on a value that is not a dict raises
    [TypeError]. *)
Definition discovery_response (L : pylib) (server_port : Z) (data : bytes) (ip : string)
  : exc (option json) :=
  if startswith data DISCOVERY_RESPONSE then
    match json_loads L (skipn (List.length DISCOVERY_RESPONSE) data) with
    | Ok (JObj kv) => Ok (Some (JObj (dict_set kv "ip" (JStr ip))))
    | Ok _ => Raise TypeError
    | Raise JSONDecodeError =>
        Ok (Some (JObj [("name", JStr ("Android Device (" ++ ip ++ ")"));
                        ("ip", JStr ip); ("port", JInt server_port)]%string))
    | Raise e => Raise e
    end
  else Ok None.

(** The [device_discovered] emissions of the loop, in order: [continue] on
    a timeout, [break] on any other exception. *)
Fixpoint listen_for_discovery_responses (L : pylib) (server_port : Z)
  (ds : list datagram) : list json :=
  match ds with
  | [] => []
  | RecvTimeout :: rest => listen_for_discovery_responses L server_port rest
  | RecvError :: _ => []
  | Recv data ip :: rest =>
      match discovery_response L server_port data ip with
      | Ok None => listen_for_discovery_responses L server_port rest
      | Ok (Some info) => info :: listen_for_discovery_responses L server_port rest
      | Raise _ => []
      end
  end.

(** ** [handle_client_data(client_socket)]

    One element per iteration of its [while self.server_running and
    self.connected] loop, the outcome of [client_socket.recv(1024)]: a
    timeout, another exception, or the bytes received ([b''] when the peer
    closed). The loop tests the manager's fields, not its own socket, and
    calls [disconnect_client()] when it ends. A list that runs out before
    the loop ends is a thread still waiting in [recv]. *)
Inductive client_recv :=
| CRecvTimeout
| CRecvError
| CRecvData (data : bytes).

(** [process_client_message(data)]: every branch only emits [log_message]
    (a [status] or [control_return] message is logged, nothing else), and
    its [except Exception] catches the rest. *)
Definition process_client_message (data : bytes) : M unit := ret tt.

Fixpoint handle_client_data (client_sock : nat) (rs : list client_recv) : M unit :=
  match rs with
  | [] => ret tt
  | r :: rest =>
      s <~ get ;;
      if server_running s && connected s then
        match r with
        | CRecvTimeout => handle_client_data client_sock rest
        | CRecvError => disconnect_client
        | CRecvData [] => disconnect_client
        | CRecvData data => process_client_message data ;;; handle_client_data client_sock rest
        end
      else disconnect_client
  end.

End ConnMgr.

(** * [main.py]: [WiFiKeyControl.on_input_event]

    The slot that forwards every captured input event: [ph] is the window's
    [ProtocolHandler], [now] the default timestamp of [create_packet] and
    [send_ok] whether [client_socket.send] succeeds. An exception of
    [create_packet] escapes the slot ([Raise]). *)
Module Main.

Definition on_input_event (L : pylib) (ph : Protocol.handler) (now event_data : json)
  (send_ok : bool) : ConnMgr.M (exc Protocol.handler) :=
  ConnMgr.sbind ConnMgr.is_connected (fun c =>
  if c then
    match Protocol.create_packet L ph now event_data with
    | Ok (packet, ph') =>
        ConnMgr.sbind (ConnMgr.send_packet packet send_ok) (fun _ => ConnMgr.ret (Ok ph'))
    | Raise e => ConnMgr.ret (Raise e)
    end
  else ConnMgr.ret (Ok ph)).

End Main.

(** * [input_capture.py]: [InputCapture]

    The fields the event handlers read and write. The listener objects and
    the [lock] of [start_capture]/[stop_capture] are not modelled (the
    handlers run one at a time here); [last_mouse_time] is replaced by the
    outcome of the rate-limit test [current_time - self.last_mouse_time <
    self.mouse_interval], given with each mouse move, and [time.time() *
    1000] is the [now] given with each event. Coordinates are the [int]s
    pynput passes. *)
Module Capture.

Record capture := mkCapture {
  active : bool;
  control_active : bool;
  screen_width : Z;
  screen_height : Z;
  edge_threshold : Z;
  last_x : Z;
  last_y : Z
}.

(** [__init__], with [(w, h)] the screen size [update_screen_dimensions]
    sets (1920 x 1080 when [screeninfo] fails). *)
Definition init (w h : Z) : capture := mkCapture false false w h 10 0 0.

Definition start_capture (c : capture) : capture :=
  mkCapture true (control_active c) (screen_width c) (screen_height c)
    (edge_threshold c) (last_x c) (last_y c).

Definition stop_capture (c : capture) : capture :=
  mkCapture false (control_active c) (screen_width c) (screen_height c)
    (edge_threshold c) (last_x c) (last_y c).

Definition set_control (c : capture) (b : bool) : capture :=
  mkCapture (active c) b (screen_width c) (screen_height c)
    (edge_threshold c) (last_x c) (last_y c).

Definition check_screen_edge_switch (c : capture) (x y : Z) : option string :=
  if x <=? edge_threshold c then Some "left"%string
  else if x >=? screen_width c - edge_threshold c then Some "right"%string
  else if y <=? edge_threshold c then Some "top"%string
  else if y >=? screen_height c - edge_threshold c then Some "bottom"%string
  else None.

Definition control_switch_event (edge : string) (now : json) : json :=
  JObj [("type", JStr "control_switch"); ("edge", JStr edge); ("timestamp", now)]%string.

Definition mouse_move_event (x y : Z) (now : json) : json :=
  JObj [("type", JStr "mouse_move"); ("x", JInt x); ("y", JInt y); ("timestamp", now)]%string.

(** [on_mouse_move(x, y)]; [too_soon] is the rate-limit test. The result is
    the new state and the [input_event] emissions. *)
Definition on_mouse_move (c : capture) (x y : Z) (too_soon : bool) (now : json)
  : capture * list json :=
  if negb (active c) then (c, [])
  else if too_soon then (c, [])
  else
    let c1 := mkCapture (active c) (control_active c) (screen_width c) (screen_height c)
                (edge_threshold c) x y in
    match check_screen_edge_switch c1 x y with
    | Some edge =>
        if negb (control_active c1) then (set_control c1 true, [control_switch_event edge now])
        else (c1, [mouse_move_event x y now])
    | None =>
        if control_active c1 then (c1, [mouse_move_event x y now]) else (c1, [])
    end.

(** [s.replace(old, new)] for a non-empty [old]: the occurrences are
    replaced from left to right, without overlap. *)
Fixpoint replace_go (fuel : nat) (old new s : string) : string :=
  match fuel with
  | O => s
  | S f =>
      match s with
      | EmptyString => EmptyString
      | String c r =>
          if String.prefix old s
          then new ++ replace_go f old new (substring (String.length old) (String.length s) s)
          else String c (replace_go f old new r)
      end
  end.

Definition py_replace (old new s : string) : string := replace_go (String.length s) old new s.

(** [str.lower()] on code points below 256. *)
Definition lower_char (c : ascii) : ascii :=
  let n := Ascii.nat_of_ascii c in
  if ((65 <=? n) && (n <=? 90))%nat || ((192 <=? n) && (n <=? 222) && negb (n =? 215))%nat
  then Ascii.ascii_of_nat (n + 32) else c.

Fixpoint py_lower (s : string) : string :=
  match s with
  | EmptyString => EmptyString
  | String c r => String (lower_char c) (py_lower r)
  end.

(** [str(button).replace('Button.', '')] for a pynput [Button], whose [str]
    is ['Button.' + name]. *)
Definition button_str (name : string) : string :=
  py_replace "Button." EmptyString ("Button." ++ name).

Definition mouse_click_event (x y : Z) (button : string) (pressed : bool) (now : json) : json :=
  JObj [("type", JStr "mouse_click"); ("x", JInt x); ("y", JInt y);
        ("button", JStr button); ("pressed", JBool pressed); ("timestamp", now)]%string.

Definition on_mouse_click (c : capture) (x y : Z) (button : string) (pressed : bool)
  (now : json) : capture * list json :=
  if negb (active c) || negb (control_active c) then (c, [])
  else (c, [mouse_click_event x y (button_str button) pressed now]).

Definition mouse_scroll_event (x y dx dy : Z) (now : json) : json :=
  JObj [("type", JStr "mouse_scroll"); ("x", JInt x); ("y", JInt y);
        ("dx", JInt dx); ("dy", JInt dy); ("timestamp", now)]%string.

Definition on_mouse_scroll (c : capture) (x y dx dy : Z) (now : json) : capture * list json :=
  if negb (active c) || negb (control_active c) then (c, [])
  else (c, [mouse_scroll_event x y dx dy now]).

Definition key_codes : list (string * Z) :=
  [("shift", 16); ("ctrl", 17); ("alt", 18); ("cmd", 91); ("space", 32); ("enter", 13);
   ("backspace", 8); ("tab", 9); ("escape", 27); ("delete", 46); ("home", 36); ("end", 35);
   ("page_up", 33); ("page_down", 34); ("up", 38); ("down", 40); ("left", 37); ("right", 39);
   ("f1", 112); ("f2", 113); ("f3", 114); ("f4", 115); ("f5", 116); ("f6", 117);
   ("f7", 118); ("f8", 119); ("f9", 120); ("f10", 121); ("f11", 122); ("f12", 123)]%string.

Fixpoint assoc_str (kv : list (string * Z)) (k : string) : option Z :=
  match kv with
  | [] => None
  | (k', v) :: r => if String.eqb k' k then Some v else assoc_str r k
  end.

Definition get_special_key_code (key_str : string) : Z :=
  match assoc_str key_codes (py_lower key_str) with Some v => v | None => 0 end.

(** A pynput key: a [KeyCode] with its [char] (possibly [None]) and its
    [str], or a member of the [Key] enum, which has no [char] attribute and
    whose [str] is ['Key.' + name]. *)
Inductive key :=
| KeyCode (char : option string) (repr : string)
| KeyEnum (name : string).

(** The [try] block of [on_key_press]/[on_key_release]: [(key_str,
    key_code)]. [ord] raises [TypeError] on a string that is not one
    character long; that exception is not caught. *)
Definition key_info (k : key) : exc (string * Z) :=
  match k with
  | KeyCode (Some ch) _ =>
      match ch with
      | EmptyString => Ok (ch, 0)
      | String a EmptyString => Ok (ch, Z.of_nat (Ascii.nat_of_ascii a))
      | _ => Raise TypeError
      end
  | KeyCode None repr =>
      let ks := py_replace "Key." EmptyString repr in Ok (ks, get_special_key_code ks)
  | KeyEnum name =>
      let ks := py_replace "Key." EmptyString ("Key." ++ name) in
      Ok (ks, get_special_key_code ks)
  end.

Definition is_control_toggle_hotkey (k : key) (pressed : bool) : bool := false.

Definition toggle_control (c : capture) (now : json) : capture * list json :=
  if control_active c
  then (set_control c false, [control_switch_event "return_to_pc" now])
  else (set_control c true, [control_switch_event "hotkey" now]).

Definition return_control_to_pc (c : capture) (now : json) : capture * list json :=
  if control_active c
  then (set_control c false, [control_switch_event "return_to_pc" now])
  else (c, []).

Definition key_event (type : string) (key_str : string) (key_code : Z) (pressed : bool)
  (now : json) : json :=
  JObj [("type", JStr type); ("key", JStr key_str); ("key_code", JInt key_code);
        ("pressed", JBool pressed); ("timestamp", now)]%string.

Definition on_key_press (c : capture) (k : key) (now : json) : exc (capture * list json) :=
  if negb (active c) then Ok (c, [])
  else
    p <- key_info k ;;
    let (key_str, key_code) := p in
    if is_control_toggle_hotkey k true then Ok (toggle_control c now)
    else Ok (c, [key_event "key_press" key_str key_code true now]).

Definition on_key_release (c : capture) (k : key) (now : json) : exc (capture * list json) :=
  if negb (active c) then Ok (c, [])
  else
    p <- key_info k ;;
    let (key_str, key_code) := p in
    Ok (c, [key_event "key_release" key_str key_code false now]).

(** The calls the application makes on an [InputCapture]: [start_capture]
    and [stop_capture] from [toggle_input_capture], [stop_server] and
    [closeEvent], the handlers from the pynput listeners. *)
Inductive op :=
| StartCapture
| StopCapture
| MouseMove (x y : Z) (too_soon : bool) (now : json)
| MouseClick (x y : Z) (button : string) (pressed : bool) (now : json)
| MouseScroll (x y dx dy : Z) (now : json)
| KeyPress (k : key) (now : json)
| KeyRelease (k : key) (now : json).

Definition step (c : capture) (o : op) : exc (capture * list json) :=
  match o with
  | StartCapture => Ok (start_capture c, [])
  | StopCapture => Ok (stop_capture c, [])
  | MouseMove x y ts now => Ok (on_mouse_move c x y ts now)
  | MouseClick x y b p now => Ok (on_mouse_click c x y b p now)
  | MouseScroll x y dx dy now => Ok (on_mouse_scroll c x y dx dy now)
  | KeyPress k now => on_key_press c k now
  | KeyRelease k now => on_key_release c k now
  end.

(** A sequence of calls and the [input_event] emissions, in order; an
    exception escaping a handler ends the run. *)
Fixpoint run (c : capture) (ops : list op) : exc (capture * list json) :=
  match ops with
  | [] => Ok (c, [])
  | o :: rest =>
      p1 <- step c o ;;
      let (c1, e1) := p1 in
      p2 <- run c1 rest ;;
      let (c2, e2) := p2 in
      Ok (c2, e1 ++ e2)
  end.

End Capture.

(** * Definitions the properties are stated with *)

(** A Python [bytes] element. *)
Definition byte_ok (x : Z) : Prop := 0 <= x < 256.

(** The checksum as the spec words it: a 16-bit CRC with initial value
    0xFFFF and reflected polynomial 0xA001, the message fed one bit at a
    time, each byte least significant bit first. *)
Definition crc_bit (crc : Z) (bit : bool) : Z :=
  if xorb (Z.testbit crc 0) bit then Z.lxor (Z.shiftr crc 1) 40961
  else Z.shiftr crc 1.

Definition bits_lsb_first (byte : Z) : list bool :=
  map (fun i => Z.testbit byte (Z.of_nat i)) (seq 0 8).

Definition crc16_spec (data : bytes) : Z :=
  fold_left crc_bit (flat_map bits_lsb_first data) 65535.

(** The frame with bit [i] inverted (bit [i mod 8] of byte [i / 8]). *)
Definition flip_bit (b : bytes) (i : nat) : bytes :=
  let j := Nat.div i 8 in
  firstn j b ++ [Z.lxor (nth j b 0) (2 ^ Z.of_nat (Nat.modulo i 8))] ++ skipn (S j) b.

(** The reply of a peer that completes the handshake. *)
Definition handshake_response (name : string) : json :=
  JObj [("type", JStr "handshake_response"); ("device_name", JStr name)]%string.


(** The datagrams that can change what [listen_for_discovery_responses]
    reports: errors, and datagrams starting with [DISCOVERY_RESPONSE]. *)
Definition discovery_relevant (d : ConnMgr.datagram) : bool :=
  match d with
  | ConnMgr.RecvTimeout => false
  | ConnMgr.RecvError => true
  | ConnMgr.Recv data _ => ConnMgr.startswith data ConnMgr.DISCOVERY_RESPONSE
  end.

(** A library instance used to run the code on concrete inputs that never
    reach [zlib] or [json.loads] with data: [zlib.compress] returns bytes
    longer than its input (never strictly smaller, so [build_packet] keeps
    the raw payload),
    [zlib.decompress] and [json.loads] raise, decoding keeps nothing. *)
Definition lib0 : pylib := {|
  zlib_compress := fun b => Ok (List.repeat 0 (S (List.length b)));
  zlib_decompress := fun _ => Raise ZlibError;
  utf8_decode_ignore := fun _ => EmptyString;
  json_loads := fun _ => Raise JSONDecodeError
|}.

(** * Properties *)

(** ** Bit-level facts *)

Lemma lxor_bound (n a b : Z) :
  0 <= a < 2 ^ n -> 0 <= b < 2 ^ n -> 0 <= Z.lxor a b < 2 ^ n.
Proof.
  intros Ha Hb.
  assert (Hn : 0 <= Z.lxor a b) by (apply Z.lxor_nonneg; lia).
  split; [exact Hn|].
  destruct (Z.eq_dec (Z.lxor a b) 0) as [E|E]; [rewrite E; lia|].
  apply Z.log2_lt_pow2; [lia|].
  assert (Hl := Z.log2_lxor a b ltac:(lia) ltac:(lia)).
  assert (log2a : a = 0 \/ Z.log2 a < n).
  { destruct (Z.eq_dec a 0); [left; lia| right; apply Z.log2_lt_pow2; lia]. }
  assert (log2b : b = 0 \/ Z.log2 b < n).
  { destruct (Z.eq_dec b 0); [left; lia| right; apply Z.log2_lt_pow2; lia]. }
  assert (Hn0 : 0 < n).
  { destruct (Z.lt_ge_cases 0 n) as [|Hle]; [assumption|].
    assert (2 ^ n <= 1).
    { destruct (Z.eq_dec n 0) as [->|]; [simpl; lia|].
      rewrite Z.pow_neg_r by lia. lia. }
    assert (a = 0) as -> by lia. assert (b = 0) as -> by lia.
    exfalso. apply E. reflexivity. }
  assert (Z.max (Z.log2 a) (Z.log2 b) < n).
  { apply Z.max_lub_lt; [destruct log2a as [->|]| destruct log2b as [->|]];
      simpl; lia. }
  lia.
Qed.

Lemma lxor_cancel_r (a b c : Z) : Z.lxor a c = Z.lxor b c -> a = b.
Proof.
  intros H. apply (f_equal (fun v => Z.lxor v c)) in H.
  rewrite !Z.lxor_assoc, Z.lxor_nilpotent, !Z.lxor_0_r in H. exact H.
Qed.

Lemma lxor_neq (a k : Z) : k <> 0 -> Z.lxor a k <> a.
Proof.
  intros Hk E. apply Hk.
  apply (lxor_cancel_r k 0 a). rewrite Z.lxor_comm, E, Z.lxor_0_l.
  reflexivity.
Qed.

Lemma land1_mod2 (x : Z) : Z.land x 1 = x mod 2.
Proof. change 1 with (Z.ones 1). rewrite Z.land_ones by lia. reflexivity. Qed.

Lemma crc_shift_range (x : Z) : 0 <= x < 2 ^ 16 -> 0 <= Protocol.crc_shift x < 2 ^ 16.
Proof.
  intros Hx. unfold Protocol.crc_shift. rewrite Z.shiftr_div_pow2 by lia.
  assert (0 <= x / 2 ^ 1 < 2 ^ 16) by (split; [apply Z.div_pos|apply Z.div_lt_upper_bound]; lia).
  destruct (negb (Z.land x 1 =? 0)); [apply lxor_bound; lia| lia].
Qed.

Lemma testbit15_small (y : Z) : 0 <= y < 2 ^ 15 -> Z.testbit y 15 = false.
Proof.
  intros Hy. destruct (Z.eq_dec y 0) as [->|]; [reflexivity|].
  apply Z.bits_above_log2; [lia|]. apply Z.log2_lt_pow2; lia.
Qed.

Lemma crc_shift_inj (x y : Z) :
  0 <= x < 2 ^ 16 -> 0 <= y < 2 ^ 16 -> Protocol.crc_shift x = Protocol.crc_shift y -> x = y.
Proof.
  intros Hx Hy. unfold Protocol.crc_shift. rewrite !land1_mod2, !Z.shiftr_div_pow2 by lia.
  change (2 ^ 1) with 2.
  assert (Hx2 : 0 <= x / 2 < 2 ^ 15) by (split; [apply Z.div_pos|apply Z.div_lt_upper_bound]; lia).
  assert (Hy2 : 0 <= y / 2 < 2 ^ 15) by (split; [apply Z.div_pos|apply Z.div_lt_upper_bound]; lia).
  assert (Ex := Z.div_mod x 2 ltac:(lia)). assert (Ey := Z.div_mod y 2 ltac:(lia)).
  assert (Mx := Z.mod_pos_bound x 2 ltac:(lia)). assert (My := Z.mod_pos_bound y 2 ltac:(lia)).
  destruct (x mod 2 =? 0) eqn:Hxm, (y mod 2 =? 0) eqn:Hym; simpl;
    apply Z.eqb_eq in Hxm || apply Z.eqb_neq in Hxm;
    apply Z.eqb_eq in Hym || apply Z.eqb_neq in Hym; intros E.
  - lia.
  - apply (f_equal (fun v => Z.testbit v 15)) in E.
    rewrite Z.lxor_spec, (testbit15_small (x / 2)), (testbit15_small (y / 2)) in E by lia.
    vm_compute in E. discriminate.
  - apply (f_equal (fun v => Z.testbit v 15)) in E.
    rewrite Z.lxor_spec, (testbit15_small (x / 2)), (testbit15_small (y / 2)) in E by lia.
    vm_compute in E. discriminate.
  - apply lxor_cancel_r in E. lia.
Qed.

Lemma crc_shifts_range (n : nat) (x : Z) :
  0 <= x < 2 ^ 16 -> 0 <= Protocol.crc_shifts n x < 2 ^ 16.
Proof.
  revert x; induction n as [|n IH]; intros x Hx; simpl; [lia|].
  apply IH, crc_shift_range, Hx.
Qed.

Lemma crc_shifts_inj (n : nat) (x y : Z) :
  0 <= x < 2 ^ 16 -> 0 <= y < 2 ^ 16 ->
  Protocol.crc_shifts n x = Protocol.crc_shifts n y -> x = y.
Proof.
  revert x y; induction n as [|n IH]; intros x y Hx Hy E; simpl in E; [exact E|].
  apply crc_shift_inj; try assumption.
  apply IH; try apply crc_shift_range; assumption.
Qed.

(** ** The byte-wise checksum of the code is the bit-serial CRC *)

Lemma land1_testbit (x : Z) : negb (Z.land x 1 =? 0) = Z.testbit x 0.
Proof.
  rewrite land1_mod2, Z.bit0_odd, Zmod_odd. destruct (Z.odd x); reflexivity.
Qed.

Lemma crc_shift_lxor (c b : Z) :
  Protocol.crc_shift (Z.lxor c b) = Z.lxor (crc_bit c (Z.testbit b 0)) (Z.shiftr b 1).
Proof.
  unfold Protocol.crc_shift, crc_bit. rewrite land1_testbit, Z.lxor_spec, Z.shiftr_lxor.
  destruct (xorb (Z.testbit c 0) (Z.testbit b 0)); [|reflexivity].
  apply Z.bits_inj'; intros n Hn. rewrite !Z.lxor_spec.
  destruct (Z.testbit (Z.shiftr c 1) n), (Z.testbit (Z.shiftr b 1) n),
           (Z.testbit 40961 n); reflexivity.
Qed.

Lemma crc_shifts_lxor (k : nat) (c b : Z) :
  0 <= b < 2 ^ Z.of_nat k ->
  Protocol.crc_shifts k (Z.lxor c b)
  = fold_left crc_bit (map (fun i => Z.testbit b (Z.of_nat i)) (seq 0 k)) c.
Proof.
  revert c b; induction k as [|k IH]; intros c b Hb.
  - simpl in Hb. assert (b = 0) as -> by lia. simpl. apply Z.lxor_0_r.
  - simpl. rewrite crc_shift_lxor, IH.
    + rewrite <- seq_shift, map_map. f_equal. apply map_ext. intros i.
      rewrite Z.shiftr_spec by lia. f_equal. lia.
    + rewrite Z.shiftr_div_pow2 by lia. split; [apply Z.div_pos; lia|].
      apply Z.div_lt_upper_bound; [lia|].
      rewrite <- Z.pow_add_r by lia. replace (2 ^ 1 + 0) with 2 by reflexivity.
      replace (1 + Z.of_nat k) with (Z.of_nat (S k)) by lia. lia.
Qed.

Lemma crc_byte_bits (c b : Z) :
  byte_ok b -> Protocol.crc_byte c b = fold_left crc_bit (bits_lsb_first b) c.
Proof.
  intros Hb. unfold Protocol.crc_byte, bits_lsb_first.
  apply crc_shifts_lxor. unfold byte_ok in Hb. simpl. lia.
Qed.

Lemma checksum_fold_bits (data : bytes) (c : Z) :
  Forall byte_ok data ->
  fold_left Protocol.crc_byte data c = fold_left crc_bit (flat_map bits_lsb_first data) c.
Proof.
  revert c; induction data as [|x r IH]; intros c Hd; [reflexivity|].
  inversion Hd; subst.
  change (fold_left Protocol.crc_byte r (Protocol.crc_byte c x)
          = fold_left crc_bit (bits_lsb_first x ++ flat_map bits_lsb_first r) c).
  rewrite fold_left_app, <- crc_byte_bits by assumption.
  apply IH; assumption.
Qed.

(** ** Injectivity of the checksum in every byte *)

Lemma crc_byte_range (c b : Z) :
  0 <= c < 2 ^ 16 -> byte_ok b -> 0 <= Protocol.crc_byte c b < 2 ^ 16.
Proof.
  intros Hc Hb. unfold byte_ok in Hb. apply crc_shifts_range, lxor_bound; lia.
Qed.

Lemma crc_byte_inj_state (c1 c2 b : Z) :
  0 <= c1 < 2 ^ 16 -> 0 <= c2 < 2 ^ 16 -> byte_ok b ->
  Protocol.crc_byte c1 b = Protocol.crc_byte c2 b -> c1 = c2.
Proof.
  intros H1 H2 Hb E. unfold byte_ok in Hb. unfold Protocol.crc_byte in E.
  apply crc_shifts_inj in E; try (apply lxor_bound; lia).
  exact (lxor_cancel_r _ _ _ E).
Qed.

Lemma crc_byte_inj_byte (c b1 b2 : Z) :
  0 <= c < 2 ^ 16 -> byte_ok b1 -> byte_ok b2 ->
  Protocol.crc_byte c b1 = Protocol.crc_byte c b2 -> b1 = b2.
Proof.
  intros Hc H1 H2 E. unfold byte_ok in H1, H2. unfold Protocol.crc_byte in E.
  apply crc_shifts_inj in E; try (apply lxor_bound; lia).
  rewrite (Z.lxor_comm c b1), (Z.lxor_comm c b2) in E.
  exact (lxor_cancel_r _ _ _ E).
Qed.

Lemma crc_fold_range (l : bytes) (c : Z) :
  Forall byte_ok l -> 0 <= c < 2 ^ 16 -> 0 <= fold_left Protocol.crc_byte l c < 2 ^ 16.
Proof.
  revert c; induction l as [|x r IH]; intros c Hl Hc; [exact Hc|].
  inversion Hl; subst. simpl. apply IH; [assumption|]. apply crc_byte_range; assumption.
Qed.

Lemma crc_fold_inj (l : bytes) (c1 c2 : Z) :
  Forall byte_ok l -> 0 <= c1 < 2 ^ 16 -> 0 <= c2 < 2 ^ 16 ->
  fold_left Protocol.crc_byte l c1 = fold_left Protocol.crc_byte l c2 -> c1 = c2.
Proof.
  revert c1 c2; induction l as [|x r IH]; intros c1 c2 Hl H1 H2 E; [exact E|].
  inversion Hl; subst. simpl in E.
  apply IH in E; try assumption; try (apply crc_byte_range; assumption).
  apply (crc_byte_inj_state c1 c2 x); assumption.
Qed.

Lemma checksum_range (data : bytes) :
  Forall byte_ok data -> 0 <= Protocol.calculate_checksum data < 2 ^ 16.
Proof. intros H. apply crc_fold_range; [exact H| lia]. Qed.

(** ** Flipping one bit of a byte string *)

Lemma split_nth (l : bytes) (j : nat) :
  (j < List.length l)%nat -> l = firstn j l ++ [nth j l 0] ++ skipn (S j) l.
Proof.
  revert j; induction l as [|x r IH]; intros j Hj; simpl in Hj; [lia|].
  destruct j as [|j]; [reflexivity|].
  simpl. f_equal. apply IH. lia.
Qed.

Lemma flip_byte_ok (x : Z) (k : nat) :
  byte_ok x -> (k < 8)%nat -> byte_ok (Z.lxor x (2 ^ Z.of_nat k)).
Proof.
  unfold byte_ok. intros Hx Hk. change 256 with (2 ^ 8). apply lxor_bound; [lia|].
  split; [apply Z.pow_nonneg; lia|]. apply Z.pow_lt_mono_r; lia.
Qed.

Lemma flip_byte_neq (x : Z) (k : nat) : Z.lxor x (2 ^ Z.of_nat k) <> x.
Proof. apply lxor_neq. apply Z.pow_nonzero; lia. Qed.

Lemma flip_bit_length (l : bytes) (i : nat) :
  (i < 8 * List.length l)%nat -> List.length (flip_bit l i) = List.length l.
Proof.
  intros Hi. unfold flip_bit.
  assert (Hj : (i / 8 < List.length l)%nat) by (apply Nat.Div0.div_lt_upper_bound; lia).
  rewrite (split_nth l (i / 8)) at 4 by exact Hj.
  rewrite !length_app. reflexivity.
Qed.

Lemma flip_bit_valid (l : bytes) (i : nat) :
  Forall byte_ok l -> (i < 8 * List.length l)%nat -> Forall byte_ok (flip_bit l i).
Proof.
  intros Hl Hi. unfold flip_bit.
  assert (Hj : (i / 8 < List.length l)%nat) by (apply Nat.Div0.div_lt_upper_bound; lia).
  rewrite (split_nth l (i / 8)) in Hl by exact Hj.
  apply Forall_app in Hl as [H1 H23]. apply Forall_app in H23 as [H2 H3].
  inversion H2; subst.
  apply Forall_app; split; [exact H1|]. apply Forall_app; split; [|exact H3].
  constructor; [|constructor]. apply flip_byte_ok; [assumption|].
  apply Nat.mod_upper_bound; lia.
Qed.

Lemma flip_bit_neq (l : bytes) (i : nat) :
  (i < 8 * List.length l)%nat -> flip_bit l i <> l.
Proof.
  intros Hi E. unfold flip_bit in E.
  assert (Hj : (i / 8 < List.length l)%nat) by (apply Nat.Div0.div_lt_upper_bound; lia).
  apply (f_equal (fun m => nth (i / 8) m 0)) in E.
  rewrite app_nth2 in E by (rewrite length_firstn; lia).
  rewrite length_firstn, Nat.min_l, Nat.sub_diag in E by lia. simpl in E.
  exact (flip_byte_neq _ _ E).
Qed.

Lemma checksum_flip_neq (data : bytes) (i : nat) :
  Forall byte_ok data -> (i < 8 * List.length data)%nat ->
  Protocol.calculate_checksum (flip_bit data i) <> Protocol.calculate_checksum data.
Proof.
  intros Hd Hi E. unfold Protocol.calculate_checksum, flip_bit in E.
  set (j := (i / 8)%nat) in *.
  assert (Hj : (j < List.length data)%nat) by (apply Nat.Div0.div_lt_upper_bound; lia).
  pose proof Hd as Hd'.
  rewrite (split_nth data j) in Hd' by exact Hj.
  apply Forall_app in Hd' as [H1 H23]. apply Forall_app in H23 as [H2 H3].
  inversion H2; subst.
  rewrite (split_nth data j) in E at 4 by exact Hj.
  rewrite !fold_left_app in E. simpl in E.
  assert (Hs := crc_fold_range (firstn j data) 65535 H1 ltac:(lia)).
  set (s := fold_left Protocol.crc_byte (firstn j data) 65535) in *.
  assert (Hk : (i mod 8 < 8)%nat) by (apply Nat.mod_upper_bound; lia).
  apply crc_fold_inj in E; try assumption;
    try (apply crc_byte_range; try assumption; apply flip_byte_ok; assumption).
  apply crc_byte_inj_byte in E; try assumption; try (apply flip_byte_ok; assumption).
  exact (flip_byte_neq _ _ E).
Qed.

Lemma flip_bit_app_l (a b : bytes) (i : nat) :
  (i < 8 * List.length a)%nat -> flip_bit (a ++ b) i = flip_bit a i ++ b.
Proof.
  intros Hi. unfold flip_bit.
  assert (Hj : (i / 8 < List.length a)%nat) by (apply Nat.Div0.div_lt_upper_bound; lia).
  rewrite firstn_app, app_nth1, skipn_app by exact Hj.
  replace (i / 8 - List.length a)%nat with 0%nat by lia.
  replace (S (i / 8) - List.length a)%nat with 0%nat by lia.
  simpl. rewrite !app_nil_r, <- !app_assoc. reflexivity.
Qed.

Lemma flip_bit_app_r (a b : bytes) (i : nat) :
  (8 * List.length a <= i)%nat ->
  flip_bit (a ++ b) i = a ++ flip_bit b (i - 8 * List.length a).
Proof.
  intros Hi. unfold flip_bit.
  set (n := List.length a).
  replace i with ((i - 8 * n) + n * 8)%nat at 1 2 3 4 by lia.
  rewrite Nat.div_add, Nat.Div0.mod_add by lia.
  set (i' := (i - 8 * n)%nat).
  rewrite firstn_app, app_nth2, skipn_app by lia.
  rewrite firstn_all2 by lia. rewrite skipn_all2 by lia.
  replace (i' / 8 + n - List.length a)%nat with (i' / 8)%nat by lia.
  replace (S (i' / 8 + n) - List.length a)%nat with (S (i' / 8))%nat by lia.
  rewrite <- !app_assoc. reflexivity.
Qed.

(** ** Reading the trailing checksum *)

Lemma firstn_app_exact {A} (a b : list A) : firstn (List.length a) (a ++ b) = a.
Proof. rewrite firstn_app, firstn_all, Nat.sub_diag. simpl. apply app_nil_r. Qed.

Lemma skipn_app_exact {A} (a b : list A) : skipn (List.length a) (a ++ b) = b.
Proof. rewrite skipn_app, skipn_all, Nat.sub_diag. reflexivity. Qed.

Lemma le_bytes_length (w : nat) (v : Z) : List.length (le_bytes w v) = w.
Proof. revert v; induction w; intros v; simpl; [reflexivity| rewrite IHw; reflexivity]. Qed.

Lemma le_bytes_valid (w : nat) (v : Z) : Forall byte_ok (le_bytes w v).
Proof.
  revert v; induction w as [|w IH]; intros v; simpl; constructor; [|apply IH].
  unfold byte_ok. change 255 with (Z.ones 8). rewrite Z.land_ones by lia.
  apply Z.mod_pos_bound. lia.
Qed.

Lemma from_le_le_bytes2 (v : Z) : 0 <= v < 2 ^ 16 -> from_le (le_bytes 2 v) = v.
Proof.
  intros Hv. cbn [le_bytes from_le]. change 255 with (Z.ones 8). rewrite !Z.land_ones by lia.
  rewrite Z.shiftr_div_pow2 by lia.
  change (2 ^ 8) with 256. change (2 ^ 16) with 65536 in Hv.
  assert (Hd : 0 <= v / 256 < 256) by (split; [apply Z.div_pos|apply Z.div_lt_upper_bound]; lia).
  rewrite (Z.mod_small (v / 256)) by exact Hd.
  pose proof (Z.div_mod v 256 ltac:(lia)). lia.
Qed.

Lemma from_le2_inj (a b : bytes) :
  List.length a = 2%nat -> List.length b = 2%nat -> Forall byte_ok a -> Forall byte_ok b ->
  from_le a = from_le b -> a = b.
Proof.
  intros La Lb Va Vb E.
  destruct a as [|a0 [|a1 [|]]]; try discriminate.
  destruct b as [|b0 [|b1 [|]]]; try discriminate.
  inversion Va as [|? ? Ha0 Va']; inversion Va' as [|? ? Ha1 _]; subst.
  inversion Vb as [|? ? Hb0 Vb']; inversion Vb' as [|? ? Hb1 _]; subst.
  unfold byte_ok in *. cbn [from_le] in E. f_equal; [|f_equal]; lia.
Qed.

Lemma struct_unpack_H (x : bytes) :
  List.length x = 2%nat -> struct_unpack "<H" x = Ok [PInt (from_le x)].
Proof.
  intros Hx. unfold struct_unpack. change (parse_fmt "<H") with (Some [FH]).
  destruct x as [|a [|b [|]]]; try discriminate. reflexivity.
Qed.

Lemma verify_checksum_eq (p : bytes) :
  (2 <= List.length p)%nat ->
  Protocol.verify_checksum p
  = Ok (from_le (skipn (List.length p - 2) p)
        =? Protocol.calculate_checksum (firstn (List.length p - 2) p)).
Proof.
  intros Hp. unfold Protocol.verify_checksum.
  destruct (List.length p <? 2)%nat eqn:E; [apply Nat.ltb_lt in E; lia|].
  rewrite struct_unpack_H by (rewrite length_skipn; lia). reflexivity.
Qed.

Lemma parse_rejects_bad_checksum (L : pylib) (p : bytes) :
  (5 <= List.length p)%nat -> Protocol.verify_checksum p = Ok false ->
  Protocol.parse_packet L p = Ok None.
Proof.
  intros Hp Hv. unfold Protocol.parse_packet.
  destruct (List.length p <? 5)%nat eqn:E; [apply Nat.ltb_lt in E; lia|].
  rewrite struct_unpack_H by (rewrite length_firstn; lia). cbn [bind Protocol.first_int].
  destruct (from_le (firstn 2 p) =? Protocol.HEADER_MAGIC); simpl; [|reflexivity].
  rewrite Hv. reflexivity.
Qed.

(** A frame [packet ++ checksum] with one bit flipped is rejected. *)
Lemma frame_flip_rejected (L : pylib) (packet : bytes) (i : nat) :
  Forall byte_ok packet -> (3 <= List.length packet)%nat ->
  (i < 8 * (List.length packet + 2))%nat ->
  Protocol.parse_packet L
    (flip_bit (packet ++ le_bytes 2 (Protocol.calculate_checksum packet)) i) = Ok None.
Proof.
  intros Hv Hn Hi.
  set (ck := le_bytes 2 (Protocol.calculate_checksum packet)).
  assert (Lck : List.length ck = 2%nat) by apply le_bytes_length.
  assert (Rc := checksum_range packet Hv).
  assert (Eck : from_le ck = Protocol.calculate_checksum packet)
    by (apply from_le_le_bytes2; exact Rc).
  assert (Lf : List.length (flip_bit (packet ++ ck) i) = (List.length packet + 2)%nat).
  { rewrite flip_bit_length; rewrite length_app; lia. }
  apply parse_rejects_bad_checksum; [lia|].
  rewrite verify_checksum_eq by lia. rewrite Lf.
  replace (List.length packet + 2 - 2)%nat with (List.length packet) by lia.
  f_equal. apply Z.eqb_neq.
  destruct (Nat.lt_ge_cases i (8 * List.length packet)) as [Hlt|Hge].
  - rewrite flip_bit_app_l by exact Hlt.
    rewrite <- (flip_bit_length packet i Hlt) at 1 2.
    rewrite firstn_app_exact, skipn_app_exact, Eck.
    intros E. symmetry in E. exact (checksum_flip_neq packet i Hv Hlt E).
  - rewrite flip_bit_app_r by exact Hge.
    rewrite firstn_app_exact, skipn_app_exact, <- Eck.
    assert (Hj : (i - 8 * List.length packet < 8 * List.length ck)%nat) by lia.
    intros E. apply from_le2_inj in E.
    + exact (flip_bit_neq _ _ Hj E).
    + rewrite flip_bit_length; assumption.
    + exact Lck.
    + apply flip_bit_valid; [apply le_bytes_valid| exact Hj].
    + apply le_bytes_valid.
Qed.

(** ** The shape of the frames the codec builds *)

Lemma struct_pack_HB (a b : Z) (hdr : bytes) :
  struct_pack "<HB" [PInt a; PInt b] = Ok hdr -> List.length hdr = 3%nat.
Proof.
  unfold struct_pack. change (parse_fmt "<HB") with (Some [FH; FB]). simpl.
  repeat (destruct (_ && _); simpl); intros H; inversion H; reflexivity.
Qed.

Lemma struct_pack_H (v : Z) (ck : bytes) :
  struct_pack "<H" [PInt v] = Ok ck -> ck = le_bytes 2 v.
Proof.
  unfold struct_pack. change (parse_fmt "<H") with (Some [FH]). simpl.
  destruct (_ && _); simpl; intros H; inversion H. reflexivity.
Qed.

Lemma build_packet_shape (L : pylib) (st : Protocol.handler) (t : Z) (payload : bytes)
  (frame : bytes) (st' : Protocol.handler) :
  Protocol.build_packet L st t payload = Ok (frame, st') ->
  exists packet, frame = packet ++ le_bytes 2 (Protocol.calculate_checksum packet)
            /\ (3 <= List.length packet)%nat /\ st' = Protocol.next_seq st.
Proof.
  unfold Protocol.build_packet.
  destruct (Protocol.compress_step L st t payload) as [ptype pl].
  destruct (struct_pack "<HB" [PInt Protocol.HEADER_MAGIC; PInt ptype]) as [hdr|] eqn:Eh;
    simpl; [|discriminate].
  destruct (struct_pack "<H" [PInt (Protocol.calculate_checksum (hdr ++ pl))]) as [ck|] eqn:Ec;
    simpl; [|discriminate].
  intros H; inversion H; subst.
  exists (hdr ++ pl). apply struct_pack_H in Ec. apply struct_pack_HB in Eh.
  rewrite Ec, length_app. repeat split; lia.
Qed.

Lemma create_batch_packet_shape (st : Protocol.handler) (events : list json)
  (frame : bytes) (st' : Protocol.handler) :
  Protocol.create_batch_packet st events = Ok (frame, st') ->
  exists payload_hdr packet,
    struct_pack "<HH" [PInt (Protocol.packet_sequence st);
       PInt (Z.of_nat (List.length (utf8_encode_ascii (dumps (JArr events)))))] = Ok payload_hdr
    /\ packet = [187; 170; 254] ++ payload_hdr ++ utf8_encode_ascii (dumps (JArr events))
    /\ frame = packet ++ le_bytes 2 (Protocol.calculate_checksum packet)
    /\ st' = Protocol.next_seq st.
Proof.
  unfold Protocol.create_batch_packet.
  destruct (struct_pack "<HH" _) as [ph|] eqn:Ep; simpl; [|discriminate].
  set (packet := 187 :: 170 :: 254 :: ph ++ utf8_encode_ascii (dumps (JArr events))).
  destruct (struct_pack "<H" _) as [ck|] eqn:Ec; simpl; [|discriminate].
  intros H; inversion H; subst.
  exists ph, packet. apply struct_pack_H in Ec.
  split; [reflexivity|]. split; [reflexivity|]. split; [|reflexivity].
  rewrite Ec. reflexivity.
Qed.

Lemma forallb_byte_ok (b : bytes) :
  forallb (fun x => (0 <=? x) && (x <? 256)) b = true -> Forall byte_ok b.
Proof.
  induction b as [|x b IH]; simpl; intros H; constructor.
  - apply andb_prop in H as [H _]. apply andb_prop in H as [H1 H2].
    apply Z.leb_le in H1. apply Z.ltb_lt in H2. unfold byte_ok; lia.
  - apply IH. apply andb_prop in H as [_ H]. exact H.
Qed.

Lemma frame_shape_flip (L : pylib) (frame packet : bytes) (i : nat) :
  frame = packet ++ le_bytes 2 (Protocol.calculate_checksum packet) ->
  (3 <= List.length packet)%nat ->
  Forall byte_ok frame -> (i < 8 * List.length frame)%nat ->
  Protocol.parse_packet L (flip_bit frame i) = Ok None.
Proof.
  intros -> Hn Hv Hi. apply frame_flip_rejected; [| exact Hn |].
  - apply Forall_app in Hv. apply Hv.
  - rewrite length_app, le_bytes_length in Hi. exact Hi.
Qed.

(** ** C4 *)

(** C4: [calculate_checksum] is the CRC-16 with initial value 0xFFFF and
    reflected polynomial 0xA001 fed each byte least significant bit first;
    and every frame that [build_packet] or [create_batch_packet] returns,
    with any one of its bits flipped, makes [parse_packet] return [None]. *)
Theorem checksum_crc16_detects_bit_flips :
  (forall data : bytes, Forall byte_ok data ->
     Protocol.calculate_checksum data = crc16_spec data) /\
  (forall (L : pylib) (st : Protocol.handler) (packet_type : Z) (payload frame : bytes)
          (st' : Protocol.handler) (i : nat),
     Protocol.build_packet L st packet_type payload = Ok (frame, st') ->
     Forall byte_ok frame -> (i < 8 * List.length frame)%nat ->
     Protocol.parse_packet L (flip_bit frame i) = Ok None) /\
  (forall (L : pylib) (st : Protocol.handler) (events : list json) (frame : bytes)
          (st' : Protocol.handler) (i : nat),
     Protocol.create_batch_packet st events = Ok (frame, st') ->
     Forall byte_ok frame -> (i < 8 * List.length frame)%nat ->
     Protocol.parse_packet L (flip_bit frame i) = Ok None).
Proof.
  split; [|split].
  - intros data Hv. unfold Protocol.calculate_checksum, crc16_spec.
    apply checksum_fold_bits. exact Hv.
  - intros L st t payload frame st' i Hb Hv Hi.
    destruct (build_packet_shape L st t payload frame st' Hb) as (packet & Hf & Hn & _).
    exact (frame_shape_flip L frame packet i Hf Hn Hv Hi).
  - intros L st events frame st' i Hb Hv Hi.
    destruct (create_batch_packet_shape st events frame st' Hb)
      as (ph & packet & _ & Hp & Hf & _).
    apply (frame_shape_flip L frame packet i Hf); [|exact Hv|exact Hi].
    rewrite Hp. simpl. lia.
Qed.

Lemma checksum_crc16_detects_bit_flips_witness :
  exists frame st',
    Protocol.build_packet lib0 Protocol.init_handler 8 [0; 0; 232; 3; 0; 0; 0; 0; 0; 0]
      = Ok (frame, st') /\
    Protocol.parse_packet lib0 (flip_bit frame 17) = Ok None.
Proof.
  eexists; eexists; split; [vm_compute; reflexivity|].
  apply (proj1 (proj2 checksum_crc16_detects_bit_flips) lib0 Protocol.init_handler 8
           [0; 0; 232; 3; 0; 0; 0; 0; 0; 0] _ (Protocol.next_seq Protocol.init_handler)).
  - vm_compute. reflexivity.
  - apply forallb_byte_ok. vm_compute. reflexivity.
  - vm_compute. lia.
Defined.

(** ** C10 *)

(** C10: [parse_packet] never raises: on every byte string it returns a
    dict or [None]; and it returns a dict only after the length, magic and
    checksum checks have all passed. *)
Theorem parse_packet_total (L : pylib) (p : bytes) :
  (exists o, Protocol.parse_packet L p = Ok o) /\
  (forall e, Protocol.parse_packet L p = Ok (Some e) ->
     (5 <= List.length p)%nat /\ from_le (firstn 2 p) = Protocol.HEADER_MAGIC /\
     Protocol.verify_checksum p = Ok true).
Proof.
  unfold Protocol.parse_packet.
  destruct (List.length p <? 5)%nat eqn:E.
  { split; [eexists; reflexivity|intros e H; discriminate]. }
  apply Nat.ltb_ge in E.
  rewrite struct_unpack_H by (rewrite length_firstn; lia). cbn [bind Protocol.first_int].
  destruct (from_le (firstn 2 p) =? Protocol.HEADER_MAGIC) eqn:Eh; cbn [negb bind];
    [|split; [eexists; reflexivity|intros e H; discriminate]].
  rewrite verify_checksum_eq by lia.
  cbn [bind].
  destruct (from_le (skipn (List.length p - 2) p) =?
            Protocol.calculate_checksum (firstn (List.length p - 2) p)) eqn:Ec;
    cbn [negb]; [|split; [eexists; reflexivity|intros e H; discriminate]].
  unfold Protocol.py_index.
  destruct (nth_error p 2) as [tb|] eqn:En;
    [|apply nth_error_None in En; lia].
  cbn [bind].
  split.
  - destruct (if negb (Z.land tb 128 =? 0) then _ else _) as [pl|];
      [destruct (Protocol.dispatch _ _)|]; eexists; reflexivity.
  - intros e _. apply Z.eqb_eq in Eh.
    repeat split; auto.
Qed.

Lemma parse_packet_total_witness :
  exists frame st',
    Protocol.create_heartbeat_packet lib0 Protocol.init_handler 1000 = Ok (frame, st') /\
    Protocol.parse_packet lib0 frame = Ok (Some (Protocol.EvHeartbeat 0 1000)) /\
    Protocol.verify_checksum frame = Ok true.
Proof.
  eexists; eexists; split; [vm_compute; reflexivity|].
  match goal with
  | |- Protocol.parse_packet lib0 ?f = _ /\ _ =>
      assert (H : Protocol.parse_packet lib0 f = Ok (Some (Protocol.EvHeartbeat 0 1000)))
        by (vm_compute; reflexivity)
  end.
  split; [exact H|].
  exact (proj2 (proj2 (proj2 (parse_packet_total lib0 _) _ H))).
Defined.

(** ** The sequence field and the counter *)

Ltac exc_steps H :=
  repeat match type of H with
  | bind ?m _ = _ =>
      let E := fresh "E" in destruct m eqn:E; cbn [bind] in H; [|discriminate H]
  end.

Lemma struct_pack_seq_head (fmt : string) (cs : list fcode) (v : Z) (vs : list pyval)
  (b : bytes) :
  parse_fmt fmt = Some (FH :: cs) -> struct_pack fmt (PInt v :: vs) = Ok b ->
  exists r, b = le_bytes 2 v ++ r.
Proof.
  intros Hf. unfold struct_pack. rewrite Hf.
  destruct (Nat.eqb _ _); [|discriminate].
  cbn [pack_all pack1 code_width]. intros H. exc_steps H.
  unfold pack1 in E. cbn [code_width] in E.
  destruct (_ && _); [|discriminate]. inversion E; subst. inversion H; subst.
  eexists; reflexivity.
Qed.

(** What every successful encoder call does: one [build_packet] call on a
    payload that starts with the current sequence number. *)
Lemma build_call_seq (L : pylib) (st : Protocol.handler) (frame : bytes)
  (st' : Protocol.handler) (fmt : string) (cs : list fcode) (vs : list pyval) (t : Z)
  (payload : bytes) :
  parse_fmt fmt = Some (FH :: cs) ->
  struct_pack fmt (PInt (Protocol.packet_sequence st) :: vs) = Ok payload ->
  Protocol.build_packet L st t payload = Ok (frame, st') ->
  exists t' payload r, Protocol.build_packet L st t' payload = Ok (frame, st') /\
    payload = le_bytes 2 (Protocol.packet_sequence st) ++ r.
Proof.
  intros Hf E H.
  destruct (struct_pack_seq_head fmt cs _ vs _ Hf E) as [r ->].
  exists t, (le_bytes 2 (Protocol.packet_sequence st) ++ r), r.
  split; [exact H|reflexivity].
Qed.

Lemma create_json_packet_seq (L : pylib) (st : Protocol.handler) (ev : json)
  (frame : bytes) (st' : Protocol.handler) :
  Protocol.create_json_packet L st ev = Ok (frame, st') ->
  exists t payload r, Protocol.build_packet L st t payload = Ok (frame, st') /\
    payload = le_bytes 2 (Protocol.packet_sequence st) ++ r.
Proof.
  unfold Protocol.create_json_packet. intros H. exc_steps H.
  destruct (struct_pack_seq_head "<HH" [FH] _ _ _ eq_refl E) as [r ->].
  eexists 255, _, (r ++ utf8_encode_ascii (dumps ev)). split; [exact H|].
  symmetry. apply app_assoc.
Qed.

Lemma create_packet_seq (L : pylib) (st : Protocol.handler) (now ev : json)
  (frame : bytes) (st' : Protocol.handler) :
  Protocol.create_packet L st now ev = Ok (frame, st') ->
  exists t payload r, Protocol.build_packet L st t payload = Ok (frame, st') /\
    payload = le_bytes 2 (Protocol.packet_sequence st) ++ r.
Proof.
  destruct ev as [| | | | | |kv]; cbn [Protocol.create_packet]; try discriminate.
  intros H. exc_steps H.
  repeat match type of H with
  | (if ?c then _ else _) = _ => destruct c
  end;
  try (apply (create_json_packet_seq L st _ _ _ H)).
  all: unfold Protocol.create_mouse_movement_packet, Protocol.create_mouse_click_packet,
         Protocol.create_keyboard_packet, Protocol.create_scroll_packet,
         Protocol.create_control_switch_packet in H;
       cbv zeta in H; exc_steps H;
       eapply build_call_seq; [|eassumption|exact H]; reflexivity.
Qed.

Lemma build_packet_next_seq (L : pylib) (st : Protocol.handler) (t : Z) (payload frame : bytes)
  (st' : Protocol.handler) :
  Protocol.build_packet L st t payload = Ok (frame, st') ->
  Protocol.packet_sequence st' = (Protocol.packet_sequence st + 1) mod 65536.
Proof.
  intros H. destruct (build_packet_shape L st t payload frame st' H) as (_ & _ & _ & ->).
  reflexivity.
Qed.

Lemma firstn_le_bytes2 (v : Z) (r : bytes) : firstn 2 (le_bytes 2 v ++ r) = le_bytes 2 v.
Proof. exact (firstn_app_exact (le_bytes 2 v) r). Qed.

(** ** C7 *)

(** C7: every successful encoder call ([create_packet], [create_heartbeat_packet],
    [create_batch_packet]) writes the current counter [n] as the frame's
    sequence field (the first two payload bytes, little-endian) and leaves
    the counter at [(n + 1) mod 65536]. *)
Theorem encode_sequence_increments :
  (forall (L : pylib) (st : Protocol.handler) (now ev : json) (frame : bytes)
          (st' : Protocol.handler),
     Protocol.create_packet L st now ev = Ok (frame, st') ->
     Protocol.packet_sequence st' = (Protocol.packet_sequence st + 1) mod 65536 /\
     exists t payload, Protocol.build_packet L st t payload = Ok (frame, st') /\
       firstn 2 payload = le_bytes 2 (Protocol.packet_sequence st)) /\
  (forall (L : pylib) (st : Protocol.handler) (timestamp : Z) (frame : bytes)
          (st' : Protocol.handler),
     Protocol.create_heartbeat_packet L st timestamp = Ok (frame, st') ->
     Protocol.packet_sequence st' = (Protocol.packet_sequence st + 1) mod 65536 /\
     exists t payload, Protocol.build_packet L st t payload = Ok (frame, st') /\
       firstn 2 payload = le_bytes 2 (Protocol.packet_sequence st)) /\
  (forall (st : Protocol.handler) (events : list json) (frame : bytes)
          (st' : Protocol.handler),
     Protocol.create_batch_packet st events = Ok (frame, st') ->
     Protocol.packet_sequence st' = (Protocol.packet_sequence st + 1) mod 65536 /\
     firstn 2 (skipn 3 frame) = le_bytes 2 (Protocol.packet_sequence st)).
Proof.
  split; [|split].
  - intros L st now ev frame st' H.
    destruct (create_packet_seq L st now ev frame st' H) as (t & payload & r & Hb & ->).
    split; [exact (build_packet_next_seq L st t _ frame st' Hb)|].
    exists t, (le_bytes 2 (Protocol.packet_sequence st) ++ r).
    split; [exact Hb|apply firstn_le_bytes2].
  - intros L st ts frame st' H.
    unfold Protocol.create_heartbeat_packet in H. exc_steps H.
    destruct (build_call_seq L st frame st' "<HQ" [FQ] [PInt ts] 8 _ eq_refl E H)
      as (t & payload & r & Hb & ->).
    split; [exact (build_packet_next_seq L st t _ frame st' Hb)|].
    exists t, (le_bytes 2 (Protocol.packet_sequence st) ++ r).
    split; [exact Hb|apply firstn_le_bytes2].
  - intros st events frame st' H.
    destruct (create_batch_packet_shape st events frame st' H)
      as (ph & packet & Eph & -> & -> & ->).
    split; [reflexivity|].
    destruct (struct_pack_seq_head "<HH" [FH] _ _ _ eq_refl Eph) as [r ->].
    cbn [app skipn]. rewrite <- !app_assoc. apply firstn_le_bytes2.
Qed.

Lemma encode_sequence_increments_witness :
  Protocol.create_packet lib0 (Protocol.mkHandler 65535 true 1024) (JInt 0)
    (JObj [("type", JStr "x")]%string)
  = Ok ([187; 170; 255; 255; 255; 13; 0; 123; 34; 116; 121; 112; 101; 34;
         58; 32; 34; 120; 34; 125; 152; 70], Protocol.mkHandler 0 true 1024) /\
  Protocol.packet_sequence (Protocol.mkHandler 0 true 1024) = (65535 + 1) mod 65536 /\
  Protocol.create_heartbeat_packet lib0 (Protocol.mkHandler 0 true 1024) 1000
  = Ok ([187; 170; 8; 0; 0; 232; 3; 0; 0; 0; 0; 0; 0; 42; 6], Protocol.mkHandler 1 true 1024) /\
  Protocol.packet_sequence (Protocol.mkHandler 1 true 1024) = (0 + 1) mod 65536.
Proof.
  assert (H1 : Protocol.create_packet lib0 (Protocol.mkHandler 65535 true 1024) (JInt 0)
                 (JObj [("type", JStr "x")]%string)
               = Ok ([187; 170; 255; 255; 255; 13; 0; 123; 34; 116; 121; 112; 101; 34;
                      58; 32; 34; 120; 34; 125; 152; 70], Protocol.mkHandler 0 true 1024))
    by (vm_compute; reflexivity).
  assert (H2 : Protocol.create_heartbeat_packet lib0 (Protocol.mkHandler 0 true 1024) 1000
               = Ok ([187; 170; 8; 0; 0; 232; 3; 0; 0; 0; 0; 0; 0; 42; 6],
                     Protocol.mkHandler 1 true 1024))
    by (vm_compute; reflexivity).
  split; [exact H1|]. split; [exact (proj1 (proj1 encode_sequence_increments _ _ _ _ _ _ H1))|].
  split; [exact H2|]. exact (proj1 (proj1 (proj2 encode_sequence_increments) _ _ _ _ _ H2)).
Defined.

(** ** Every event goes through [create_json_packet] *)

Lemma create_packet_json (L : pylib) (st : Protocol.handler) (now ev : json)
  (frame : bytes) (st' : Protocol.handler) :
  Protocol.create_packet L st now ev = Ok (frame, st') ->
  Protocol.create_json_packet L st ev = Ok (frame, st').
Proof.
  destruct ev as [| | | | | |kv]; cbn [Protocol.create_packet]; try discriminate.
  intros H. exc_steps H.
  destruct (a0 =? 0) eqn:Ez; [exact H|].
  destruct (get_default kv "type" (JStr EmptyString)) as [| | | |s| |];
    cbn [is_str orb] in H; try exact H.
  repeat match type of H with
  | (if String.eqb s ?t then _ else _) = _ =>
      let Es := fresh "Es" in
      destruct (String.eqb s t) eqn:Es;
      [apply String.eqb_eq in Es; subst s; vm_compute in E0; inversion E0; subst a0;
       discriminate Ez|]
  | (if (String.eqb s ?t || String.eqb s ?u)%bool then _ else _) = _ =>
      let Es := fresh "Es" in let Eu := fresh "Eu" in
      destruct (String.eqb s t) eqn:Es;
      [apply String.eqb_eq in Es; subst s; vm_compute in E0; inversion E0; subst a0;
       discriminate Ez|];
      destruct (String.eqb s u) eqn:Eu;
      [apply String.eqb_eq in Eu; subst s; vm_compute in E0; inversion E0; subst a0;
       discriminate Ez|];
      cbn [orb] in H
  end.
  exact H.
Qed.

Lemma compress_step_type (L : pylib) (st : Protocol.handler) (t : Z) (payload : bytes) :
  fst (Protocol.compress_step L st t payload) = t \/
  fst (Protocol.compress_step L st t payload) = Z.lor t 128.
Proof.
  unfold Protocol.compress_step.
  destruct (_ && _); [|left; reflexivity].
  destruct (zlib_compress L payload); [|left; reflexivity].
  destruct (_ <? _)%nat; [right|left]; reflexivity.
Qed.

Lemma compress_step_payload (L : pylib) (st : Protocol.handler) (t : Z) (payload : bytes) :
  snd (Protocol.compress_step L st t payload) = payload \/
  (Protocol.compression_enabled st = true /\ (64 < Z.of_nat (List.length payload))%Z /\
   exists c, zlib_compress L payload = Ok c /\ (List.length c < List.length payload)%nat /\
   Protocol.compress_step L st t payload = (Z.lor t 128, c)).
Proof.
  unfold Protocol.compress_step.
  destruct (Protocol.compression_enabled st) eqn:Ece; cbn [andb]; [|left; reflexivity].
  destruct (64 <? _) eqn:E64; [|left; reflexivity].
  destruct (zlib_compress L payload) as [c|] eqn:Ez; [|left; reflexivity].
  destruct (_ <? _)%nat eqn:El; [right|left; reflexivity].
  apply Z.ltb_lt in E64. apply Nat.ltb_lt in El.
  split; [reflexivity|]. split; [exact E64|]. exists c. auto.
Qed.

Lemma build_packet_header (L : pylib) (st : Protocol.handler) (t : Z) (payload frame : bytes)
  (st' : Protocol.handler) :
  Protocol.build_packet L st t payload = Ok (frame, st') ->
  exists hdr pl, struct_pack "<HB" [PInt Protocol.HEADER_MAGIC;
                                    PInt (fst (Protocol.compress_step L st t payload))] = Ok hdr /\
    pl = snd (Protocol.compress_step L st t payload) /\
    frame = hdr ++ pl ++ le_bytes 2 (Protocol.calculate_checksum (hdr ++ pl)).
Proof.
  unfold Protocol.build_packet.
  destruct (Protocol.compress_step L st t payload) as [pt pl] eqn:Ec. cbn [fst snd].
  intros H. exc_steps H. inversion H; subst.
  apply struct_pack_H in E0. subst.
  exists a, pl. split; [first [exact E | reflexivity]|]. split; [reflexivity|].
  symmetry. apply app_assoc.
Qed.

Lemma build_packet_type255 (L : pylib) (st : Protocol.handler) (payload frame : bytes)
  (st' : Protocol.handler) :
  Protocol.build_packet L st 255 payload = Ok (frame, st') -> nth_error frame 2 = Some 255.
Proof.
  intros H. destruct (build_packet_header L st 255 payload frame st' H) as (hdr & pl & Eh & _ & ->).
  assert (Hpt : fst (Protocol.compress_step L st 255 payload) = 255)
    by (destruct (compress_step_type L st 255 payload) as [E|E]; rewrite E; reflexivity).
  rewrite Hpt in Eh. vm_compute in Eh. inversion Eh. reflexivity.
Qed.

Lemma parse_type_high_none (L : pylib) (p : bytes) (tb : Z) :
  nth_error p 2 = Some tb -> tb = 254 \/ tb = 255 -> Protocol.parse_packet L p = Ok None.
Proof.
  intros En Htb. unfold Protocol.parse_packet.
  destruct (List.length p <? 5)%nat eqn:E; [reflexivity|].
  apply Nat.ltb_ge in E.
  rewrite struct_unpack_H by (rewrite length_firstn; lia). cbn [bind Protocol.first_int].
  destruct (from_le (firstn 2 p) =? Protocol.HEADER_MAGIC); cbn [negb bind]; [|reflexivity].
  rewrite verify_checksum_eq by lia. cbn [bind].
  destruct (_ =? _); cbn [negb]; [|reflexivity].
  unfold Protocol.py_index. rewrite En. cbn [bind].
  destruct Htb as [-> | ->].
  - replace (Z.land 254 128 =? 0) with false by reflexivity. cbn [negb].
    destruct (zlib_decompress L _); reflexivity.
  - replace (Z.land 255 128 =? 0) with false by reflexivity. cbn [negb].
    destruct (zlib_decompress L _); reflexivity.
Qed.

Lemma create_packet_unreadable (L : pylib) (st : Protocol.handler) (now ev : json)
  (frame : bytes) (st' : Protocol.handler) :
  Protocol.create_packet L st now ev = Ok (frame, st') ->
  nth_error frame 2 = Some 255 /\ Protocol.parse_packet L frame = Ok None.
Proof.
  intros H. apply create_packet_json in H.
  unfold Protocol.create_json_packet in H. exc_steps H.
  apply build_packet_type255 in H.
  split; [exact H|]. exact (parse_type_high_none L frame 255 H (or_intror eq_refl)).
Qed.

(** ** C1 *)

(** C1 (the round trip fails): every frame [create_packet] returns, for any
    event record, carries type byte 0xFF and is decoded by [parse_packet] to
    [None]. The [PACKET_TYPES] keys are upper case, so [create_packet] always
    takes the JSON fallback, and [parse_packet] masks the type with 0x7F, so
    its JSON branch is never reached. The mouse move event
    [{type: mouse_move, x: 100, y: 200, timestamp: 1000}] is encoded and
    decoded to [None]. *)
Theorem create_packet_round_trip_fails :
  (forall (L : pylib) (st : Protocol.handler) (now ev : json) (frame : bytes)
          (st' : Protocol.handler),
     Protocol.create_packet L st now ev = Ok (frame, st') ->
     nth_error frame 2 = Some 255 /\ Protocol.parse_packet L frame = Ok None) /\
  exists frame st',
    Protocol.create_packet lib0 Protocol.init_handler (JInt 0)
      (JObj [("type", JStr "mouse_move"); ("x", JInt 100); ("y", JInt 200);
             ("timestamp", JInt 1000)]%string) = Ok (frame, st') /\
    Protocol.parse_packet lib0 frame = Ok None.
Proof.
  split; [exact create_packet_unreadable|].
  eexists; eexists; split; [vm_compute; reflexivity|].
  apply (create_packet_unreadable lib0 Protocol.init_handler (JInt 0)
           (JObj [("type", JStr "mouse_move"); ("x", JInt 100); ("y", JInt 200);
                  ("timestamp", JInt 1000)]%string) _ (Protocol.next_seq Protocol.init_handler)).
  vm_compute. reflexivity.
Qed.

Lemma create_packet_round_trip_fails_witness :
  Protocol.create_packet lib0 Protocol.init_handler (JInt 0)
    (JObj [("type", JStr "key_press"); ("key", JStr "a"); ("key_code", JInt 65)]%string)
  = Ok ([187; 170; 255; 0; 0; 49; 0; 123; 34; 116; 121; 112; 101; 34; 58; 32; 34; 107;
         101; 121; 95; 112; 114; 101; 115; 115; 34; 44; 32; 34; 107; 101; 121; 34; 58;
         32; 34; 97; 34; 44; 32; 34; 107; 101; 121; 95; 99; 111; 100; 101; 34; 58; 32;
         54; 53; 125; 210; 69], Protocol.next_seq Protocol.init_handler) /\
  Protocol.parse_packet lib0
    [187; 170; 255; 0; 0; 49; 0; 123; 34; 116; 121; 112; 101; 34; 58; 32; 34; 107;
     101; 121; 95; 112; 114; 101; 115; 115; 34; 44; 32; 34; 107; 101; 121; 34; 58;
     32; 34; 97; 34; 44; 32; 34; 107; 101; 121; 95; 99; 111; 100; 101; 34; 58; 32;
     54; 53; 125; 210; 69] = Ok None.
Proof.
  assert (H : Protocol.create_packet lib0 Protocol.init_handler (JInt 0)
    (JObj [("type", JStr "key_press"); ("key", JStr "a"); ("key_code", JInt 65)]%string)
  = Ok ([187; 170; 255; 0; 0; 49; 0; 123; 34; 116; 121; 112; 101; 34; 58; 32; 34; 107;
         101; 121; 95; 112; 114; 101; 115; 115; 34; 44; 32; 34; 107; 101; 121; 34; 58;
         32; 34; 97; 34; 44; 32; 34; 107; 101; 121; 95; 99; 111; 100; 101; 34; 58; 32;
         54; 53; 125; 210; 69], Protocol.next_seq Protocol.init_handler))
    by (vm_compute; reflexivity).
  split; [exact H|]. exact (proj2 (proj1 create_packet_round_trip_fails _ _ _ _ _ _ H)).
Defined.

(** ** C2 *)

(** C2 (scenario A fails): for the event
    [{type: mouse_move, x: 100, y: 200, timestamp: 1000}], the typed encoder
    [create_mouse_movement_packet] raises [struct.error] (its format [<HHIIQ]
    has five fields and gets four values), and [create_packet] never calls
    it: whatever [zlib] does, the frame it returns has type byte 0xFF, not
    0x01, and decodes to [None]. With [zlib] not shrinking the payload, the
    frame is 70 bytes long, not 23. *)
Theorem mouse_move_scenario_fails (L : pylib) :
  Protocol.create_mouse_movement_packet L Protocol.init_handler
    [("type", JStr "mouse_move"); ("x", JInt 100); ("y", JInt 200);
     ("timestamp", JInt 1000)]%string 1000 = Raise StructError /\
  (forall frame st',
     Protocol.create_packet L Protocol.init_handler (JInt 0)
       (JObj [("type", JStr "mouse_move"); ("x", JInt 100); ("y", JInt 200);
              ("timestamp", JInt 1000)]%string) = Ok (frame, st') ->
     nth_error frame 2 = Some 255 /\ Protocol.parse_packet L frame = Ok None) /\
  exists frame st',
    Protocol.create_packet lib0 Protocol.init_handler (JInt 0)
      (JObj [("type", JStr "mouse_move"); ("x", JInt 100); ("y", JInt 200);
             ("timestamp", JInt 1000)]%string) = Ok (frame, st') /\
    List.length frame = 70%nat /\ nth_error frame 2 = Some 255 /\
    Protocol.parse_packet lib0 frame = Ok None.
Proof.
  split; [reflexivity|]. split.
  - intros frame st' H. exact (create_packet_unreadable _ _ _ _ _ _ H).
  - eexists; eexists. split; [vm_compute; reflexivity|].
    split; [reflexivity|]. split; [reflexivity|]. vm_compute. reflexivity.
Qed.

Lemma mouse_move_scenario_fails_witness :
  Protocol.create_packet lib0 Protocol.init_handler (JInt 0)
    (JObj [("type", JStr "mouse_move"); ("x", JInt 100); ("y", JInt 200);
           ("timestamp", JInt 1000)]%string)
  = Ok ([187; 170; 255; 0; 0; 61; 0; 123; 34; 116; 121; 112; 101; 34; 58;
         32; 34; 109; 111; 117; 115; 101; 95; 109; 111; 118; 101; 34; 44;
         32; 34; 120; 34; 58; 32; 49; 48; 48; 44; 32; 34; 121; 34; 58; 32;
         50; 48; 48; 44; 32; 34; 116; 105; 109; 101; 115; 116; 97; 109;
         112; 34; 58; 32; 49; 48; 48; 48; 125; 254; 184],
        Protocol.next_seq Protocol.init_handler) /\
  nth_error [187; 170; 255; 0; 0; 61; 0; 123; 34; 116; 121; 112; 101; 34; 58;
         32; 34; 109; 111; 117; 115; 101; 95; 109; 111; 118; 101; 34; 44;
         32; 34; 120; 34; 58; 32; 49; 48; 48; 44; 32; 34; 121; 34; 58; 32;
         50; 48; 48; 44; 32; 34; 116; 105; 109; 101; 115; 116; 97; 109;
         112; 34; 58; 32; 49; 48; 48; 48; 125; 254; 184] 2 = Some 255.
Proof.
  assert (H : Protocol.create_packet lib0 Protocol.init_handler (JInt 0)
    (JObj [("type", JStr "mouse_move"); ("x", JInt 100); ("y", JInt 200);
           ("timestamp", JInt 1000)]%string)
  = Ok ([187; 170; 255; 0; 0; 61; 0; 123; 34; 116; 121; 112; 101; 34; 58;
         32; 34; 109; 111; 117; 115; 101; 95; 109; 111; 118; 101; 34; 44;
         32; 34; 120; 34; 58; 32; 49; 48; 48; 44; 32; 34; 121; 34; 58; 32;
         50; 48; 48; 44; 32; 34; 116; 105; 109; 101; 115; 116; 97; 109;
         112; 34; 58; 32; 49; 48; 48; 48; 125; 254; 184],
        Protocol.next_seq Protocol.init_handler)) by (vm_compute; reflexivity).
  split; [exact H|].
  exact (proj1 (proj1 (proj2 (mouse_move_scenario_fails lib0)) _ _ H)).
Defined.

(** ** C5 *)

(** C5 (the flag is set on a raw payload): with compression enabled, the
    event [{type: x}] gives a 17-byte payload, which [build_packet] leaves
    unmodified and does not flag; but its type code 0xFF already has bit 7
    set, so the frame says "compressed" over the raw payload, and
    [parse_packet], which reads bit 7 as the flag, tries to inflate it and
    returns [None]. This holds whatever [zlib] does. *)
Theorem json_frame_flag_without_compression (L : pylib) :
  Protocol.compression_enabled Protocol.init_handler = true /\
  Protocol.compress_step L Protocol.init_handler 255
    ([0; 0; 13; 0] ++ utf8_encode_ascii (dumps (JObj [("type", JStr "x")]%string)))
  = (255, [0; 0; 13; 0] ++ utf8_encode_ascii (dumps (JObj [("type", JStr "x")]%string))) /\
  Z.testbit 255 7 = true /\
  Protocol.create_packet L Protocol.init_handler (JInt 0) (JObj [("type", JStr "x")]%string)
  = Ok ([187; 170; 255] ++
        ([0; 0; 13; 0] ++ utf8_encode_ascii (dumps (JObj [("type", JStr "x")]%string))) ++
        [232; 54], Protocol.next_seq Protocol.init_handler) /\
  Protocol.parse_packet L
    ([187; 170; 255] ++
     ([0; 0; 13; 0] ++ utf8_encode_ascii (dumps (JObj [("type", JStr "x")]%string))) ++
     [232; 54]) = Ok None.
Proof.
  split; [reflexivity|]. split; [reflexivity|]. split; [reflexivity|].
  assert (H : Protocol.create_packet L Protocol.init_handler (JInt 0)
                (JObj [("type", JStr "x")]%string)
              = Ok ([187; 170; 255] ++
                    ([0; 0; 13; 0] ++ utf8_encode_ascii (dumps (JObj [("type", JStr "x")]%string))) ++
                    [232; 54], Protocol.next_seq Protocol.init_handler))
    by (vm_compute; reflexivity).
  split; [exact H|]. exact (proj2 (create_packet_unreadable _ _ _ _ _ _ H)).
Qed.

(** ** C9 *)

(** C9 ([send_packet] deadlocks on a failed write): with the lock free,
    [send_packet] returns [False] and leaves the session as it was when no
    client is connected, and writes the bytes and returns [True] when the
    write succeeds. But when the write raises, the [except] branch calls
    [disconnect_client] while still holding [self.lock], a non-reentrant
    [threading.Lock]: the call blocks forever, holding the lock, with the
    session still connected; it neither disconnects nor returns [False]. *)
Theorem send_packet_blocks_on_write_failure :
  (forall (s : ConnMgr.session) (packet : bytes) (send_ok : bool),
     ConnMgr.lock_held s = false ->
     ConnMgr.connected s = false \/ ConnMgr.client_socket s = None ->
     ConnMgr.send_packet packet send_ok s = ConnMgr.Done false s) /\
  (forall (s : ConnMgr.session) (packet : bytes) (c : nat),
     ConnMgr.lock_held s = false -> ConnMgr.connected s = true ->
     ConnMgr.client_socket s = Some c ->
     exists s', ConnMgr.send_packet packet true s = ConnMgr.Done true s' /\
       ConnMgr.sent s' = ConnMgr.sent s ++ [(c, packet)] /\
       ConnMgr.lock_held s' = false /\ ConnMgr.connected s' = true /\
       ConnMgr.closed s' = ConnMgr.closed s) /\
  (forall (s : ConnMgr.session) (packet : bytes) (c : nat),
     ConnMgr.lock_held s = false -> ConnMgr.connected s = true ->
     ConnMgr.client_socket s = Some c ->
     exists s', ConnMgr.send_packet packet false s = ConnMgr.Blocked s' /\
       ConnMgr.lock_held s' = true /\ ConnMgr.connected s' = true /\
       ConnMgr.client_socket s' = Some c /\ ConnMgr.closed s' = ConnMgr.closed s).
Proof.
  split; [|split].
  - intros [cs ca dn cn sr lh cl se st ac] packet ok Hl Hc; cbn in Hl, Hc; subst lh.
    destruct Hc as [-> | ->]; [destruct cs|destruct cn]; reflexivity.
  - intros [cs ca dn cn sr lh cl se st ac] packet c Hl Hc Hs; cbn in Hl, Hc, Hs; subst.
    eexists. split; [reflexivity|]. repeat split; reflexivity.
  - intros [cs ca dn cn sr lh cl se st ac] packet c Hl Hc Hs; cbn in Hl, Hc, Hs; subst.
    eexists. split; [reflexivity|]. repeat split; reflexivity.
Qed.

Lemma send_packet_blocks_on_write_failure_witness :
  exists s', ConnMgr.send_packet [1; 2; 3] false
               (ConnMgr.mkSession (Some 1%nat) (Some "10.0.0.2"%string) (JStr "phone") true
                  true false [] [] [] [1%nat]) = ConnMgr.Blocked s' /\
    ConnMgr.lock_held s' = true /\ ConnMgr.connected s' = true /\
    ConnMgr.client_socket s' = Some 1%nat /\ ConnMgr.closed s' = [].
Proof.
  exact (proj2 (proj2 send_packet_blocks_on_write_failure)
           (ConnMgr.mkSession (Some 1%nat) (Some "10.0.0.2"%string) (JStr "phone") true
              true false [] [] [] [1%nat]) [1; 2; 3] 1%nat eq_refl eq_refl eq_refl).
Defined.

(** ** Handshakes *)

Lemma handshake_step (s : ConnMgr.session) (sock : nat) (addr name : string) :
  ConnMgr.lock_held s = false ->
  exists s', ConnMgr.handle_client_connection sock addr (Some (handshake_response name)) s
             = ConnMgr.Done (Some sock) s' /\
    ConnMgr.client_socket s' = Some sock /\ ConnMgr.connected s' = true /\
    ConnMgr.lock_held s' = false /\ ConnMgr.accepted s' = sock :: ConnMgr.accepted s /\
    ConnMgr.closed s' = match ConnMgr.client_socket s with
                        | Some c => c :: ConnMgr.closed s | None => ConnMgr.closed s end.
Proof.
  destruct s as [cs ca dn cn sr lh cl se st ac]; cbn [ConnMgr.lock_held]; intros ->.
  destruct cs as [c|]; destruct (py_truthy dn) eqn:Ed;
    eexists; (split;
      [cbv [ConnMgr.handle_client_connection ConnMgr.disconnect_client ConnMgr.sbind
            ConnMgr.get ConnMgr.put ConnMgr.modify ConnMgr.acquire ConnMgr.release
            ConnMgr.close_sock ConnMgr.emit_status ConnMgr.ret handshake_response
            ConnMgr.client_socket ConnMgr.device_name ConnMgr.lock_held];
       cbn; rewrite ?Ed; cbn; reflexivity|]);
    repeat split.
Qed.



(** ** C8 *)

Lemma list_ascii_of_string_append (a b : string) :
  list_ascii_of_string (a ++ b) = list_ascii_of_string a ++ list_ascii_of_string b.
Proof. induction a as [|c a IH]; simpl; [reflexivity|rewrite IH; reflexivity]. Qed.

Ltac unfold_session :=
  cbv [ConnMgr.heartbeat_tick ConnMgr.send_json ConnMgr.write_sock ConnMgr.disconnect_client
       ConnMgr.sbind ConnMgr.get ConnMgr.put ConnMgr.modify ConnMgr.acquire ConnMgr.release
       ConnMgr.close_sock ConnMgr.emit_status ConnMgr.ret
       ConnMgr.client_socket ConnMgr.device_name ConnMgr.lock_held ConnMgr.connected];
  cbn.

Ltac run_session Ed := unfold_session; rewrite ?Ed; cbn; reflexivity.

(** C8, as the code behaves: the loop waits [HEARTBEAT_INTERVAL] = 5 s per
    iteration; when no client is connected an iteration does nothing; when
    one is, it writes [json.dumps({type: heartbeat, timestamp: now})]
    followed by a newline to the client socket, [now] being [time.time()]
    (seconds) unchanged; when that write fails (or there is no socket), the
    session is disconnected: the socket is closed and the state cleared. *)
Theorem heartbeat_tick_behaviour :
  ConnMgr.HEARTBEAT_INTERVAL_SECONDS = 5 /\
  (forall (s : ConnMgr.session) (now : json) (ok : bool),
     ConnMgr.connected s = false -> ConnMgr.heartbeat_tick now ok s = ConnMgr.Done tt s) /\
  (forall (s : ConnMgr.session) (now : json) (c : nat),
     ConnMgr.connected s = true -> ConnMgr.client_socket s = Some c ->
     exists s', ConnMgr.heartbeat_tick now true s = ConnMgr.Done tt s' /\
       ConnMgr.sent s' = ConnMgr.sent s ++
         [(c, utf8_encode_ascii (dumps (JObj [("type", JStr "heartbeat"); ("timestamp", now)]%string))
              ++ [10])] /\
       ConnMgr.client_socket s' = Some c /\ ConnMgr.connected s' = true) /\
  (forall (s : ConnMgr.session) (now : json) (ok : bool),
     ConnMgr.connected s = true -> ConnMgr.lock_held s = false ->
     ok = false \/ ConnMgr.client_socket s = None ->
     exists s', ConnMgr.heartbeat_tick now ok s = ConnMgr.Done tt s' /\
       ConnMgr.client_socket s' = None /\ ConnMgr.connected s' = false /\
       ConnMgr.closed s' = match ConnMgr.client_socket s with
                           | Some c => c :: ConnMgr.closed s | None => ConnMgr.closed s end).
Proof.
  split; [reflexivity|]. split; [|split].
  - intros [cs ca dn cn sr lh cl se st ac] now ok Hc; cbn in Hc; subst cn. reflexivity.
  - intros [cs ca dn cn sr lh cl se st ac] now c Hc Hs; cbn in Hc, Hs; subst cn cs.
    eexists. split; [unfold_session; reflexivity|]. split; [|split; reflexivity]. cbn.
    f_equal. f_equal. f_equal. unfold utf8_encode_ascii.
    rewrite list_ascii_of_string_append, map_app. reflexivity.
  - intros [cs ca dn cn sr lh cl se st ac] now ok Hc Hl Hok; cbn in Hc, Hl, Hok; subst cn lh.
    destruct Hok as [->| ->]; [destruct cs as [c|]|];
      destruct (py_truthy dn) eqn:Ed; eexists; (split; [run_session Ed|]); repeat split.
Qed.

Lemma heartbeat_tick_behaviour_witness :
  exists s', ConnMgr.heartbeat_tick (JFloat 17000000005 1) false
               (ConnMgr.mkSession (Some 1%nat) (Some "10.0.0.2"%string) (JStr "phone") true
                  true false [] [] [] [1%nat]) = ConnMgr.Done tt s' /\
    ConnMgr.client_socket s' = None /\ ConnMgr.connected s' = false /\
    ConnMgr.closed s' = [1%nat].
Proof.
  exact (proj2 (proj2 (proj2 heartbeat_tick_behaviour))
           (ConnMgr.mkSession (Some 1%nat) (Some "10.0.0.2"%string) (JStr "phone") true
              true false [] [] [] [1%nat]) (JFloat 17000000005 1) false
           eq_refl eq_refl (or_introl eq_refl)).
Defined.

(** The heartbeat sent at [time.time()] = 1700000000.5 to a connected
    client: the JSON text carries the float seconds [1700000000.5], not the
    milliseconds [1700000000500], and it is not a binary frame (its first
    byte is [{], not the magic's [0xBB]). *)
Lemma heartbeat_sends_float_seconds :
  exists s', ConnMgr.heartbeat_tick (JFloat 17000000005 1) true
               (ConnMgr.mkSession (Some 1%nat) (Some "10.0.0.2"%string) (JStr "phone") true
                  true false [] [] [] [1%nat]) = ConnMgr.Done tt s' /\
    ConnMgr.sent s' =
      [(1%nat, utf8_encode_ascii (dumps (JObj [("type", JStr "heartbeat");
                                             ("timestamp", JFloat 17000000005 1)]%string))
               ++ [10])] /\
    dumps (JFloat 17000000005 1) = "1700000000.5"%string /\
    ConnMgr.sent s' <>
      [(1%nat, utf8_encode_ascii (dumps (JObj [("type", JStr "heartbeat");
                                             ("timestamp", JInt 1700000000500)]%string))
               ++ [10])] /\
    hd 0 (utf8_encode_ascii (dumps (JObj [("type", JStr "heartbeat");
                                          ("timestamp", JFloat 17000000005 1)]%string))) = 123.
Proof.
  eexists. split; [vm_compute; reflexivity|].
  split; [vm_compute; reflexivity|].
  split; [vm_compute; reflexivity|].
  split; [vm_compute; discriminate|].
  vm_compute. reflexivity.
Qed.

(** ** Batching *)

Lemma struct_pack_HH (a b : Z) (ph : bytes) :
  struct_pack "<HH" [PInt a; PInt b] = Ok ph -> ph = le_bytes 2 a ++ le_bytes 2 b.
Proof.
  unfold struct_pack. change (parse_fmt "<HH") with (Some [FH; FH]). cbn.
  repeat (destruct (_ && _); cbn); intros H; inversion H; reflexivity.
Qed.

(** A batch frame, as [create_batch_packet] lays it out. *)
Lemma create_batch_packet_layout (st : Protocol.handler) (events : list json) (frame : bytes)
  (st' : Protocol.handler) :
  Protocol.create_batch_packet st events = Ok (frame, st') ->
  let data := utf8_encode_ascii (dumps (JArr events)) in
  let packet := [187; 170; 254] ++ le_bytes 2 (Protocol.packet_sequence st)
                ++ le_bytes 2 (Z.of_nat (List.length data)) ++ data in
  frame = packet ++ le_bytes 2 (Protocol.calculate_checksum packet) /\
  st' = Protocol.next_seq st.
Proof.
  intros H. destruct (create_batch_packet_shape st events frame st' H)
    as (ph & packet & Eph & Hp & Hf & Hs).
  apply struct_pack_HH in Eph. subst. cbn zeta.
  rewrite <- !app_assoc. split; reflexivity.
Qed.

Lemma batch_loop_groups (L : pylib) (now : json) (max_size : Z) (events : list json) :
  forall st packets current_batch current_size ps st',
  Protocol.batch_loop L now max_size st events packets current_batch current_size
    = Ok (ps, st') ->
  exists groups qs,
    ps = packets ++ qs /\ List.concat groups = current_batch ++ events /\
    Forall (fun g => g <> []) groups /\
    Forall2 (fun g q => exists s0 s1, Protocol.create_batch_packet s0 g = Ok (q, s1))
      groups qs.
Proof.
  induction events as [|ev rest IH]; intros st packets cur size ps st' H; cbn in H.
  - destruct cur as [|e0 cur'] eqn:Ec.
    + inversion H; subst. exists [], []. rewrite app_nil_r. repeat split; constructor.
    + exc_steps H. destruct a as [q s1]. cbn in H. inversion H; subst.
      exists [e0 :: cur'], [q]. rewrite app_nil_r. cbn. rewrite app_nil_r.
      repeat split.
      * constructor; [discriminate|constructor].
      * constructor; [do 2 eexists; exact E|constructor].
  - exc_steps H. destruct a as [packet st1].
    destruct (_ && _) eqn:Ef.
    + exc_steps H. destruct a as [q s2]. cbn [fst snd] in H.
      destruct (IH _ _ _ _ _ _ H) as (groups & qs & Hps & Hc & Hne & Hf2).
      apply andb_prop in Ef as [_ Ecur].
      exists (cur :: groups), (q :: qs). repeat split.
      * rewrite Hps, <- app_assoc. reflexivity.
      * cbn. rewrite Hc. reflexivity.
      * constructor; [destruct cur; [discriminate|discriminate]|exact Hne].
      * constructor; [do 2 eexists; eassumption|exact Hf2].
    + destruct (IH _ _ _ _ _ _ H) as (groups & qs & Hps & Hc & Hne & Hf2).
      exists groups, qs. repeat split; try assumption.
      rewrite Hc, <- app_assoc. reflexivity.
Qed.

(** A successful [batch_events] splits the records, in order, into
    nonempty consecutive groups (no record is split or dropped) and returns
    one frame per group, of type 0xFE, whose payload is the 16-bit sequence
    number and the 16-bit byte length of the JSON text, followed by
    [json.dumps] of the group's original records, and then the checksum. *)
Theorem batch_events_layout (L : pylib) (st : Protocol.handler) (now : json)
  (events : list json) (max_size : Z) (ps : list bytes) (st' : Protocol.handler) :
  Protocol.batch_events L st now events max_size = Ok (ps, st') ->
  exists groups,
    List.concat groups = events /\ Forall (fun g => g <> []) groups /\
    Forall2 (fun g q => exists s0,
               let data := utf8_encode_ascii (dumps (JArr g)) in
               let packet := [187; 170; 254] ++ le_bytes 2 (Protocol.packet_sequence s0)
                             ++ le_bytes 2 (Z.of_nat (List.length data)) ++ data in
               q = packet ++ le_bytes 2 (Protocol.calculate_checksum packet))
      groups ps.
Proof.
  intros H. unfold Protocol.batch_events in H.
  destruct (batch_loop_groups L now max_size events st [] [] 0 ps st' H)
    as (groups & qs & Hps & Hc & Hne & Hf2).
  cbn in Hps, Hc. subst qs.
  exists groups. split; [exact Hc|]. split; [exact Hne|].
  eapply Forall2_impl; [|exact Hf2].
  intros g q (s0 & s1 & Hb). exists s0.
  exact (proj1 (create_batch_packet_layout s0 g q s1 Hb)).
Qed.

Lemma batch_events_layout_witness :
  exists groups,
    List.concat groups = [JObj []; JObj [("type", JStr "x")]%string] /\
    Forall (fun g => g <> []) groups /\
    Forall2 (fun g q => exists s0,
               let data := utf8_encode_ascii (dumps (JArr g)) in
               let packet := [187; 170; 254] ++ le_bytes 2 (Protocol.packet_sequence s0)
                             ++ le_bytes 2 (Z.of_nat (List.length data)) ++ data in
               q = packet ++ le_bytes 2 (Protocol.calculate_checksum packet))
      groups [[187; 170; 254; 2; 0; 4; 0; 91; 123; 125; 93; 24; 13];
              [187; 170; 254; 3; 0; 15; 0; 91; 123; 34; 116; 121; 112; 101; 34; 58;
               32; 34; 120; 34; 125; 93; 67; 234]].
Proof.
  apply (batch_events_layout lib0 Protocol.init_handler (JInt 0)
           [JObj []; JObj [("type", JStr "x")]%string] 11 _
           (Protocol.mkHandler 4 true 1024)).
  vm_compute. reflexivity.
Defined.


(** * Further properties of the code *)

(** ** Integers and their little-endian bytes *)

Lemma from_le_le_bytes (w : nat) (v : Z) :
  0 <= v < 2 ^ (8 * Z.of_nat w) -> from_le (le_bytes w v) = v.
Proof.
  revert v; induction w as [|w IH]; intros v Hv.
  - cbn in Hv |- *. lia.
  - cbn [le_bytes from_le]. change 255 with (Z.ones 8). rewrite Z.land_ones by lia.
    rewrite Z.shiftr_div_pow2 by lia. change (2 ^ 8) with 256.
    rewrite IH.
    + pose proof (Z.div_mod v 256 ltac:(lia)). lia.
    + split; [apply Z.div_pos; lia|].
      apply Z.div_lt_upper_bound; [lia|].
      replace (8 * Z.of_nat (S w)) with (8 + 8 * Z.of_nat w) in Hv by lia.
      rewrite Z.pow_add_r in Hv by lia. lia.
Qed.

Lemma fits_int (w : nat) (z : Z) :
  0 <= z < 2 ^ (8 * Z.of_nat w) -> (0 <=? z) && (z <? 2 ^ (8 * Z.of_nat w)) = true.
Proof. intros [H1 H2]. apply andb_true_intro. split; [apply Z.leb_le|apply Z.ltb_lt]; lia. Qed.

Lemma unfits_int (w : nat) (z : Z) :
  ~ (0 <= z < 2 ^ (8 * Z.of_nat w)) -> (0 <=? z) && (z <? 2 ^ (8 * Z.of_nat w)) = false.
Proof.
  intros H. destruct (0 <=? z) eqn:E1; destruct (z <? 2 ^ (8 * Z.of_nat w)) eqn:E2; try reflexivity.
  apply Z.leb_le in E1. apply Z.ltb_lt in E2. exfalso; lia.
Qed.

Lemma unpack_all_length (cs : list fcode) (b : bytes) :
  List.length (unpack_all cs b) = List.length cs.
Proof.
  revert b; induction cs as [|c cs IH]; intros b; [reflexivity|].
  destruct c; cbn; rewrite IH; reflexivity.
Qed.

Lemma struct_unpack_length (fmt : string) (cs : list fcode) (b : bytes) (vs : list pyval) :
  parse_fmt fmt = Some cs -> struct_unpack fmt b = Ok vs -> List.length vs = List.length cs.
Proof.
  intros Hf. unfold struct_unpack. rewrite Hf.
  destruct (Nat.eqb _ _); intros H; inversion H; subst. apply unpack_all_length.
Qed.

Lemma utf8_encode_ascii_valid (s : string) : Forall byte_ok (utf8_encode_ascii s).
Proof.
  unfold utf8_encode_ascii. apply Forall_forall. intros x Hx.
  apply in_map_iff in Hx as (c & <- & _). unfold byte_ok.
  pose proof (Ascii.nat_ascii_bounded c). lia.
Qed.

Lemma land127_byte (t : Z) : 0 <= Z.land t 127 < 128.
Proof. change 127 with (Z.ones 7). rewrite Z.land_ones by lia. apply Z.mod_pos_bound. lia. Qed.

Lemma land_low7 (t : Z) : 0 <= t < 128 -> Z.land t 127 = t /\ Z.land t 128 = 0.
Proof.
  intros Ht.
  assert (E : Z.land t 127 = t).
  { change 127 with (Z.ones 7). rewrite Z.land_ones by lia. apply Z.mod_small. exact Ht. }
  split; [exact E|].
  rewrite <- E, <- Z.land_assoc. change (Z.land 127 128) with 0. apply Z.land_0_r.
Qed.

Lemma lor128_byte (t : Z) : 0 <= t < 256 -> 0 <= Z.lor t 128 < 256.
Proof.
  intros Ht.
  assert (Hall : forallb (fun n => let z := Z.of_nat n in
                          (0 <=? Z.lor z 128) && (Z.lor z 128 <? 256)) (seq 0 256) = true)
    by (vm_compute; reflexivity).
  rewrite forallb_forall in Hall.
  specialize (Hall (Z.to_nat t) ltac:(apply in_seq; lia)). cbv zeta in Hall.
  rewrite Z2Nat.id in Hall by lia.
  apply andb_prop in Hall as [H1 H2]. apply Z.leb_le in H1. apply Z.ltb_lt in H2. lia.
Qed.

Lemma lor128_out (t : Z) : ~ (0 <= t < 256) -> ~ (0 <= Z.lor t 128 < 256).
Proof.
  intros Ht [H1 H2]. apply Ht. pose proof H1 as H0.
  apply Z.lor_nonneg in H1 as [H1 _]. split; [exact H1|].
  destruct (Z.lt_ge_cases t 256) as [|Hge]; [assumption|exfalso].
  assert (Hl : Z.log2 (Z.lor t 128) = Z.max (Z.log2 t) (Z.log2 128))
    by (apply Z.log2_lor; lia).
  assert (H8 : 8 <= Z.log2 t)
    by (change 8 with (Z.log2 256); apply Z.log2_le_mono; exact Hge).
  assert (Hs := Z.log2_spec (Z.lor t 128)).
  assert (0 < Z.lor t 128).
  { destruct (Z.eq_dec (Z.lor t 128) 0) as [E|]; [|lia].
    apply Z.lor_eq_0_iff in E. lia. }
  specialize (Hs ltac:(lia)) as [Hs _].
  assert (2 ^ 8 <= 2 ^ Z.log2 (Z.lor t 128)) by (apply Z.pow_le_mono_r; lia).
  lia.
Qed.

Ltac pack_simpl := cbn [pack_all pack1 code_width List.length Nat.eqb].

Lemma struct_pack_HB_ok (a b : Z) :
  0 <= a < 65536 -> 0 <= b < 256 ->
  struct_pack "<HB" [PInt a; PInt b] = Ok (le_bytes 2 a ++ le_bytes 1 b).
Proof.
  intros Ha Hb. unfold struct_pack. change (parse_fmt "<HB") with (Some [FH; FB]). pack_simpl.
  rewrite (fits_int 2 a) by (cbn; lia). rewrite (fits_int 1 b) by (cbn; lia).
  cbn [bind]. rewrite app_nil_r. reflexivity.
Qed.

Lemma struct_pack_HB_bad (a b : Z) :
  ~ (0 <= b < 256) -> struct_pack "<HB" [PInt a; PInt b] = Raise StructError.
Proof.
  intros Hb. unfold struct_pack. change (parse_fmt "<HB") with (Some [FH; FB]). pack_simpl.
  destruct (_ && _); cbn [bind]; [|reflexivity].
  rewrite (unfits_int 1 b) by (cbn; lia). reflexivity.
Qed.

Lemma struct_pack_H_ok (v : Z) :
  0 <= v < 65536 -> struct_pack "<H" [PInt v] = Ok (le_bytes 2 v).
Proof.
  intros Hv. unfold struct_pack. change (parse_fmt "<H") with (Some [FH]). pack_simpl.
  rewrite (fits_int 2 v) by (cbn; lia). cbn [bind]. rewrite app_nil_r. reflexivity.
Qed.

Lemma struct_pack_HH_ok (a b : Z) :
  0 <= a < 65536 -> 0 <= b < 65536 ->
  struct_pack "<HH" [PInt a; PInt b] = Ok (le_bytes 2 a ++ le_bytes 2 b).
Proof.
  intros Ha Hb. unfold struct_pack. change (parse_fmt "<HH") with (Some [FH; FH]). pack_simpl.
  rewrite (fits_int 2 a) by (cbn; lia). rewrite (fits_int 2 b) by (cbn; lia).
  cbn [bind]. rewrite app_nil_r. reflexivity.
Qed.

Lemma struct_pack_HH_bad (a b : Z) :
  0 <= a < 65536 -> ~ (0 <= b < 65536) -> struct_pack "<HH" [PInt a; PInt b] = Raise StructError.
Proof.
  intros Ha Hb. unfold struct_pack. change (parse_fmt "<HH") with (Some [FH; FH]). pack_simpl.
  rewrite (fits_int 2 a) by (cbn; lia). rewrite (unfits_int 2 b) by (cbn; lia). reflexivity.
Qed.

Lemma firstn_le_bytes (w : nat) (v : Z) (r : bytes) : firstn w (le_bytes w v ++ r) = le_bytes w v.
Proof. rewrite <- (le_bytes_length w v) at 1. apply firstn_app_exact. Qed.

Lemma skipn_le_bytes (w : nat) (v : Z) (r : bytes) : skipn w (le_bytes w v ++ r) = r.
Proof. rewrite <- (le_bytes_length w v) at 1. apply skipn_app_exact. Qed.

(** ** Checksum verification *)

Lemma verify_checksum_app (data ck : bytes) :
  Forall byte_ok data -> Forall byte_ok ck -> List.length ck = 2%nat ->
  (Protocol.verify_checksum (data ++ ck) = Ok true
   <-> ck = le_bytes 2 (Protocol.calculate_checksum data)).
Proof.
  intros Hd Hc Lc.
  rewrite verify_checksum_eq by (rewrite length_app; lia).
  rewrite length_app, Lc. replace (List.length data + 2 - 2)%nat with (List.length data) by lia.
  rewrite firstn_app_exact, skipn_app_exact.
  assert (R := checksum_range data Hd).
  split.
  - intros H. inversion H as [H1]. apply Z.eqb_eq in H1.
    apply from_le2_inj; [exact Lc|apply le_bytes_length|exact Hc|apply le_bytes_valid|].
    rewrite from_le_le_bytes2 by exact R. exact H1.
  - intros ->. rewrite from_le_le_bytes2 by exact R. rewrite Z.eqb_refl. reflexivity.
Qed.

(** ** Decoding a well-formed frame *)

Lemma parse_packet_frame (L : pylib) (t : Z) (payload : bytes) :
  0 <= t < 128 -> Forall byte_ok payload ->
  let packet := 187 :: 170 :: t :: payload in
  Protocol.parse_packet L (packet ++ le_bytes 2 (Protocol.calculate_checksum packet))
  = match Protocol.dispatch L t payload with
    | Ok e => Ok (Some e) | Raise _ => Ok None end.
Proof.
  intros Ht Hp packet.
  assert (Vp : Forall byte_ok packet).
  { unfold packet. repeat constructor; unfold byte_ok; try lia; exact Hp. }
  assert (Hv : Protocol.verify_checksum (packet ++ le_bytes 2 (Protocol.calculate_checksum packet))
               = Ok true)
    by (apply verify_checksum_app; [exact Vp|apply le_bytes_valid|apply le_bytes_length|reflexivity]).
  unfold Protocol.parse_packet.
  set (frame := packet ++ le_bytes 2 (Protocol.calculate_checksum packet)) in *.
  assert (Lf : List.length frame = (List.length payload + 5)%nat)
    by (unfold frame, packet; rewrite length_app, le_bytes_length; cbn; lia).
  rewrite Lf.
  replace ((List.length payload + 5 <? 5)%nat) with false by (symmetry; apply Nat.ltb_ge; lia).
  replace (firstn 2 frame) with [187; 170] by reflexivity.
  replace (struct_unpack "<H" [187; 170]) with (Ok [PInt 43707]) by reflexivity.
  cbn [bind Protocol.first_int].
  replace (43707 =? Protocol.HEADER_MAGIC) with true by reflexivity. cbn [negb].
  rewrite Hv. cbn [bind negb].
  replace (Protocol.py_index frame 2) with (Ok t) by reflexivity. cbn [bind].
  destruct (land_low7 t Ht) as [E127 E128]. rewrite E127, E128. cbn [Z.eqb negb].
  replace (slice 3 (List.length payload + 5 - 2) frame) with payload.
  - reflexivity.
  - unfold slice, frame, packet. cbn [app skipn].
    replace (List.length payload + 5 - 2 - 3)%nat with (List.length payload) by lia.
    symmetry. apply firstn_app_exact.
Qed.

Lemma struct_unpack_HQ (a b : Z) :
  struct_unpack "<HQ" (le_bytes 2 a ++ le_bytes 8 b)
  = Ok [PInt (from_le (le_bytes 2 a)); PInt (from_le (le_bytes 8 b))].
Proof.
  unfold struct_unpack. change (parse_fmt "<HQ") with (Some [FH; FQ]).
  rewrite length_app, !le_bytes_length. cbn [calcsize fold_right code_width Nat.eqb Nat.add].
  cbn [unpack_all code_width]. rewrite firstn_le_bytes, skipn_le_bytes.
  rewrite firstn_all2 by (rewrite le_bytes_length; lia). reflexivity.
Qed.

Lemma struct_unpack_HIIQ (a b c d : Z) :
  struct_unpack "<HIIQ" (le_bytes 2 a ++ le_bytes 4 b ++ le_bytes 4 c ++ le_bytes 8 d)
  = Ok [PInt (from_le (le_bytes 2 a)); PInt (from_le (le_bytes 4 b));
        PInt (from_le (le_bytes 4 c)); PInt (from_le (le_bytes 8 d))].
Proof.
  unfold struct_unpack. change (parse_fmt "<HIIQ") with (Some [FH; FI; FI; FQ]).
  rewrite !length_app, !le_bytes_length. cbn [calcsize fold_right code_width Nat.eqb Nat.add].
  cbn [unpack_all code_width]. rewrite !skipn_le_bytes, !firstn_le_bytes.
  rewrite firstn_all2 by (rewrite le_bytes_length; lia). reflexivity.
Qed.

Lemma struct_pack_HQ_ok (a b : Z) :
  0 <= a < 65536 -> 0 <= b < 2 ^ 64 ->
  struct_pack "<HQ" [PInt a; PInt b] = Ok (le_bytes 2 a ++ le_bytes 8 b).
Proof.
  intros Ha Hb. unfold struct_pack. change (parse_fmt "<HQ") with (Some [FH; FQ]). pack_simpl.
  rewrite (fits_int 2 a) by (cbn; lia). rewrite (fits_int 8 b) by (cbn; lia).
  cbn [bind]. rewrite app_nil_r. reflexivity.
Qed.

(** [build_packet] on a payload of at most 64 bytes and a type below 128. *)
Lemma build_packet_small (L : pylib) (st : Protocol.handler) (t : Z) (payload : bytes) :
  0 <= t < 128 -> Forall byte_ok payload -> (List.length payload <= 64)%nat ->
  let packet := 187 :: 170 :: t :: payload in
  Protocol.build_packet L st t payload
  = Ok (packet ++ le_bytes 2 (Protocol.calculate_checksum packet), Protocol.next_seq st).
Proof.
  intros Ht Hp Hl packet.
  unfold Protocol.build_packet, Protocol.compress_step.
  replace (64 <? Z.of_nat (List.length payload)) with false by (symmetry; apply Z.ltb_ge; lia).
  rewrite andb_false_r.
  rewrite struct_pack_HB_ok by (unfold Protocol.HEADER_MAGIC; lia). cbn [bind].
  replace (le_bytes 2 Protocol.HEADER_MAGIC ++ le_bytes 1 t) with [187; 170; t]
    by (cbn; f_equal; f_equal; f_equal; change 255 with (Z.ones 8);
        rewrite Z.land_ones by lia; symmetry; apply Z.mod_small; lia).
  rewrite struct_pack_H_ok.
  - reflexivity.
  - change 65536 with (2 ^ 16). apply checksum_range.
    repeat constructor; unfold byte_ok; try lia. exact Hp.
Qed.

Lemma parse_packet_some (L : pylib) (p : bytes) (e : Protocol.event) :
  Protocol.parse_packet L p = Ok (Some e) ->
  exists tb pl, Protocol.dispatch L (Z.land tb 127) pl = Ok e.
Proof.
  unfold Protocol.parse_packet.
  destruct (List.length p <? 5)%nat eqn:E; [discriminate|].
  apply Nat.ltb_ge in E.
  rewrite struct_unpack_H by (rewrite length_firstn; lia). cbn [bind Protocol.first_int].
  destruct (from_le (firstn 2 p) =? Protocol.HEADER_MAGIC); cbn [negb bind]; [|discriminate].
  rewrite verify_checksum_eq by lia. cbn [bind].
  destruct (_ =? _); cbn [negb]; [|discriminate].
  unfold Protocol.py_index.
  destruct (nth_error p 2) as [tb|] eqn:En; [|apply nth_error_None in En; lia].
  cbn [bind].
  destruct (if negb (Z.land tb 128 =? 0) then _ else _) as [pl|]; [|discriminate].
  destruct (Protocol.dispatch L (Z.land tb 127) pl) eqn:Ed; intros H; inversion H; subst.
  exists tb, pl. exact Ed.
Qed.

Ltac unpack_cases H :=
  repeat match type of H with
  | context [match ?v with PInt _ => _ | PBytes _ => _ end] => destruct v
  | context [match ?l with [] => _ | _ :: _ => _ end] => destruct l
  end.

Lemma parse_mouse_click_raises (payload : bytes) :
  exists e, Protocol.parse_mouse_click_packet payload = Raise e.
Proof.
  unfold Protocol.parse_mouse_click_packet.
  destruct (struct_unpack "<HIIIBBQ" payload) as [vs|e] eqn:E; cbn [bind]; [|eexists; reflexivity].
  apply (struct_unpack_length _ [FH; FI; FI; FI; FB; FB; FQ]) in E; [|reflexivity].
  do 7 (destruct vs as [|? vs]; [discriminate|]). destruct vs; [|discriminate].
  repeat match goal with v : pyval |- _ => destruct v end; eexists; reflexivity.
Qed.

Lemma parse_keyboard_raises (L : pylib) (payload : bytes) :
  exists e, Protocol.parse_keyboard_packet L payload = Raise e.
Proof.
  unfold Protocol.parse_keyboard_packet.
  destruct (struct_unpack "<HIBBB16sQ" payload) as [vs|e] eqn:E; cbn [bind];
    [|eexists; reflexivity].
  apply (struct_unpack_length _ [FH; FI; FB; FB; FB; Fs 16; FQ]) in E; [|reflexivity].
  do 7 (destruct vs as [|? vs]; [discriminate|]). destruct vs; [|discriminate].
  repeat match goal with v : pyval |- _ => destruct v end; eexists; reflexivity.
Qed.

Lemma parse_scroll_raises (payload : bytes) :
  exists e, Protocol.parse_scroll_packet payload = Raise e.
Proof.
  unfold Protocol.parse_scroll_packet.
  destruct (struct_unpack "<HIIHHHQ" payload) as [vs|e] eqn:E; cbn [bind]; [|eexists; reflexivity].
  apply (struct_unpack_length _ [FH; FI; FI; FH; FH; FH; FQ]) in E; [|reflexivity].
  do 7 (destruct vs as [|? vs]; [discriminate|]). destruct vs; [|discriminate].
  repeat match goal with v : pyval |- _ => destruct v end; eexists; reflexivity.
Qed.

Lemma parse_control_switch_raises (payload : bytes) :
  exists e, Protocol.parse_control_switch_packet payload = Raise e.
Proof.
  unfold Protocol.parse_control_switch_packet.
  destruct (struct_unpack "<HBBBQ" payload) as [vs|e] eqn:E; cbn [bind]; [|eexists; reflexivity].
  apply (struct_unpack_length _ [FH; FB; FB; FB; FQ]) in E; [|reflexivity].
  do 5 (destruct vs as [|? vs]; [discriminate|]). destruct vs; [|discriminate].
  repeat match goal with v : pyval |- _ => destruct v end; eexists; reflexivity.
Qed.

Lemma dispatch_results (L : pylib) (t : Z) (pl : bytes) (e : Protocol.event) :
  0 <= t < 128 -> Protocol.dispatch L t pl = Ok e ->
  (exists seq x y ts, e = Protocol.EvMouseMove seq x y ts) \/
  (exists seq ts, e = Protocol.EvHeartbeat seq ts).
Proof.
  intros Ht. unfold Protocol.dispatch.
  destruct (t =? 1).
  { unfold Protocol.parse_mouse_movement_packet. intros H.
    destruct (struct_unpack "<HIIQ" pl); cbn [bind] in H; [|discriminate].
    unpack_cases H; try discriminate. inversion H. left. do 4 eexists. reflexivity. }
  destruct (t =? 2).
  { destruct (parse_mouse_click_raises pl) as [x ->]. discriminate. }
  destruct (t =? 3).
  { destruct (parse_keyboard_raises L pl) as [x ->]. discriminate. }
  destruct (t =? 4).
  { destruct (parse_scroll_raises pl) as [x ->]. discriminate. }
  destruct (t =? 7).
  { destruct (parse_control_switch_raises pl) as [x ->]. discriminate. }
  destruct (t =? 8).
  { unfold Protocol.parse_heartbeat_packet. intros H.
    destruct (struct_unpack "<HQ" pl); cbn [bind] in H; [|discriminate].
    unpack_cases H; try discriminate. inversion H. right. do 2 eexists. reflexivity. }
  replace (t =? 255) with false by (symmetry; apply Z.eqb_neq; lia).
  discriminate.
Qed.

(** ** X: properties of [protocol.py] *)

(** [verify_checksum] returns [False] on a packet shorter than two bytes;
    on a byte string [data] followed by two bytes [ck] it returns [True]
    exactly when [ck] is [struct.pack('<H', calculate_checksum(data))]. *)
Theorem verify_checksum_exact :
  (forall p : bytes, (List.length p < 2)%nat -> Protocol.verify_checksum p = Ok false) /\
  (forall data ck : bytes, Forall byte_ok data -> Forall byte_ok ck -> List.length ck = 2%nat ->
     (Protocol.verify_checksum (data ++ ck) = Ok true
      <-> ck = le_bytes 2 (Protocol.calculate_checksum data))).
Proof.
  split.
  - intros p Hp. unfold Protocol.verify_checksum.
    replace (List.length p <? 2)%nat with true by (symmetry; apply Nat.ltb_lt; exact Hp).
    reflexivity.
  - exact verify_checksum_app.
Qed.

Lemma verify_checksum_exact_witness :
  Protocol.verify_checksum [187] = Ok false /\
  (Protocol.verify_checksum ([187; 170; 8] ++ [83; 127]) = Ok true
   <-> [83; 127] = le_bytes 2 (Protocol.calculate_checksum [187; 170; 8])).
Proof.
  split.
  - apply (proj1 verify_checksum_exact). cbn. lia.
  - apply (proj2 verify_checksum_exact).
    + repeat constructor; unfold byte_ok; lia.
    + repeat constructor; unfold byte_ok; lia.
    + reflexivity.
Defined.

(** A frame laid out as [parse_packet] expects, with a type code [t] below
    0x80 (compression flag clear), a payload of bytes and the correct
    checksum, passes every check: [parse_packet] returns what the parser of
    type [t] returns on the payload, or [None] when that parser raises. *)
Theorem parse_packet_accepts_frame (L : pylib) (t : Z) (payload : bytes) :
  0 <= t < 128 -> Forall byte_ok payload ->
  let packet := 187 :: 170 :: t :: payload in
  Protocol.parse_packet L (packet ++ le_bytes 2 (Protocol.calculate_checksum packet))
  = match Protocol.dispatch L t payload with
    | Ok e => Ok (Some e) | Raise _ => Ok None end.
Proof. exact (parse_packet_frame L t payload). Qed.

Lemma parse_packet_accepts_frame_witness :
  Protocol.parse_packet lib0 ([187; 170; 8; 7; 0; 232; 3; 0; 0; 0; 0; 0; 0]
       ++ le_bytes 2 (Protocol.calculate_checksum [187; 170; 8; 7; 0; 232; 3; 0; 0; 0; 0; 0; 0]))
  = match Protocol.dispatch lib0 8 [7; 0; 232; 3; 0; 0; 0; 0; 0; 0] with
    | Ok e => Ok (Some e) | Raise _ => Ok None end.
Proof.
  apply (parse_packet_accepts_frame lib0 8 [7; 0; 232; 3; 0; 0; 0; 0; 0; 0]).
  - lia.
  - repeat constructor; unfold byte_ok; lia.
Defined.

(** A correctly framed mouse-movement frame (type 0x01) whose payload is
    [struct.pack('<HIIQ', seq, x, y, timestamp)] is decoded to the
    [mouse_move] record of exactly those four values. *)
Theorem parse_mouse_move_frame (L : pylib) (seq x y ts : Z) :
  0 <= seq < 2 ^ 16 -> 0 <= x < 2 ^ 32 -> 0 <= y < 2 ^ 32 -> 0 <= ts < 2 ^ 64 ->
  let packet := 187 :: 170 :: 1 :: (le_bytes 2 seq ++ le_bytes 4 x ++ le_bytes 4 y
                                     ++ le_bytes 8 ts) in
  Protocol.parse_packet L (packet ++ le_bytes 2 (Protocol.calculate_checksum packet))
  = Ok (Some (Protocol.EvMouseMove seq x y ts)).
Proof.
  intros Hs Hx Hy Ht packet. unfold packet.
  rewrite parse_packet_frame.
  - change (Protocol.dispatch L 1 ?pl) with (Protocol.parse_mouse_movement_packet pl).
    unfold Protocol.parse_mouse_movement_packet. rewrite struct_unpack_HIIQ. cbn [bind].
    rewrite !from_le_le_bytes by (cbn; lia). reflexivity.
  - lia.
  - repeat (apply Forall_app; split); apply le_bytes_valid.
Qed.

Lemma parse_mouse_move_frame_witness :
  Protocol.parse_packet lib0
    ((187 :: 170 :: 1 :: (le_bytes 2 0 ++ le_bytes 4 100 ++ le_bytes 4 200 ++ le_bytes 8 1000))
     ++ le_bytes 2 (Protocol.calculate_checksum
          (187 :: 170 :: 1 :: (le_bytes 2 0 ++ le_bytes 4 100 ++ le_bytes 4 200
                               ++ le_bytes 8 1000))))
  = Ok (Some (Protocol.EvMouseMove 0 100 200 1000)).
Proof. apply (parse_mouse_move_frame lib0 0 100 200 1000); cbn; lia. Defined.

(** [create_heartbeat_packet] is the one typed encoder whose frames
    [parse_packet] reads back: for a sequence number and a timestamp that
    fit their fields, it returns a 15-byte frame, advances the counter, and
    [parse_packet] decodes the frame to the heartbeat record with that
    sequence number and timestamp. *)
Theorem heartbeat_round_trip (L : pylib) (st : Protocol.handler) (ts : Z) :
  0 <= Protocol.packet_sequence st < 65536 -> 0 <= ts < 2 ^ 64 ->
  exists frame,
    Protocol.create_heartbeat_packet L st ts = Ok (frame, Protocol.next_seq st) /\
    List.length frame = 15%nat /\
    Protocol.parse_packet L frame
    = Ok (Some (Protocol.EvHeartbeat (Protocol.packet_sequence st) ts)).
Proof.
  intros Hs Ht. unfold Protocol.create_heartbeat_packet.
  rewrite struct_pack_HQ_ok by assumption. cbn [bind].
  assert (Vp : Forall byte_ok (le_bytes 2 (Protocol.packet_sequence st) ++ le_bytes 8 ts))
    by (apply Forall_app; split; apply le_bytes_valid).
  rewrite build_packet_small.
  - eexists. split; [reflexivity|]. split.
    + rewrite length_app, !le_bytes_length. cbn [List.length].
      rewrite length_app, !le_bytes_length. reflexivity.
    + rewrite parse_packet_frame by (lia || exact Vp).
      change (Protocol.dispatch L 8 ?pl) with (Protocol.parse_heartbeat_packet pl).
      unfold Protocol.parse_heartbeat_packet. rewrite struct_unpack_HQ. cbn [bind].
      rewrite !from_le_le_bytes by (cbn; lia). reflexivity.
  - lia.
  - exact Vp.
  - rewrite length_app, !le_bytes_length. lia.
Qed.

Lemma heartbeat_round_trip_witness :
  exists frame,
    Protocol.create_heartbeat_packet lib0 (Protocol.mkHandler 7 true 1024) 1700000000000
    = Ok (frame, Protocol.next_seq (Protocol.mkHandler 7 true 1024)) /\
    List.length frame = 15%nat /\
    Protocol.parse_packet lib0 frame = Ok (Some (Protocol.EvHeartbeat 7 1700000000000)).
Proof. apply (heartbeat_round_trip lib0 (Protocol.mkHandler 7 true 1024) 1700000000000); cbn; lia. Defined.

(** The parsers of mouse clicks, keyboard, scroll and control-switch
    payloads never return: each assigns the tuple of [struct.unpack] to a
    different number of names than its format has fields (7, 7, 7 and 5
    fields for 6 names), so it raises on every payload, [struct.error] or
    [ValueError]. *)
Theorem typed_parsers_always_raise (L : pylib) (payload : bytes) :
  (exists e, Protocol.parse_mouse_click_packet payload = Raise e) /\
  (exists e, Protocol.parse_keyboard_packet L payload = Raise e) /\
  (exists e, Protocol.parse_scroll_packet payload = Raise e) /\
  (exists e, Protocol.parse_control_switch_packet payload = Raise e).
Proof.
  split; [apply parse_mouse_click_raises|].
  split; [apply parse_keyboard_raises|].
  split; [apply parse_scroll_raises|apply parse_control_switch_raises].
Qed.

(** Whatever the input, a record returned by [parse_packet] is a
    [mouse_move] or a [heartbeat] record: clicks, keys, scrolls and control
    switches never decode, and the JSON branch (0xFF) is unreachable since
    the type code is masked with 0x7F. *)
Theorem parse_packet_results (L : pylib) (p : bytes) (e : Protocol.event) :
  Protocol.parse_packet L p = Ok (Some e) ->
  (exists seq x y ts, e = Protocol.EvMouseMove seq x y ts) \/
  (exists seq ts, e = Protocol.EvHeartbeat seq ts).
Proof.
  intros H. destruct (parse_packet_some L p e H) as (tb & pl & Hd).
  exact (dispatch_results L _ pl e (land127_byte tb) Hd).
Qed.

Lemma parse_packet_results_witness :
  Protocol.parse_packet lib0 [187; 170; 8; 0; 0; 232; 3; 0; 0; 0; 0; 0; 0; 42; 6]
  = Ok (Some (Protocol.EvHeartbeat 0 1000)) /\
  ((exists seq x y ts, Protocol.EvHeartbeat 0 1000 = Protocol.EvMouseMove seq x y ts) \/
   (exists seq ts, Protocol.EvHeartbeat 0 1000 = Protocol.EvHeartbeat seq ts)).
Proof.
  assert (H : Protocol.parse_packet lib0 [187; 170; 8; 0; 0; 232; 3; 0; 0; 0; 0; 0; 0; 42; 6]
              = Ok (Some (Protocol.EvHeartbeat 0 1000))) by (vm_compute; reflexivity).
  split; [exact H|]. exact (parse_packet_results lib0 _ _ H).
Defined.

(** The typed encoders never return a frame: [create_mouse_movement_packet],
    [create_mouse_click_packet], [create_keyboard_packet],
    [create_scroll_packet] and [create_control_switch_packet] raise on every
    input ([struct.error] from a [struct.pack] whose format has a different
    number of fields than the values passed, or an earlier conversion
    error). *)
Theorem typed_encoders_always_raise (L : pylib) (st : Protocol.handler)
  (ev : list (string * json)) (ts : Z) :
  (exists e, Protocol.create_mouse_movement_packet L st ev ts = Raise e) /\
  (exists e, Protocol.create_mouse_click_packet L st ev ts = Raise e) /\
  (exists e, Protocol.create_keyboard_packet L st ev ts = Raise e) /\
  (exists e, Protocol.create_scroll_packet L st ev ts = Raise e) /\
  (exists e, Protocol.create_control_switch_packet L st ev ts = Raise e).
Proof.
  unfold Protocol.create_mouse_movement_packet, Protocol.create_mouse_click_packet,
    Protocol.create_keyboard_packet, Protocol.create_scroll_packet,
    Protocol.create_control_switch_packet.
  repeat split; cbv zeta;
  repeat match goal with
  | |- exists e, bind ?m _ = Raise e =>
      lazymatch m with
      | struct_pack _ _ => fail
      | _ => destruct m; cbn [bind]; [|eexists; reflexivity]
      end
  end;
  eexists; reflexivity.
Qed.

(** ** Encoder bounds *)

Lemma build_packet_range (L : pylib) (st : Protocol.handler) (t : Z) (payload : bytes) :
  (forall b c, zlib_compress L b = Ok c -> Forall byte_ok c) ->
  Forall byte_ok payload ->
  (0 <= t < 256 -> exists frame,
     Protocol.build_packet L st t payload = Ok (frame, Protocol.next_seq st) /\
     Protocol.verify_checksum frame = Ok true) /\
  (~ (0 <= t < 256) -> Protocol.build_packet L st t payload = Raise StructError).
Proof.
  intros Hz Hp. unfold Protocol.build_packet.
  destruct (Protocol.compress_step L st t payload) as [pt pl] eqn:Ec.
  assert (Hpt : pt = t \/ pt = Z.lor t 128)
    by (destruct (compress_step_type L st t payload) as [E|E]; rewrite Ec in E; cbn in E; auto).
  assert (Hpl : Forall byte_ok pl).
  { destruct (compress_step_payload L st t payload) as [E|(_ & _ & c & Ez & _ & E)];
      rewrite Ec in E; [cbn in E; subst; exact Hp|inversion E; subst; exact (Hz _ _ Ez)]. }
  split.
  - intros Ht.
    assert (Rpt : 0 <= pt < 256)
      by (destruct Hpt as [->| ->]; [exact Ht|apply lor128_byte; exact Ht]).
    rewrite struct_pack_HB_ok by (unfold Protocol.HEADER_MAGIC; lia). cbn [bind].
    assert (Vh : Forall byte_ok ((le_bytes 2 Protocol.HEADER_MAGIC ++ le_bytes 1 pt) ++ pl))
      by (repeat (apply Forall_app; split); try apply le_bytes_valid; exact Hpl).
    rewrite struct_pack_H_ok by (change 65536 with (2 ^ 16); apply checksum_range; exact Vh).
    cbn [bind]. eexists. split; [reflexivity|].
    apply verify_checksum_app; [exact Vh|apply le_bytes_valid|apply le_bytes_length|reflexivity].
  - intros Ht.
    assert (Rpt : ~ (0 <= pt < 256))
      by (destruct Hpt as [->| ->]; [exact Ht|apply lor128_out; exact Ht]).
    rewrite struct_pack_HB_bad by exact Rpt. reflexivity.
Qed.

Lemma create_json_packet_range (L : pylib) (st : Protocol.handler) (ev : json) :
  (forall b c, zlib_compress L b = Ok c -> Forall byte_ok c) ->
  0 <= Protocol.packet_sequence st < 65536 ->
  let n := List.length (utf8_encode_ascii (dumps ev)) in
  (Z.of_nat n < 65536 -> exists frame,
     Protocol.create_json_packet L st ev = Ok (frame, Protocol.next_seq st) /\
     Protocol.verify_checksum frame = Ok true) /\
  (65536 <= Z.of_nat n -> Protocol.create_json_packet L st ev = Raise StructError).
Proof.
  intros Hz Hs n. unfold Protocol.create_json_packet. fold n.
  split.
  - intros Hn. rewrite struct_pack_HH_ok by lia. cbn [bind].
    apply (build_packet_range L st 255 _ Hz); [|lia].
    apply Forall_app; split; [apply Forall_app; split; apply le_bytes_valid|].
    apply utf8_encode_ascii_valid.
  - intros Hn. rewrite struct_pack_HH_bad by lia. reflexivity.
Qed.

(** [build_packet] never raises for a type code that fits a byte: for a
    payload of bytes (and a [zlib.compress] returning bytes) and a type in
    [0, 256) it returns a frame that [verify_checksum] accepts and advances
    the counter; for any other type code, [struct.pack('<HB', ...)] raises
    [struct.error]. *)
Theorem build_packet_type_range (L : pylib) (st : Protocol.handler) (t : Z) (payload : bytes) :
  (forall b c, zlib_compress L b = Ok c -> Forall byte_ok c) ->
  Forall byte_ok payload ->
  (0 <= t < 256 -> exists frame,
     Protocol.build_packet L st t payload = Ok (frame, Protocol.next_seq st) /\
     Protocol.verify_checksum frame = Ok true) /\
  (~ (0 <= t < 256) -> Protocol.build_packet L st t payload = Raise StructError).
Proof. exact (build_packet_range L st t payload). Qed.

Lemma lib0_compress_bytes :
  forall b c, zlib_compress lib0 b = Ok c -> Forall byte_ok c.
Proof.
  intros b c H. cbn in H. inversion H; subst.
  apply Forall_forall. intros x Hx. apply (repeat_spec (S (List.length b))) in Hx. subst.
  unfold byte_ok. lia.
Qed.

Lemma build_packet_type_range_witness :
  (exists frame,
     Protocol.build_packet lib0 Protocol.init_handler 2 [1; 2; 3]
     = Ok (frame, Protocol.next_seq Protocol.init_handler) /\
     Protocol.verify_checksum frame = Ok true) /\
  Protocol.build_packet lib0 Protocol.init_handler 300 [1; 2; 3] = Raise StructError.
Proof.
  split.
  - apply (build_packet_type_range lib0 Protocol.init_handler 2 [1; 2; 3] lib0_compress_bytes).
    + repeat constructor; unfold byte_ok; lia.
    + lia.
  - apply (build_packet_type_range lib0 Protocol.init_handler 300 [1; 2; 3] lib0_compress_bytes).
    + repeat constructor; unfold byte_ok; lia.
    + lia.
Defined.

(** [create_json_packet] stores the length of the JSON text in a 16-bit
    field: for a sequence number in range (and a [zlib.compress] returning
    bytes) it returns a frame that [verify_checksum] accepts when
    [json.dumps(event_data)] has fewer than 65536 bytes, and raises
    [struct.error] when it has 65536 bytes or more. *)
Theorem create_json_packet_size_limit (L : pylib) (st : Protocol.handler) (ev : json) :
  (forall b c, zlib_compress L b = Ok c -> Forall byte_ok c) ->
  0 <= Protocol.packet_sequence st < 65536 ->
  let n := List.length (utf8_encode_ascii (dumps ev)) in
  (Z.of_nat n < 65536 -> exists frame,
     Protocol.create_json_packet L st ev = Ok (frame, Protocol.next_seq st) /\
     Protocol.verify_checksum frame = Ok true) /\
  (65536 <= Z.of_nat n -> Protocol.create_json_packet L st ev = Raise StructError).
Proof. exact (create_json_packet_range L st ev). Qed.

Lemma create_json_packet_size_limit_witness :
  (exists frame,
     Protocol.create_json_packet lib0 Protocol.init_handler (JObj [("type", JStr "x")]%string)
     = Ok (frame, Protocol.next_seq Protocol.init_handler) /\
     Protocol.verify_checksum frame = Ok true) /\
  Protocol.create_json_packet lib0 Protocol.init_handler (JStr (string_of_list_ascii (List.repeat "a"%char (Z.to_nat 65536))))
  = Raise StructError.
Proof.
  split.
  - apply (create_json_packet_size_limit lib0 Protocol.init_handler _ lib0_compress_bytes).
    + cbn. lia.
    + vm_compute. congruence.
  - apply (create_json_packet_size_limit lib0 Protocol.init_handler _ lib0_compress_bytes).
    + cbn. lia.
    + vm_compute. congruence.
Defined.

(** [create_batch_packet] has the same 16-bit length field: for a sequence
    number in range it returns a frame of type 0xFE that [verify_checksum]
    accepts when [json.dumps(events)] has fewer than 65536 bytes, and raises
    [struct.error] otherwise. *)
Theorem create_batch_packet_size_limit (st : Protocol.handler) (events : list json) :
  0 <= Protocol.packet_sequence st < 65536 ->
  let n := List.length (utf8_encode_ascii (dumps (JArr events))) in
  (Z.of_nat n < 65536 -> exists frame,
     Protocol.create_batch_packet st events = Ok (frame, Protocol.next_seq st) /\
     nth_error frame 2 = Some 254 /\ Protocol.verify_checksum frame = Ok true) /\
  (65536 <= Z.of_nat n -> Protocol.create_batch_packet st events = Raise StructError).
Proof.
  intros Hs n. unfold Protocol.create_batch_packet. fold n.
  split.
  - intros Hn. rewrite struct_pack_HH_ok by lia. cbn [bind].
    rewrite struct_pack_HB_ok by (unfold Protocol.HEADER_MAGIC; lia). cbn [bind].
    assert (Vh : Forall byte_ok ((le_bytes 2 Protocol.HEADER_MAGIC ++ le_bytes 1 254) ++
               (le_bytes 2 (Protocol.packet_sequence st) ++ le_bytes 2 (Z.of_nat n)) ++
               utf8_encode_ascii (dumps (JArr events))))
      by (repeat (apply Forall_app; split); try apply le_bytes_valid;
          apply utf8_encode_ascii_valid).
    rewrite struct_pack_H_ok by (change 65536 with (2 ^ 16); apply checksum_range; exact Vh).
    cbn [bind]. eexists. split; [reflexivity|]. split; [reflexivity|].
    apply verify_checksum_app; [exact Vh|apply le_bytes_valid|apply le_bytes_length|reflexivity].
  - intros Hn. rewrite struct_pack_HH_bad by lia. reflexivity.
Qed.

Lemma create_batch_packet_size_limit_witness :
  (exists frame,
     Protocol.create_batch_packet Protocol.init_handler [JObj []]
     = Ok (frame, Protocol.next_seq Protocol.init_handler) /\
     nth_error frame 2 = Some 254 /\ Protocol.verify_checksum frame = Ok true) /\
  Protocol.create_batch_packet Protocol.init_handler
    [JStr (string_of_list_ascii (List.repeat "a"%char (Z.to_nat 65536)))] = Raise StructError.
Proof.
  split.
  - apply (create_batch_packet_size_limit Protocol.init_handler [JObj []]).
    + cbn. lia.
    + vm_compute. congruence.
  - apply (create_batch_packet_size_limit Protocol.init_handler _).
    + cbn. lia.
    + vm_compute. congruence.
Defined.

(** ** The counter across [batch_events] *)

Lemma create_packet_next (L : pylib) (st : Protocol.handler) (now ev : json) (frame : bytes)
  (st' : Protocol.handler) :
  Protocol.create_packet L st now ev = Ok (frame, st') -> st' = Protocol.next_seq st.
Proof.
  intros H. destruct (create_packet_seq L st now ev frame st' H) as (t & payload & _ & Hb & _).
  destruct (build_packet_shape L st t payload frame st' Hb) as (_ & _ & _ & E). exact E.
Qed.

Lemma create_batch_next (st : Protocol.handler) (events : list json) (frame : bytes)
  (st' : Protocol.handler) :
  Protocol.create_batch_packet st events = Ok (frame, st') -> st' = Protocol.next_seq st.
Proof.
  intros H. destruct (create_batch_packet_shape st events frame st' H) as (_ & _ & _ & _ & _ & E).
  exact E.
Qed.

Lemma batch_loop_seq (L : pylib) (now : json) (max_size : Z) (events : list json) :
  forall st packets current_batch current_size ps st',
  Protocol.batch_loop L now max_size st events packets current_batch current_size
    = Ok (ps, st') ->
  exists fresh, ps = packets ++ fresh /\
    st' = Nat.iter (List.length events + List.length fresh) Protocol.next_seq st.
Proof.
  induction events as [|ev rest IH]; intros st packets cur size ps st' H; cbn in H.
  - destruct cur as [|e0 cur'].
    + inversion H; subst. exists []. rewrite app_nil_r. split; reflexivity.
    + exc_steps H. destruct a as [q s1]. cbn in H. inversion H; subst.
      exists [q]. split; [reflexivity|]. cbn. exact (create_batch_next _ _ _ _ E).
  - exc_steps H. destruct a as [packet st1].
    apply create_packet_next in E. subst st1.
    destruct (_ && _).
    + exc_steps H. destruct a as [q s2]. cbn [fst snd] in H.
      apply create_batch_next in E. subst s2.
      destruct (IH _ _ _ _ _ _ H) as (fresh & Hps & Hst).
      exists (q :: fresh). split; [rewrite Hps, <- app_assoc; reflexivity|].
      rewrite Hst. cbn [List.length].
      replace (S (List.length rest) + S (List.length fresh))%nat
        with (S (S (List.length rest + List.length fresh))) by lia.
      rewrite !Nat.iter_succ_r. reflexivity.
    + destruct (IH _ _ _ _ _ _ H) as (fresh & Hps & Hst).
      exists fresh. split; [exact Hps|].
      rewrite Hst. cbn [List.length]. rewrite Nat.add_succ_l, Nat.iter_succ_r. reflexivity.
Qed.

Lemma iter_next_seq (n : nat) (st : Protocol.handler) :
  0 <= Protocol.packet_sequence st < 65536 ->
  Nat.iter n Protocol.next_seq st
  = Protocol.mkHandler ((Protocol.packet_sequence st + Z.of_nat n) mod 65536)
      (Protocol.compression_enabled st) (Protocol.max_packet_size st).
Proof.
  intros Hs. induction n as [|n IH].
  - destruct st as [q c m]. cbn in Hs |- *. rewrite Z.add_0_r, Z.mod_small by lia. reflexivity.
  - rewrite Nat.iter_succ, IH. unfold Protocol.next_seq. cbn [Protocol.packet_sequence
      Protocol.compression_enabled Protocol.max_packet_size].
    f_equal. rewrite Zplus_mod_idemp_l. f_equal. lia.
Qed.

(** [batch_events] advances the sequence counter once per input record
    (each goes through [create_packet]) and once per batch frame, modulo
    65536, and changes no other attribute; no records give no frame, and
    [k >= 1] records give between 1 and [k] frames. *)
Theorem batch_events_sequence (L : pylib) (st : Protocol.handler) (now : json)
  (events : list json) (max_size : Z) (ps : list bytes) (st' : Protocol.handler) :
  0 <= Protocol.packet_sequence st < 65536 ->
  Protocol.batch_events L st now events max_size = Ok (ps, st') ->
  st' = Protocol.mkHandler
          ((Protocol.packet_sequence st + Z.of_nat (List.length events + List.length ps))
           mod 65536)
          (Protocol.compression_enabled st) (Protocol.max_packet_size st) /\
  (events = [] -> ps = []) /\
  (events <> [] -> (1 <= List.length ps <= List.length events)%nat).
Proof.
  intros Hs H. unfold Protocol.batch_events in H.
  destruct (batch_loop_seq L now max_size events st [] [] 0 ps st' H) as (fresh & Hps & Hst).
  cbn in Hps. subst fresh.
  split; [rewrite Hst; apply iter_next_seq; exact Hs|].
  destruct (batch_loop_groups L now max_size events st [] [] 0 ps st' H)
    as (groups & qs & Hq & Hc & Hne & Hf2).
  cbn in Hq, Hc. subst qs.
  assert (Hlen : List.length groups = List.length ps) by exact (Forall2_length Hf2).
  assert (Hle : (List.length groups <= List.length (List.concat groups))%nat).
  { clear -Hne. induction groups as [|g gs IHg]; [cbn; lia|].
    inversion Hne as [|? ? Hg Hgs]; subst. cbn. rewrite length_app.
    destruct g; [contradiction|]. cbn. specialize (IHg Hgs). lia. }
  split.
  - intros ->. destruct groups as [|g gs]; [destruct ps; [reflexivity|discriminate]|].
    inversion Hne as [|? ? Hg _]; subst. cbn in Hc.
    destruct g; [contradiction|discriminate].
  - intros Hev. rewrite <- Hlen. split; [|rewrite <- Hc; exact Hle].
    destruct groups; [cbn in Hc; subst; contradiction|cbn; lia].
Qed.

Lemma batch_events_sequence_witness :
  Protocol.batch_events lib0 Protocol.init_handler (JInt 0)
    [JObj []; JObj [("type", JStr "x")]%string] 11
  = Ok ([[187; 170; 254; 2; 0; 4; 0; 91; 123; 125; 93; 24; 13];
         [187; 170; 254; 3; 0; 15; 0; 91; 123; 34; 116; 121; 112; 101; 34; 58;
          32; 34; 120; 34; 125; 93; 67; 234]], Protocol.mkHandler 4 true 1024) /\
  Protocol.mkHandler 4 true 1024
  = Protocol.mkHandler ((0 + Z.of_nat (2 + 2)) mod 65536) true 1024.
Proof.
  assert (H : Protocol.batch_events lib0 Protocol.init_handler (JInt 0)
                [JObj []; JObj [("type", JStr "x")]%string] 11
              = Ok ([[187; 170; 254; 2; 0; 4; 0; 91; 123; 125; 93; 24; 13];
                     [187; 170; 254; 3; 0; 15; 0; 91; 123; 34; 116; 121; 112; 101; 34; 58;
                      32; 34; 120; 34; 125; 93; 67; 234]], Protocol.mkHandler 4 true 1024))
    by (vm_compute; reflexivity).
  split; [exact H|].
  exact (proj1 (batch_events_sequence lib0 Protocol.init_handler (JInt 0) _ 11 _ _
                  ltac:(cbn; lia) H)).
Defined.

(** ** X: properties of [connection_manager.py] and its caller *)

Ltac session_eval :=
  cbv [ConnMgr.handle_client_connection ConnMgr.heartbeat_tick ConnMgr.send_json
       ConnMgr.write_sock ConnMgr.disconnect_client ConnMgr.send_packet ConnMgr.is_connected
       ConnMgr.stop_server ConnMgr.cleanup
       ConnMgr.sbind ConnMgr.get ConnMgr.put ConnMgr.modify ConnMgr.acquire ConnMgr.release
       ConnMgr.close_sock ConnMgr.emit_status ConnMgr.ret
       ConnMgr.client_socket ConnMgr.client_address ConnMgr.device_name ConnMgr.lock_held
       ConnMgr.connected ConnMgr.server_running ConnMgr.closed ConnMgr.sent
       ConnMgr.status_events ConnMgr.accepted];
  cbn.

(** [disconnect_client], called with the lock free, closes the installed
    socket (if any), clears the socket, address, device name and connected
    flag, releases the lock, and emits [status_changed(False, '')] exactly
    when the old device name was non-empty; calling it again changes
    nothing. *)
Theorem disconnect_client_idempotent (s : ConnMgr.session) :
  ConnMgr.lock_held s = false ->
  exists s1, ConnMgr.disconnect_client s = ConnMgr.Done tt s1 /\
    ConnMgr.client_socket s1 = None /\ ConnMgr.client_address s1 = None /\
    ConnMgr.connected s1 = false /\ ConnMgr.device_name s1 = JStr EmptyString /\
    ConnMgr.lock_held s1 = false /\ ConnMgr.server_running s1 = ConnMgr.server_running s /\
    ConnMgr.closed s1 = match ConnMgr.client_socket s with
                        | Some c => c :: ConnMgr.closed s | None => ConnMgr.closed s end /\
    ConnMgr.sent s1 = ConnMgr.sent s /\
    ConnMgr.status_events s1 = ConnMgr.status_events s ++
      (if py_truthy (ConnMgr.device_name s) then [(false, JStr EmptyString)] else []) /\
    ConnMgr.disconnect_client s1 = ConnMgr.Done tt s1.
Proof.
  destruct s as [cs ca dn cn sr lh cl se st ac]; cbn [ConnMgr.lock_held]; intros ->.
  destruct cs as [c|]; destruct (py_truthy dn) eqn:Ed;
    eexists; (split; [session_eval; rewrite ?Ed; cbn; reflexivity|]);
    cbn; rewrite ?Ed, ?app_nil_r; repeat split; session_eval; reflexivity.
Qed.

Lemma disconnect_client_idempotent_witness :
  exists s1, ConnMgr.disconnect_client
      (ConnMgr.mkSession (Some 4%nat) (Some "10.0.0.4"%string) (JStr "phone") true true false
         [] [] [] [4%nat]) = ConnMgr.Done tt s1 /\
    ConnMgr.client_socket s1 = None /\ ConnMgr.client_address s1 = None /\
    ConnMgr.connected s1 = false /\ ConnMgr.device_name s1 = JStr EmptyString /\
    ConnMgr.lock_held s1 = false /\ ConnMgr.server_running s1 = true /\
    ConnMgr.closed s1 = [4%nat] /\ ConnMgr.sent s1 = [] /\
    ConnMgr.status_events s1 = [] ++ [(false, JStr EmptyString)] /\
    ConnMgr.disconnect_client s1 = ConnMgr.Done tt s1.
Proof.
  exact (disconnect_client_idempotent
           (ConnMgr.mkSession (Some 4%nat) (Some "10.0.0.4"%string) (JStr "phone") true true
              false [] [] [] [4%nat]) eq_refl).
Defined.

(** A handshake that fails ([receive_json] returned nothing, or a value
    that is not a non-empty dict with [type] equal to
    ['handshake_response']) closes the new socket and leaves everything else
    as it was: the current session, if any, stays installed and connected,
    no status change is emitted and no reader thread is started. *)
Theorem handshake_rejected_keeps_session (s : ConnMgr.session) (sock : nat) (addr : string)
  (response : option json) :
  (forall kv, response = Some (JObj kv) ->
     py_truthy (JObj kv) && is_str (get_default kv "type" JNull) "handshake_response" = false) ->
  ConnMgr.handle_client_connection sock addr response s
  = ConnMgr.Done None
      (ConnMgr.mkSession (ConnMgr.client_socket s) (ConnMgr.client_address s)
         (ConnMgr.device_name s) (ConnMgr.connected s) (ConnMgr.server_running s)
         (ConnMgr.lock_held s) (sock :: ConnMgr.closed s) (ConnMgr.sent s)
         (ConnMgr.status_events s) (ConnMgr.accepted s)).
Proof.
  intros H. unfold ConnMgr.handle_client_connection.
  destruct response as [[| | | | | |kv]|]; try reflexivity.
  rewrite (H kv eq_refl). reflexivity.
Qed.

Lemma handshake_rejected_keeps_session_witness :
  ConnMgr.handle_client_connection 5%nat "10.0.0.5" (Some (JObj [("type", JStr "hello")]%string))
    (ConnMgr.mkSession (Some 4%nat) (Some "10.0.0.4"%string) (JStr "phone") true true false
       [] [] [] [4%nat])
  = ConnMgr.Done None
      (ConnMgr.mkSession (Some 4%nat) (Some "10.0.0.4"%string) (JStr "phone") true true false
         [5%nat] [] [] [4%nat]).
Proof.
  apply (handshake_rejected_keeps_session
           (ConnMgr.mkSession (Some 4%nat) (Some "10.0.0.4"%string) (JStr "phone") true true
              false [] [] [] [4%nat]) 5%nat "10.0.0.5" _).
  intros kv H. inversion H. reflexivity.
Defined.

(** A handshake response whose [device_name] is a number is accepted: the
    socket is installed and [connected] set, then
    [status_changed.emit(True, device_name)] raises (the signal takes a
    [str]) and the [except] branch closes that socket, before any reader
    thread is started. The manager is left connected, with a closed socket
    installed as the session. *)
Theorem handshake_numeric_name_leaves_closed_session (s : ConnMgr.session) (sock : nat)
  (addr : string) (kv : list (string * json)) (z : Z) :
  ConnMgr.lock_held s = false ->
  get_default kv "type" JNull = JStr "handshake_response" ->
  get_default kv "device_name" (JStr "Unknown Device") = JInt z ->
  exists s', ConnMgr.handle_client_connection sock addr (Some (JObj kv)) s = ConnMgr.Done None s' /\
    ConnMgr.connected s' = true /\ ConnMgr.client_socket s' = Some sock /\
    In sock (ConnMgr.closed s') /\ ConnMgr.device_name s' = JInt z /\
    ConnMgr.lock_held s' = false.
Proof.
  intros Hl Ht Hn.
  destruct kv as [|p kv']; [discriminate Ht|].
  unfold ConnMgr.handle_client_connection. rewrite Ht, Hn.
  replace (py_truthy (JObj (p :: kv')) && is_str (JStr "handshake_response") "handshake_response")
    with true by reflexivity.
  destruct s as [cs ca dn cn sr lh cl se st ac]; cbn [ConnMgr.lock_held] in Hl; subst lh.
  destruct cs as [c|]; destruct (py_truthy dn) eqn:Ed;
    eexists; (split; [session_eval; rewrite ?Ed; cbn; reflexivity|]);
    cbn; repeat split; left; reflexivity.
Qed.

Lemma handshake_numeric_name_leaves_closed_session_witness :
  exists s', ConnMgr.handle_client_connection 5%nat "10.0.0.5"
      (Some (JObj [("type", JStr "handshake_response"); ("device_name", JInt 7)]%string))
      (ConnMgr.mkSession None None (JStr EmptyString) false true false [] [] [] [])
    = ConnMgr.Done None s' /\
    ConnMgr.connected s' = true /\ ConnMgr.client_socket s' = Some 5%nat /\
    In 5%nat (ConnMgr.closed s') /\ ConnMgr.device_name s' = JInt 7 /\
    ConnMgr.lock_held s' = false.
Proof.
  apply (handshake_numeric_name_leaves_closed_session
           (ConnMgr.mkSession None None (JStr EmptyString) false true false [] [] [] [])
           5%nat "10.0.0.5" _ 7); reflexivity.
Defined.

Lemma heartbeat_tick_lock (s : ConnMgr.session) (now : json) (ok : bool) :
  ConnMgr.lock_held s = false ->
  exists s1, ConnMgr.heartbeat_tick now ok s = ConnMgr.Done tt s1 /\
    ConnMgr.lock_held s1 = false /\
    ConnMgr.server_running s1 = ConnMgr.server_running s /\
    (ConnMgr.connected s = false -> s1 = s).
Proof.
  destruct s as [cs ca dn cn sr lh cl se st ac]; cbn [ConnMgr.lock_held]; intros ->.
  destruct cn.
  - destruct cs as [c|]; destruct ok; destruct (py_truthy dn) eqn:Ed;
      eexists; (split; [session_eval; rewrite ?Ed; cbn; reflexivity|]);
      cbn; repeat split; discriminate.
  - exists (ConnMgr.mkSession cs ca dn false sr false cl se st ac).
    split; [reflexivity|]. repeat split.
Qed.

(** The heartbeat loop never deadlocks: started with the lock free, any
    run of [heartbeat_monitor] returns with the lock free (it calls
    [disconnect_client] outside the lock). While no client is connected it
    changes nothing: no heartbeat is sent, no socket closed. *)
Theorem heartbeat_monitor_never_blocks (ticks : list (json * bool)) (s : ConnMgr.session) :
  ConnMgr.lock_held s = false ->
  exists s', ConnMgr.heartbeat_monitor ticks s = ConnMgr.Done tt s' /\
    ConnMgr.lock_held s' = false /\ (ConnMgr.connected s = false -> s' = s).
Proof.
  revert s. induction ticks as [|[now ok] rest IH]; intros s Hl.
  - exists s. split; [reflexivity|]. split; [exact Hl|reflexivity].
  - cbn [ConnMgr.heartbeat_monitor]. unfold ConnMgr.sbind at 1, ConnMgr.get at 1.
    destruct (ConnMgr.server_running s) eqn:Er.
    + destruct (heartbeat_tick_lock s now ok Hl) as (s1 & H1 & Hl1 & _ & Hc1).
      unfold ConnMgr.sbind. rewrite H1.
      destruct (IH s1 Hl1) as (s2 & H2 & Hl2 & Hc2).
      exists s2. split; [exact H2|]. split; [exact Hl2|].
      intros Hc. rewrite (Hc1 Hc) in Hc2. rewrite (Hc1 Hc) in *. exact (Hc2 Hc).
    + exists s. split; [reflexivity|]. split; [exact Hl|reflexivity].
Qed.

Lemma heartbeat_monitor_never_blocks_witness :
  exists s', ConnMgr.heartbeat_monitor [(JInt 1, false); (JInt 2, true)]
      (ConnMgr.mkSession (Some 4%nat) (Some "10.0.0.4"%string) (JStr "phone") true true false
         [] [] [] [4%nat]) = ConnMgr.Done tt s' /\
    ConnMgr.lock_held s' = false /\
    (true = false -> s' = ConnMgr.mkSession (Some 4%nat) (Some "10.0.0.4"%string) (JStr "phone")
                            true true false [] [] [] [4%nat]).
Proof.
  exact (heartbeat_monitor_never_blocks [(JInt 1, false); (JInt 2, true)]
           (ConnMgr.mkSession (Some 4%nat) (Some "10.0.0.4"%string) (JStr "phone") true true
              false [] [] [] [4%nat]) eq_refl).
Defined.

(** [stop_server], called with the lock free on a running server, clears
    [server_running] and disconnects the client (closing its socket); the
    heartbeat loop then exits at its next test, and a second [stop_server]
    does nothing. On a stopped server [stop_server] does nothing. *)
Theorem stop_server_effect (s : ConnMgr.session) :
  ConnMgr.lock_held s = false ->
  (ConnMgr.server_running s = true ->
   exists s', ConnMgr.stop_server s = ConnMgr.Done tt s' /\
     ConnMgr.server_running s' = false /\ ConnMgr.connected s' = false /\
     ConnMgr.client_socket s' = None /\ ConnMgr.lock_held s' = false /\
     ConnMgr.closed s' = match ConnMgr.client_socket s with
                         | Some c => c :: ConnMgr.closed s | None => ConnMgr.closed s end /\
     ConnMgr.stop_server s' = ConnMgr.Done tt s' /\
     (forall ticks, ConnMgr.heartbeat_monitor ticks s' = ConnMgr.Done tt s')) /\
  (ConnMgr.server_running s = false -> ConnMgr.stop_server s = ConnMgr.Done tt s).
Proof.
  destruct s as [cs ca dn cn sr lh cl se st ac]; cbn [ConnMgr.lock_held ConnMgr.server_running];
    intros ->.
  split.
  - intros ->.
    destruct cs as [c|]; destruct (py_truthy dn) eqn:Ed;
      eexists; (split; [session_eval; rewrite ?Ed; cbn; reflexivity|]);
      cbn; repeat split; try (session_eval; reflexivity);
      intros [|[n o] r]; reflexivity.
  - intros ->. reflexivity.
Qed.

Lemma stop_server_effect_witness :
  exists s', ConnMgr.stop_server
      (ConnMgr.mkSession (Some 4%nat) (Some "10.0.0.4"%string) (JStr "phone") true true false
         [] [] [] [4%nat]) = ConnMgr.Done tt s' /\
    ConnMgr.server_running s' = false /\ ConnMgr.connected s' = false /\
    ConnMgr.client_socket s' = None /\ ConnMgr.lock_held s' = false /\
    ConnMgr.closed s' = [4%nat] /\
    ConnMgr.stop_server s' = ConnMgr.Done tt s' /\
    (forall ticks, ConnMgr.heartbeat_monitor ticks s' = ConnMgr.Done tt s').
Proof.
  exact (proj1 (stop_server_effect
                  (ConnMgr.mkSession (Some 4%nat) (Some "10.0.0.4"%string) (JStr "phone") true
                     true false [] [] [] [4%nat]) eq_refl) eq_refl).
Defined.

(** [WiFiKeyControl.on_input_event] while a client is connected and the write
    succeeds: the event is encoded once by [create_packet], the handler's
    counter advances, and exactly that frame is written to the client
    socket; the frame has type byte 0xFF, and [parse_packet] decodes it to
    [None]. With no client connected it encodes and writes nothing. *)
Theorem on_input_event_sends_json_frame (L : pylib) (ph : Protocol.handler) (now ev : json)
  (s : ConnMgr.session) :
  ConnMgr.lock_held s = false ->
  (forall c frame ph',
     ConnMgr.connected s = true -> ConnMgr.client_socket s = Some c ->
     Protocol.create_packet L ph now ev = Ok (frame, ph') ->
     exists s', Main.on_input_event L ph now ev true s = ConnMgr.Done (Ok ph') s' /\
       ConnMgr.sent s' = ConnMgr.sent s ++ [(c, frame)] /\ ConnMgr.lock_held s' = false /\
       nth_error frame 2 = Some 255 /\ Protocol.parse_packet L frame = Ok None) /\
  (forall ok, ConnMgr.connected s = false ->
     Main.on_input_event L ph now ev ok s = ConnMgr.Done (Ok ph) s).
Proof.
  destruct s as [cs ca dn cn sr lh cl se st ac]; cbn [ConnMgr.lock_held]; intros ->.
  split.
  - intros c frame ph' Hc Hs Hp. cbn in Hc, Hs. subst cn cs.
    destruct (create_packet_unreadable L ph now ev frame ph' Hp) as [Ht Hn].
    eexists. split.
    + cbv [Main.on_input_event]. session_eval. rewrite Hp. session_eval. reflexivity.
    + cbn. repeat split; assumption.
  - intros ok Hc. cbn in Hc. subst cn. reflexivity.
Qed.

Lemma on_input_event_sends_json_frame_witness :
  exists s', Main.on_input_event lib0 Protocol.init_handler (JInt 0)
      (JObj [("type", JStr "x")]%string) true
      (ConnMgr.mkSession (Some 4%nat) (Some "10.0.0.4"%string) (JStr "phone") true true false
         [] [] [] [4%nat])
    = ConnMgr.Done (Ok (Protocol.mkHandler 1 true 1024)) s' /\
    ConnMgr.sent s' = [] ++ [(4%nat, [187; 170; 255; 0; 0; 13; 0; 123; 34; 116; 121; 112; 101;
                                      34; 58; 32; 34; 120; 34; 125; 232; 54])] /\
    ConnMgr.lock_held s' = false /\
    nth_error [187; 170; 255; 0; 0; 13; 0; 123; 34; 116; 121; 112; 101;
               34; 58; 32; 34; 120; 34; 125; 232; 54] 2 = Some 255 /\
    Protocol.parse_packet lib0 [187; 170; 255; 0; 0; 13; 0; 123; 34; 116; 121; 112; 101;
                                34; 58; 32; 34; 120; 34; 125; 232; 54] = Ok None.
Proof.
  apply (proj1 (on_input_event_sends_json_frame lib0 Protocol.init_handler (JInt 0)
                  (JObj [("type", JStr "x")]%string)
                  (ConnMgr.mkSession (Some 4%nat) (Some "10.0.0.4"%string) (JStr "phone") true
                     true false [] [] [] [4%nat]) eq_refl)); reflexivity.
Defined.

(** ** X: the discovery listener *)

Lemma dict_get_set (kv : list (string * json)) (k : string) (v : json) :
  dict_get (dict_set kv k v) k = Some v.
Proof.
  induction kv as [|[k' w] r IH]; cbn.
  - rewrite String.eqb_refl. reflexivity.
  - destruct (String.eqb k' k) eqn:E; cbn; rewrite E; [reflexivity|exact IH].
Qed.

Lemma discovery_response_cases (L : pylib) (port : Z) (data : bytes) (ip : string)
  (info : json) :
  ConnMgr.discovery_response L port data ip = Ok (Some info) ->
  ConnMgr.startswith data ConnMgr.DISCOVERY_RESPONSE = true /\
  exists kv, info = JObj kv /\ dict_get kv "ip" = Some (JStr ip).
Proof.
  unfold ConnMgr.discovery_response.
  destruct (ConnMgr.startswith data ConnMgr.DISCOVERY_RESPONSE); [|discriminate].
  destruct (json_loads L _) as [[| | | | | |kv]|[]]; try discriminate; intros H;
    inversion H; subst; split; try reflexivity.
  - exists (dict_set kv "ip" (JStr ip)). split; [reflexivity|apply dict_get_set].
  - eexists. split; [reflexivity|]. reflexivity.
Qed.

(** Timeouts and datagrams that do not start with [b'WIFIKEY_RESPONSE']
    are skipped: removing them from any run does not change what the
    listener reports. In particular the manager's own [WIFIKEY_DISCOVERY]
    broadcast, if received back, is skipped. *)
Theorem discovery_listener_skips_non_responses (L : pylib) (port : Z)
  (ds : list ConnMgr.datagram) :
  ConnMgr.listen_for_discovery_responses L port ds
  = ConnMgr.listen_for_discovery_responses L port (filter discovery_relevant ds) /\
  ConnMgr.startswith ConnMgr.DISCOVERY_MESSAGE ConnMgr.DISCOVERY_RESPONSE = false.
Proof.
  split; [|reflexivity].
  induction ds as [|[| |data ip] rest IH]; cbn [filter discovery_relevant].
  - reflexivity.
  - exact IH.
  - reflexivity.
  - destruct (ConnMgr.startswith data ConnMgr.DISCOVERY_RESPONSE) eqn:Es.
    + cbn [ConnMgr.listen_for_discovery_responses].
      destruct (ConnMgr.discovery_response L port data ip) as [[info|]|e];
        [f_equal; exact IH|exact IH|reflexivity].
    + cbn [ConnMgr.listen_for_discovery_responses].
      unfold ConnMgr.discovery_response at 1. rewrite Es. exact IH.
Qed.

(** The loop ends at the first [recvfrom] error and at the first response
    whose handling raises an exception other than [JSONDecodeError] (for
    instance a valid JSON text that is not an object): no device received
    after it is reported. *)
Theorem discovery_listener_stops_at_failure (L : pylib) (port : Z) (d : ConnMgr.datagram)
  (ds1 ds2 : list ConnMgr.datagram) :
  (d = ConnMgr.RecvError \/
   exists data ip e, d = ConnMgr.Recv data ip /\ ConnMgr.discovery_response L port data ip = Raise e) ->
  ConnMgr.listen_for_discovery_responses L port (ds1 ++ d :: ds2)
  = ConnMgr.listen_for_discovery_responses L port ds1.
Proof.
  intros Hd.
  induction ds1 as [|[| |data ip] rest IH]; cbn [app ConnMgr.listen_for_discovery_responses].
  - destruct Hd as [->|(data & ip & e & -> & He)]; [reflexivity|].
    cbn [ConnMgr.listen_for_discovery_responses]. rewrite He. reflexivity.
  - exact IH.
  - reflexivity.
  - destruct (ConnMgr.discovery_response L port data ip) as [[info|]|e];
      [f_equal; exact IH|exact IH|reflexivity].
Qed.

Lemma discovery_listener_stops_at_failure_witness :
  ConnMgr.listen_for_discovery_responses lib0 12346
    ([ConnMgr.RecvTimeout] ++ ConnMgr.RecvError :: [ConnMgr.RecvTimeout])
  = ConnMgr.listen_for_discovery_responses lib0 12346 [ConnMgr.RecvTimeout].
Proof.
  apply (discovery_listener_stops_at_failure lib0 12346 ConnMgr.RecvError
           [ConnMgr.RecvTimeout] [ConnMgr.RecvTimeout]).
  left. reflexivity.
Defined.

(** Every record the listener emits through [device_discovered] is a dict
    whose ['ip'] entry is the sender address of a received datagram that
    starts with [b'WIFIKEY_RESPONSE'], whatever the JSON text carried. *)
Theorem discovery_reports_sender_ip (L : pylib) (port : Z) (ds : list ConnMgr.datagram)
  (info : json) :
  In info (ConnMgr.listen_for_discovery_responses L port ds) ->
  exists kv data ip, info = JObj kv /\ dict_get kv "ip" = Some (JStr ip) /\
    In (ConnMgr.Recv data ip) ds /\
    ConnMgr.startswith data ConnMgr.DISCOVERY_RESPONSE = true.
Proof.
  induction ds as [|[| |data ip] rest IH]; cbn [ConnMgr.listen_for_discovery_responses].
  - intros [].
  - intros H. destruct (IH H) as (kv & data & ip & H1 & H2 & H3 & H4).
    exists kv, data, ip. repeat split; auto. right. exact H3.
  - intros [].
  - destruct (ConnMgr.discovery_response L port data ip) as [[i|]|e] eqn:Er.
    + intros [Hi|H].
      * subst info. destruct (discovery_response_cases L port data ip i Er) as (Hs & kv & -> & Hk).
        exists kv, data, ip. repeat split; auto. left. reflexivity.
      * destruct (IH H) as (kv & data' & ip' & H1 & H2 & H3 & H4).
        exists kv, data', ip'. repeat split; auto. right. exact H3.
    + intros H. destruct (IH H) as (kv & data' & ip' & H1 & H2 & H3 & H4).
      exists kv, data', ip'. repeat split; auto. right. exact H3.
    + intros [].
Qed.

Lemma discovery_reports_sender_ip_witness :
  exists kv data ip, JObj [("name", JStr "Android Device (10.0.0.9)");
                           ("ip", JStr "10.0.0.9"); ("port", JInt 12346)]%string = JObj kv /\
    dict_get kv "ip" = Some (JStr ip) /\
    In (ConnMgr.Recv data ip) [ConnMgr.RecvTimeout;
                               ConnMgr.Recv (ConnMgr.DISCOVERY_RESPONSE ++ [120]) "10.0.0.9"] /\
    ConnMgr.startswith data ConnMgr.DISCOVERY_RESPONSE = true.
Proof.
  apply (discovery_reports_sender_ip lib0 12346
           [ConnMgr.RecvTimeout; ConnMgr.Recv (ConnMgr.DISCOVERY_RESPONSE ++ [120]) "10.0.0.9"]).
  vm_compute. left. reflexivity.
Defined.

(** ** X: the per-client reader thread *)

Lemma disconnect_client_free (s : ConnMgr.session) :
  ConnMgr.lock_held s = false ->
  exists s1, ConnMgr.disconnect_client s = ConnMgr.Done tt s1 /\
    ConnMgr.connected s1 = false /\ ConnMgr.client_socket s1 = None /\
    ConnMgr.lock_held s1 = false /\
    ConnMgr.closed s1 = match ConnMgr.client_socket s with
                        | Some c => c :: ConnMgr.closed s | None => ConnMgr.closed s end.
Proof.
  destruct s as [cs ca dn cn sr lh cl se st ac]; cbn [ConnMgr.lock_held]; intros ->.
  destruct cs as [c|]; destruct (py_truthy dn) eqn:Ed;
    eexists; (split; [session_eval; rewrite ?Ed; cbn; reflexivity|]);
    cbn; repeat split.
Qed.

(** The reader thread [handle_client_data(sock)] ends by calling
    [disconnect_client()], which tears down whatever session is installed
    at that time, not the session of [sock]. When a newer handshake has
    replaced [sock], the old socket's [recv] fails once it is closed, and
    the old thread then closes the new client's socket and clears the
    connection: after any number of timeouts and non-empty messages
    followed by a failed [recv], the manager is disconnected and the socket
    installed at that time is closed, whichever socket the thread reads. *)
Theorem client_reader_exit_disconnects_current (sock : nat)
  (rs : list ConnMgr.client_recv) (s : ConnMgr.session) :
  ConnMgr.lock_held s = false ->
  Forall (fun r => r = ConnMgr.CRecvTimeout \/
                   exists d, r = ConnMgr.CRecvData d /\ d <> []) rs ->
  exists s', ConnMgr.handle_client_data sock (rs ++ [ConnMgr.CRecvError]) s = ConnMgr.Done tt s' /\
    ConnMgr.connected s' = false /\ ConnMgr.client_socket s' = None /\
    ConnMgr.lock_held s' = false /\
    ConnMgr.closed s' = match ConnMgr.client_socket s with
                        | Some c => c :: ConnMgr.closed s | None => ConnMgr.closed s end.
Proof.
  intros Hl Hrs. induction Hrs as [|r rest Hr Hrest IH].
  - cbn [app ConnMgr.handle_client_data]. unfold ConnMgr.sbind at 1, ConnMgr.get at 1.
    destruct (ConnMgr.server_running s && ConnMgr.connected s);
      exact (disconnect_client_free s Hl).
  - cbn [app ConnMgr.handle_client_data]. unfold ConnMgr.sbind at 1, ConnMgr.get at 1.
    destruct (ConnMgr.server_running s && ConnMgr.connected s).
    + destruct Hr as [->|(d & -> & Hd)]; [exact IH|].
      destruct d as [|b d']; [contradiction|]. exact IH.
    + exact (disconnect_client_free s Hl).
Qed.

Lemma client_reader_exit_disconnects_current_witness :
  exists s', ConnMgr.handle_client_data 4%nat
      ([ConnMgr.CRecvTimeout] ++ [ConnMgr.CRecvError])
      (ConnMgr.mkSession (Some 5%nat) (Some "10.0.0.5"%string) (JStr "tablet") true true false
         [4%nat] [] [(false, JStr EmptyString); (true, JStr "tablet")] [5%nat; 4%nat])
    = ConnMgr.Done tt s' /\
    ConnMgr.connected s' = false /\ ConnMgr.client_socket s' = None /\
    ConnMgr.lock_held s' = false /\ ConnMgr.closed s' = [5%nat; 4%nat].
Proof.
  apply (client_reader_exit_disconnects_current 4%nat [ConnMgr.CRecvTimeout]
           (ConnMgr.mkSession (Some 5%nat) (Some "10.0.0.5"%string) (JStr "tablet") true true
              false [4%nat] [] [(false, JStr EmptyString); (true, JStr "tablet")]
              [5%nat; 4%nat])).
  - reflexivity.
  - constructor; [left; reflexivity|constructor].
Defined.

(** ** X: [InputCapture] *)

Lemma check_screen_edge_in (c : Capture.capture) (x y : Z) (e : string) :
  Capture.check_screen_edge_switch c x y = Some e ->
  In e ["left"; "right"; "top"; "bottom"]%string.
Proof.
  unfold Capture.check_screen_edge_switch.
  repeat match goal with |- context [if ?b then _ else _] => destruct b end;
    intros H; inversion H; cbn; tauto.
Qed.

Lemma on_mouse_move_cases (c : Capture.capture) (x y : Z) (ts : bool) (now : json)
  (c1 : Capture.capture) (e1 : list json) :
  Capture.on_mouse_move c x y ts now = (c1, e1) ->
  (Capture.control_active c1 = Capture.control_active c /\
   (e1 = [] \/ Capture.control_active c = true /\ e1 = [Capture.mouse_move_event x y now])) \/
  (Capture.control_active c = false /\ Capture.control_active c1 = true /\
   exists edge, In edge ["left"; "right"; "top"; "bottom"]%string /\
     e1 = [Capture.control_switch_event edge now]).
Proof.
  unfold Capture.on_mouse_move.
  destruct (Capture.active c); [|intros H; inversion H; subst; left; auto].
  destruct ts; [intros H; inversion H; subst; left; auto|].
  cbn [negb].
  destruct (Capture.check_screen_edge_switch _ x y) as [edge|] eqn:Ee;
    cbn [Capture.control_active]; destruct (Capture.control_active c) eqn:Ec;
    cbn [negb]; intros H; inversion H; subst; cbn.
  - left. auto.
  - right. split; [reflexivity|]. split; [reflexivity|].
    exists edge. split; [exact (check_screen_edge_in _ x y edge Ee)|reflexivity].
  - left. auto.
  - left. auto.
Qed.

Lemma key_handlers_keep_state (c : Capture.capture) (k : Capture.key) (now : json)
  (c1 : Capture.capture) (e1 : list json) :
  (Capture.on_key_press c k now = Ok (c1, e1) \/ Capture.on_key_release c k now = Ok (c1, e1)) ->
  c1 = c /\ Forall (fun e => exists ty ks kc p, e = Capture.key_event ty ks kc p now /\
                      (ty = "key_press" \/ ty = "key_release")%string) e1.
Proof.
  unfold Capture.on_key_press, Capture.on_key_release, Capture.is_control_toggle_hotkey.
  destruct (Capture.active c); cbn [negb];
    [|intros [H|H]; inversion H; subst; auto].
  destruct (Capture.key_info k) as [[ks kc]|e]; cbn [bind]; intros [H|H]; inversion H; subst;
    (split; [reflexivity|]); constructor; try constructor.
  - exists "key_press"%string, ks, kc, true. auto.
  - exists "key_release"%string, ks, kc, false. auto.
Qed.

Lemma step_control_mono (c : Capture.capture) (o : Capture.op) (c1 : Capture.capture)
  (e1 : list json) :
  Capture.step c o = Ok (c1, e1) ->
  (Capture.control_active c = true -> Capture.control_active c1 = true) /\
  (forall now, ~ In (Capture.control_switch_event "return_to_pc" now) e1).
Proof.
  destruct o as [| |x y ts now|x y b p now|x y dx dy now|k now|k now]; cbn [Capture.step];
    intros H.
  - inversion H; subst. split; [auto|intros _ []].
  - inversion H; subst. split; [auto|intros _ []].
  - inversion H as [H1].
    destruct (on_mouse_move_cases c x y ts now c1 e1 H1)
      as [[-> [->|[_ ->]]]|(-> & -> & edge & Hin & ->)].
    + split; [auto|intros _ []].
    + split; [auto|]. intros n [Hn|[]]. discriminate Hn.
    + split; [auto|]. intros n [Hn|[]]. inversion Hn; subst.
      cbn in Hin. intuition discriminate.
  - inversion H as [H1]. unfold Capture.on_mouse_click in H1.
    destruct (negb (Capture.active c) || negb (Capture.control_active c));
      inversion H1; subst; (split; [auto|]); [intros _ []|].
    intros n [Hn|[]]. discriminate Hn.
  - inversion H as [H1]. unfold Capture.on_mouse_scroll in H1.
    destruct (negb (Capture.active c) || negb (Capture.control_active c));
      inversion H1; subst; (split; [auto|]); [intros _ []|].
    intros n [Hn|[]]. discriminate Hn.
  - destruct (key_handlers_keep_state c k now c1 e1 (or_introl H)) as [-> Hk].
    split; [auto|]. intros n Hn. rewrite Forall_forall in Hk.
    destruct (Hk _ Hn) as (ty & ks & kc & p & He & _). discriminate He.
  - destruct (key_handlers_keep_state c k now c1 e1 (or_intror H)) as [-> Hk].
    split; [auto|]. intros n Hn. rewrite Forall_forall in Hk.
    destruct (Hk _ Hn) as (ty & ks & kc & p & He & _). discriminate He.
Qed.

Lemma run_cons (c : Capture.capture) (o : Capture.op) (rest : list Capture.op)
  (c' : Capture.capture) (evs : list json) :
  Capture.run c (o :: rest) = Ok (c', evs) ->
  exists c1 e1 e2, Capture.step c o = Ok (c1, e1) /\ Capture.run c1 rest = Ok (c', e2) /\
    evs = e1 ++ e2.
Proof.
  cbn [Capture.run].
  destruct (Capture.step c o) as [[c1 e1]|e] eqn:E1; cbn [bind]; [|discriminate].
  destruct (Capture.run c1 rest) as [[c2 e2]|e] eqn:E2; cbn [bind]; [|discriminate].
  intros H. inversion H; subst. exists c1, e1, e2. auto.
Qed.

Lemma run_control_mono (c : Capture.capture) (ops : list Capture.op) (c' : Capture.capture)
  (evs : list json) :
  Capture.run c ops = Ok (c', evs) ->
  (Capture.control_active c = true -> Capture.control_active c' = true) /\
  (forall now, ~ In (Capture.control_switch_event "return_to_pc" now) evs).
Proof.
  revert c evs. induction ops as [|o rest IH]; intros c evs H.
  - cbn in H. inversion H; subst. split; [auto|intros _ []].
  - destruct (run_cons c o rest c' evs H) as (c1 & e1 & e2 & H1 & H2 & ->).
    destruct (step_control_mono c o c1 e1 H1) as [M1 N1].
    destruct (IH c1 e2 H2) as [M2 N2].
    split; [auto|]. intros n Hn. apply in_app_or in Hn as [Hn|Hn]; [exact (N1 n Hn)|exact (N2 n Hn)].
Qed.

(** No call the application makes on its [InputCapture] gives control back
    to the PC: [return_control_to_pc] is never called, and [toggle_control]
    is reached only when [is_control_toggle_hotkey] holds, which it never
    does (a [control_return] message from the client is only logged). Once
    a mouse move at a screen edge has set [control_active], every later run
    of [start_capture], [stop_capture] and listener callbacks leaves it set,
    and no run emits a [control_switch] event with edge [return_to_pc]. *)
Theorem control_never_returns_to_pc (c : Capture.capture) (ops : list Capture.op)
  (c' : Capture.capture) (evs : list json) :
  Capture.run c ops = Ok (c', evs) ->
  (Capture.control_active c = true -> Capture.control_active c' = true) /\
  (forall now, ~ In (Capture.control_switch_event "return_to_pc" now) evs).
Proof. exact (run_control_mono c ops c' evs). Qed.

Lemma control_never_returns_to_pc_witness :
  Capture.run (Capture.init 1920 1080)
    [Capture.StartCapture; Capture.MouseMove 5 500 false (JInt 1000);
     Capture.KeyPress (Capture.KeyEnum "esc") (JInt 1100); Capture.StopCapture;
     Capture.StartCapture; Capture.MouseMove 960 540 false (JInt 2000)]
  = Ok (Capture.mkCapture true true 1920 1080 10 960 540,
        [Capture.control_switch_event "left" (JInt 1000);
         Capture.key_event "key_press" "esc" 0 true (JInt 1100);
         Capture.mouse_move_event 960 540 (JInt 2000)]) /\
  (Capture.control_active (Capture.init 1920 1080) = true -> true = true) /\
  (forall now, ~ In (Capture.control_switch_event "return_to_pc" now)
     [Capture.control_switch_event "left" (JInt 1000);
      Capture.key_event "key_press" "esc" 0 true (JInt 1100);
      Capture.mouse_move_event 960 540 (JInt 2000)]).
Proof.
  assert (H : Capture.run (Capture.init 1920 1080)
    [Capture.StartCapture; Capture.MouseMove 5 500 false (JInt 1000);
     Capture.KeyPress (Capture.KeyEnum "esc") (JInt 1100); Capture.StopCapture;
     Capture.StartCapture; Capture.MouseMove 960 540 false (JInt 2000)]
  = Ok (Capture.mkCapture true true 1920 1080 10 960 540,
        [Capture.control_switch_event "left" (JInt 1000);
         Capture.key_event "key_press" "esc" 0 true (JInt 1100);
         Capture.mouse_move_event 960 540 (JInt 2000)])) by (vm_compute; reflexivity).
  split; [exact H|]. exact (control_never_returns_to_pc _ _ _ _ H).
Defined.

Lemma moves_under_control (c : Capture.capture) (ops : list Capture.op) (c' : Capture.capture)
  (evs : list json) :
  Capture.control_active c = true ->
  Forall (fun o => exists x y ts now, o = Capture.MouseMove x y ts now) ops ->
  Capture.run c ops = Ok (c', evs) ->
  Capture.control_active c' = true /\
  Forall (fun e => exists x y now, e = Capture.mouse_move_event x y now) evs.
Proof.
  intros Hc Hops. revert c evs Hc.
  induction Hops as [|o rest Ho Hrest IH]; intros c evs Hc H.
  - cbn in H. inversion H; subst. auto.
  - destruct (run_cons c o rest c' evs H) as (c1 & e1 & e2 & H1 & H2 & ->).
    destruct Ho as (x & y & ts & now & ->). cbn [Capture.step] in H1. inversion H1 as [H1'].
    destruct (on_mouse_move_cases c x y ts now c1 e1 H1')
      as [[Ec [->|[_ ->]]]|(Hf & _ & _)]; [| |congruence].
    + rewrite Hc in Ec. destruct (IH c1 e2 Ec H2) as [Hc' Hf]. auto.
    + rewrite Hc in Ec. destruct (IH c1 e2 Ec H2) as [Hc' Hf].
      split; [exact Hc'|]. constructor; [eauto|exact Hf].
Qed.

(** Mouse movement reaches the client only after control has passed to the
    device. In any run of [on_mouse_move] calls started with the PC in
    control, either nothing is emitted and the PC keeps control, or the
    first emission is one [control_switch] event whose edge is [left],
    [right], [top] or [bottom] (the first move, not rate-limited, within
    [edge_threshold] pixels of a screen edge), control passes to the device,
    and every later emission is a [mouse_move] event. *)
Theorem mouse_moves_after_edge_switch (c : Capture.capture) (ops : list Capture.op)
  (c' : Capture.capture) (evs : list json) :
  Capture.control_active c = false ->
  Forall (fun o => exists x y ts now, o = Capture.MouseMove x y ts now) ops ->
  Capture.run c ops = Ok (c', evs) ->
  (evs = [] /\ Capture.control_active c' = false) \/
  (exists edge now rest, evs = Capture.control_switch_event edge now :: rest /\
     In edge ["left"; "right"; "top"; "bottom"]%string /\
     Forall (fun e => exists x y t, e = Capture.mouse_move_event x y t) rest /\
     Capture.control_active c' = true).
Proof.
  intros Hc Hops. revert c evs Hc.
  induction Hops as [|o rest Ho Hrest IH]; intros c evs Hc H.
  - cbn in H. inversion H; subst. left. auto.
  - destruct (run_cons c o rest c' evs H) as (c1 & e1 & e2 & H1 & H2 & ->).
    destruct Ho as (x & y & ts & now & ->). cbn [Capture.step] in H1. inversion H1 as [H1'].
    destruct (on_mouse_move_cases c x y ts now c1 e1 H1')
      as [[Ec [->|[Ht ->]]]|(_ & Hc1 & edge & Hin & ->)]; [|congruence|].
    + rewrite Hc in Ec. exact (IH c1 e2 Ec H2).
    + destruct (moves_under_control c1 rest c' e2 Hc1 Hrest H2) as [Hc' Hm].
      right. exists edge, now, e2. auto.
Qed.

Lemma mouse_moves_after_edge_switch_witness :
  Capture.run (Capture.start_capture (Capture.init 1920 1080))
    [Capture.MouseMove 960 540 false (JInt 1000); Capture.MouseMove 1915 300 false (JInt 1100);
     Capture.MouseMove 1900 310 true (JInt 1105); Capture.MouseMove 1800 320 false (JInt 1200)]
  = Ok (Capture.mkCapture true true 1920 1080 10 1800 320,
        [Capture.control_switch_event "right" (JInt 1100);
         Capture.mouse_move_event 1800 320 (JInt 1200)]) /\
  (([Capture.control_switch_event "right" (JInt 1100);
     Capture.mouse_move_event 1800 320 (JInt 1200)] = [] /\ true = false) \/
   (exists edge now rest,
      [Capture.control_switch_event "right" (JInt 1100);
       Capture.mouse_move_event 1800 320 (JInt 1200)]
      = Capture.control_switch_event edge now :: rest /\
      In edge ["left"; "right"; "top"; "bottom"]%string /\
      Forall (fun e => exists x y t, e = Capture.mouse_move_event x y t) rest /\
      true = true)).
Proof.
  assert (H : Capture.run (Capture.start_capture (Capture.init 1920 1080))
    [Capture.MouseMove 960 540 false (JInt 1000); Capture.MouseMove 1915 300 false (JInt 1100);
     Capture.MouseMove 1900 310 true (JInt 1105); Capture.MouseMove 1800 320 false (JInt 1200)]
  = Ok (Capture.mkCapture true true 1920 1080 10 1800 320,
        [Capture.control_switch_event "right" (JInt 1100);
         Capture.mouse_move_event 1800 320 (JInt 1200)])) by (vm_compute; reflexivity).
  split; [exact H|].
  refine (mouse_moves_after_edge_switch (Capture.start_capture (Capture.init 1920 1080)) _
            (Capture.mkCapture true true 1920 1080 10 1800 320) _ eq_refl _ H).
  repeat constructor; do 4 eexists; reflexivity.
Defined.

Lemma step_pc_control_keys (c : Capture.capture) (o : Capture.op) (c1 : Capture.capture)
  (e1 : list json) :
  Capture.control_active c = false ->
  Capture.step c o = Ok (c1, e1) ->
  Capture.control_active c1 = false ->
  Forall (fun e => exists ty ks kc p now, e = Capture.key_event ty ks kc p now /\
                     (ty = "key_press" \/ ty = "key_release")%string) e1.
Proof.
  intros Hc.
  destruct o as [| |x y ts now|x y b p now|x y dx dy now|k now|k now]; cbn [Capture.step];
    intros H Hc1.
  - inversion H; subst. constructor.
  - inversion H; subst. constructor.
  - inversion H as [H1].
    destruct (on_mouse_move_cases c x y ts now c1 e1 H1)
      as [[_ [->|[Ht _]]]|(_ & Ht & _)]; [constructor|congruence|congruence].
  - inversion H as [H1]. unfold Capture.on_mouse_click in H1. rewrite Hc in H1.
    rewrite orb_true_r in H1. inversion H1; subst. constructor.
  - inversion H as [H1]. unfold Capture.on_mouse_scroll in H1. rewrite Hc in H1.
    rewrite orb_true_r in H1. inversion H1; subst. constructor.
  - destruct (key_handlers_keep_state c k now c1 e1 (or_introl H)) as [_ Hk].
    eapply Forall_impl; [|exact Hk]. intros e (ty & ks & kc & p & He & Ht). eauto 7.
  - destruct (key_handlers_keep_state c k now c1 e1 (or_intror H)) as [_ Hk].
    eapply Forall_impl; [|exact Hk]. intros e (ty & ks & kc & p & He & Ht). eauto 7.
Qed.

(** While the PC keeps control, keystrokes are still forwarded: in any run
    of [InputCapture] calls that starts and ends with [control_active]
    unset, every emitted [input_event] is a [key_press] or [key_release]
    event. Mouse moves, clicks and scrolls are held back, but every key
    pressed on the PC while capture is on is emitted, and [on_input_event]
    sends it to a connected client. *)
Theorem pc_control_emits_only_keys (c : Capture.capture) (ops : list Capture.op)
  (c' : Capture.capture) (evs : list json) :
  Capture.control_active c = false ->
  Capture.run c ops = Ok (c', evs) ->
  Capture.control_active c' = false ->
  Forall (fun e => exists ty ks kc p now, e = Capture.key_event ty ks kc p now /\
                     (ty = "key_press" \/ ty = "key_release")%string) evs.
Proof.
  revert c evs. induction ops as [|o rest IH]; intros c evs Hc H Hc'.
  - cbn in H. inversion H; subst. constructor.
  - destruct (run_cons c o rest c' evs H) as (c1 & e1 & e2 & H1 & H2 & ->).
    destruct (Capture.control_active c1) eqn:Ec1.
    + rewrite (proj1 (run_control_mono c1 rest c' e2 H2) Ec1) in Hc'. discriminate Hc'.
    + apply Forall_app. split.
      * exact (step_pc_control_keys c o c1 e1 Hc H1 Ec1).
      * exact (IH c1 e2 Ec1 H2 Hc').
Qed.

Lemma pc_control_emits_only_keys_witness :
  Capture.run (Capture.init 1920 1080)
    [Capture.StartCapture; Capture.MouseMove 960 540 false (JInt 1000);
     Capture.MouseClick 960 540 "left" true (JInt 1010);
     Capture.KeyPress (Capture.KeyCode (Some "p"%string) "'p'") (JInt 1020);
     Capture.KeyRelease (Capture.KeyEnum "shift") (JInt 1030)]
  = Ok (Capture.mkCapture true false 1920 1080 10 960 540,
        [Capture.key_event "key_press" "p" 112 true (JInt 1020);
         Capture.key_event "key_release" "shift" 16 false (JInt 1030)]) /\
  Forall (fun e => exists ty ks kc p now, e = Capture.key_event ty ks kc p now /\
                     (ty = "key_press" \/ ty = "key_release")%string)
    [Capture.key_event "key_press" "p" 112 true (JInt 1020);
     Capture.key_event "key_release" "shift" 16 false (JInt 1030)].
Proof.
  assert (H : Capture.run (Capture.init 1920 1080)
    [Capture.StartCapture; Capture.MouseMove 960 540 false (JInt 1000);
     Capture.MouseClick 960 540 "left" true (JInt 1010);
     Capture.KeyPress (Capture.KeyCode (Some "p"%string) "'p'") (JInt 1020);
     Capture.KeyRelease (Capture.KeyEnum "shift") (JInt 1030)]
  = Ok (Capture.mkCapture true false 1920 1080 10 960 540,
        [Capture.key_event "key_press" "p" 112 true (JInt 1020);
         Capture.key_event "key_release" "shift" 16 false (JInt 1030)]))
    by (vm_compute; reflexivity).
  split; [exact H|].
  exact (pc_control_emits_only_keys (Capture.init 1920 1080) _
           (Capture.mkCapture true false 1920 1080 10 960 540) _ eq_refl H eq_refl).
Defined.

(** ** C3 *)

Lemma reader_exit_disconnect (sock : nat) (rs : list ConnMgr.client_recv)
  (s : ConnMgr.session) :
  ConnMgr.lock_held s = false ->
  Forall (fun r => r = ConnMgr.CRecvTimeout \/
                   exists d, r = ConnMgr.CRecvData d /\ d <> []) rs ->
  exists s', ConnMgr.handle_client_data sock (rs ++ [ConnMgr.CRecvError]) s = ConnMgr.Done tt s' /\
    ConnMgr.connected s' = false /\ ConnMgr.client_socket s' = None /\
    ConnMgr.closed s' = match ConnMgr.client_socket s with
                        | Some c => c :: ConnMgr.closed s | None => ConnMgr.closed s end.
Proof.
  intros Hl Hrs. induction Hrs as [|r rest Hr Hrest IH].
  - cbn [app ConnMgr.handle_client_data]. unfold ConnMgr.sbind at 1, ConnMgr.get at 1.
    destruct (ConnMgr.server_running s && ConnMgr.connected s);
      destruct (disconnect_client_free s Hl) as (s1 & H1 & Hc & Hs & _ & Hd);
      exists s1; auto.
  - cbn [app ConnMgr.handle_client_data]. unfold ConnMgr.sbind at 1, ConnMgr.get at 1.
    destruct (ConnMgr.server_running s && ConnMgr.connected s).
    + destruct Hr as [->|(d & -> & Hd)]; [exact IH|].
      destruct d as [|b d']; [contradiction|]. exact IH.
    + destruct (disconnect_client_free s Hl) as (s1 & H1 & Hc & Hs & _ & Hd).
      exists s1. auto.
Qed.

(** C3 (the exclusivity fails): two successful handshakes from sockets [a]
    and [b], in sequence, from any state with the lock free, do leave [b]
    installed and connected and [a] closed, and each starts the reader
    thread [handle_client_data] of its socket. But the reader thread of
    [a] is still running: its [recv] on the closed socket [a] fails (after
    any number of timeouts of the 5 s timeout [receive_json] set, or
    messages still delivered), the loop ends, and its final
    [disconnect_client()] tears down the session installed at that time,
    which is [b]'s: [b] is closed and no session is connected. *)
Theorem earlier_reader_tears_down_later_session (s : ConnMgr.session) (a b : nat)
  (addr_a addr_b name_a name_b : string) (rs : list ConnMgr.client_recv) :
  ConnMgr.lock_held s = false ->
  Forall (fun r => r = ConnMgr.CRecvTimeout \/
                   exists d, r = ConnMgr.CRecvData d /\ d <> []) rs ->
  exists s1 s2 s3,
    ConnMgr.handle_client_connection a addr_a (Some (handshake_response name_a)) s
      = ConnMgr.Done (Some a) s1 /\
    ConnMgr.handle_client_connection b addr_b (Some (handshake_response name_b)) s1
      = ConnMgr.Done (Some b) s2 /\
    ConnMgr.client_socket s2 = Some b /\ ConnMgr.connected s2 = true /\
    In a (ConnMgr.closed s2) /\
    ConnMgr.handle_client_data a (rs ++ [ConnMgr.CRecvError]) s2 = ConnMgr.Done tt s3 /\
    ConnMgr.connected s3 = false /\ ConnMgr.client_socket s3 = None /\
    In b (ConnMgr.closed s3).
Proof.
  intros Hl Hrs.
  destruct (handshake_step s a addr_a name_a Hl) as (s1 & H1 & Hc1 & Hk1 & Hl1 & Ha1 & Hd1).
  destruct (handshake_step s1 b addr_b name_b Hl1) as (s2 & H2 & Hc2 & Hk2 & Hl2 & Ha2 & Hd2).
  destruct (reader_exit_disconnect a rs s2 Hl2 Hrs) as (s3 & H3 & Hk3 & Hc3 & Hd3).
  exists s1, s2, s3. rewrite Hc1 in Hd2. rewrite Hc2 in Hd3.
  repeat split; try assumption.
  - rewrite Hd2. left. reflexivity.
  - rewrite Hd3. left. reflexivity.
Qed.

Lemma earlier_reader_tears_down_later_session_witness :
  exists s1 s2 s3,
    ConnMgr.handle_client_connection 2%nat "10.0.0.2" (Some (handshake_response "phone A"))
      (ConnMgr.mkSession None None (JStr EmptyString) false true false [] [] [] [])
      = ConnMgr.Done (Some 2%nat) s1 /\
    ConnMgr.handle_client_connection 3%nat "10.0.0.3" (Some (handshake_response "phone B")) s1
      = ConnMgr.Done (Some 3%nat) s2 /\
    ConnMgr.client_socket s2 = Some 3%nat /\ ConnMgr.connected s2 = true /\
    In 2%nat (ConnMgr.closed s2) /\
    ConnMgr.handle_client_data 2%nat ([ConnMgr.CRecvTimeout] ++ [ConnMgr.CRecvError]) s2
      = ConnMgr.Done tt s3 /\
    ConnMgr.connected s3 = false /\ ConnMgr.client_socket s3 = None /\
    In 3%nat (ConnMgr.closed s3).
Proof.
  apply (earlier_reader_tears_down_later_session
           (ConnMgr.mkSession None None (JStr EmptyString) false true false [] [] [] [])
           2%nat 3%nat "10.0.0.2" "10.0.0.3" "phone A" "phone B" [ConnMgr.CRecvTimeout]).
  - reflexivity.
  - constructor; [left; reflexivity|constructor].
Defined.

(** ** C6 *)

Lemma utf8_encode_ascii_app (a b : string) :
  utf8_encode_ascii (a ++ b) = utf8_encode_ascii a ++ utf8_encode_ascii b.
Proof. unfold utf8_encode_ascii. rewrite list_ascii_of_string_append. apply map_app. Qed.

Lemma build_packet_small_length (L : pylib) (st : Protocol.handler) (t : Z) (payload : bytes)
  (frame : bytes) (st' : Protocol.handler) :
  (List.length payload <= 64)%nat ->
  Protocol.build_packet L st t payload = Ok (frame, st') ->
  List.length frame = (5 + List.length payload)%nat /\ st' = Protocol.next_seq st.
Proof.
  intros Hl. unfold Protocol.build_packet, Protocol.compress_step.
  replace (64 <? Z.of_nat (List.length payload)) with false by (symmetry; apply Z.ltb_ge; lia).
  rewrite andb_false_r.
  destruct (struct_pack "<HB" [PInt Protocol.HEADER_MAGIC; PInt t]) as [hdr|] eqn:Eh;
    cbn [bind]; [|discriminate].
  destruct (struct_pack "<H" [PInt (Protocol.calculate_checksum (hdr ++ payload))]) as [ck|]
    eqn:Ec; cbn [bind]; [|discriminate].
  intros H; inversion H; subst.
  apply struct_pack_HB in Eh. apply struct_pack_H in Ec. subst ck.
  rewrite !length_app, Eh, le_bytes_length. split; [lia|reflexivity].
Qed.

Lemma create_json_packet_small_length (L : pylib) (st : Protocol.handler) (ev : json)
  (frame : bytes) (st' : Protocol.handler) :
  (List.length (utf8_encode_ascii (dumps ev)) <= 60)%nat ->
  Protocol.create_json_packet L st ev = Ok (frame, st') ->
  List.length frame = (9 + List.length (utf8_encode_ascii (dumps ev)))%nat /\
  st' = Protocol.next_seq st.
Proof.
  intros Hl. unfold Protocol.create_json_packet.
  destruct (struct_pack "<HH" _) as [hdr|] eqn:Eh; cbn [bind]; [|discriminate].
  apply struct_pack_HH in Eh. subst hdr. intros H.
  apply build_packet_small_length in H;
    [|rewrite !length_app, !le_bytes_length; lia].
  destruct H as [H ->]. split; [|reflexivity].
  rewrite H, !length_app, !le_bytes_length. lia.
Qed.

Lemma create_batch_packet_ok (st : Protocol.handler) (events : list json) :
  0 <= Protocol.packet_sequence st < 65536 ->
  Z.of_nat (List.length (utf8_encode_ascii (dumps (JArr events)))) < 65536 ->
  exists frame, Protocol.create_batch_packet st events = Ok (frame, Protocol.next_seq st).
Proof.
  intros Hs Hn. unfold Protocol.create_batch_packet.
  set (data := utf8_encode_ascii (dumps (JArr events))) in *.
  rewrite (struct_pack_HH_ok _ _ Hs) by lia.
  rewrite (struct_pack_HB_ok Protocol.HEADER_MAGIC 254) by (unfold Protocol.HEADER_MAGIC; lia).
  cbn [bind].
  pose proof (checksum_range ((le_bytes 2 Protocol.HEADER_MAGIC ++ le_bytes 1 254) ++
                   (le_bytes 2 (Protocol.packet_sequence st) ++ le_bytes 2 (Z.of_nat (List.length data))) ++ data)) as Hc.
  specialize (Hc ltac:(rewrite !Forall_app; refine (conj (conj _ _) (conj (conj _ _) _)); first [apply le_bytes_valid | apply utf8_encode_ascii_valid])).
  change (2 ^ 16) with 65536 in Hc.
  rewrite (struct_pack_H_ok _ Hc). cbn [bind]. eexists. reflexivity.
Qed.

(** C6 (the size bound fails): [batch_events] counts the size of a batch
    as the sum of the lengths of the records' own [create_packet] frames,
    but sends the group as one [create_batch_packet] frame, whose JSON text
    adds the brackets of the list. For every record [e] that
    [create_packet] encodes with a JSON text of at most 60 bytes, taking
    [max_size] to be the length of [e]'s own frame (so [e] fits), the
    batch of [e] alone is one frame of [max_size + 2] bytes. *)
Theorem batch_frame_exceeds_max_size_by_two (L : pylib) (st : Protocol.handler) (now e : json)
  (packet : bytes) (st1 : Protocol.handler) :
  Protocol.create_packet L st now e = Ok (packet, st1) ->
  (List.length (utf8_encode_ascii (dumps e)) <= 60)%nat ->
  let max_size := Z.of_nat (List.length packet) in
  exists frame st2,
    Protocol.batch_events L st now [e] max_size = Ok ([frame], st2) /\
    Z.of_nat (List.length frame) = max_size + 2.
Proof.
  intros Hp Hl max_size.
  destruct (create_json_packet_small_length L st e packet st1 Hl (create_packet_json L st now e packet st1 Hp))
    as [Hpl Hst1].
  assert (Hd : utf8_encode_ascii (dumps (JArr [e]))
               = utf8_encode_ascii "[" ++ utf8_encode_ascii (dumps e) ++ utf8_encode_ascii "]").
  { cbn [dumps map join]. rewrite !utf8_encode_ascii_app. reflexivity. }
  assert (Hdl : List.length (utf8_encode_ascii (dumps (JArr [e])))
                = (2 + List.length (utf8_encode_ascii (dumps e)))%nat).
  { rewrite Hd, !length_app. cbn. lia. }
  destruct (create_batch_packet_ok st1 [e]) as [frame Hb].
  - rewrite Hst1. cbn [Protocol.next_seq Protocol.packet_sequence].
    apply Z.mod_pos_bound. lia.
  - rewrite Hdl. lia.
  - exists frame, (Protocol.next_seq st1). split.
    + unfold Protocol.batch_events. cbn [Protocol.batch_loop]. rewrite Hp. cbn [bind].
      rewrite andb_false_r. cbn [Protocol.batch_loop app]. rewrite Hb. reflexivity.
    + destruct (create_batch_packet_layout st1 [e] frame _ Hb) as [Hf _].
      rewrite Hf. unfold max_size. rewrite Hpl, !length_app, !le_bytes_length, Hdl.
      cbn [List.length]. lia.
Qed.

Lemma batch_frame_exceeds_max_size_by_two_witness :
  exists frame st2,
    Protocol.batch_events lib0 Protocol.init_handler (JInt 0) [JObj []] 11 = Ok ([frame], st2) /\
    Z.of_nat (List.length frame) = 11 + 2.
Proof.
  exact (batch_frame_exceeds_max_size_by_two lib0 Protocol.init_handler (JInt 0) (JObj [])
           [187; 170; 255; 0; 0; 2; 0; 123; 125; 42; 102] (Protocol.next_seq Protocol.init_handler)
           (ltac:(vm_compute; reflexivity)) (ltac:(apply Nat.leb_le; reflexivity))).
Defined.
